(** * F1TrackDownloader: a shallow embedding of the resolution core

    The Python sources under [f1_downloader/] are embedded function by
    function.  Python values that travel through JSON (Overpass and SPARQL
    payloads, the mapping-store file) are kept dynamically typed, as in the
    source, and every operation that can raise in Python returns a [res]. *)

From Stdlib Require Import ZArith QArith String Ascii DecimalString Sorted.
From stdpp Require Import gmap strings list fin_maps.

Set Warnings "-register-all,-clear-no-such-hyp".

Local Open Scope string_scope.
Local Open Scope list_scope.
Local Open Scope Z_scope.

(** ** Python values and exceptions *)

Module Py.

(** A JSON number that is not an [int]: the rational it denotes, or one of
    the non-finite literals accepted by [json.load]. *)
Inductive pyfloat :=
| FlFinite (q : Q)
| FlInf (negative : bool)
| FlNan.

Inductive pyval :=
| PNone
| PBool (b : bool)
| PInt (n : Z)
| PFloat (f : pyfloat)
| PStr (s : string)
| PList (l : list pyval)
| PDict (d : gmap string pyval).

Inductive exn :=
| KeyError
| TypeError
| AttributeError
| ValueError
| OverflowError
| RequestException
| OSError.

Inductive res (A : Type) :=
| Ok (a : A)
| Raise (e : exn).
Arguments Ok {A} a.
Arguments Raise {A} e.

(** Sequencing: an exception aborts what follows.  The [x ← m; k] notation
    is stdpp's. *)
#[global] Instance res_ret : MRet res := fun A a => Ok a.

#[global] Instance res_bind : MBind res := fun A B k m =>
  match m with
  | Ok a => k a
  | Raise e => Raise e
  end.

(** [for x in xs: body], the accumulator threaded through, stopping at the
    first exception. *)
Fixpoint for_each {A S} (body : S -> A -> res S) (xs : list A) (s : S) : res S :=
  match xs with
  | [] => Ok s
  | x :: xs' => s' ← body s x; for_each body xs' s'
  end.

(** [[f(x) for x in xs]] *)
Fixpoint comprehension {A B} (f : A -> res B) (xs : list A) : res (list B) :=
  match xs with
  | [] => Ok []
  | x :: xs' => y ← f x; ys ← comprehension f xs'; Ok (y :: ys)
  end.

(** Truth value testing ([if v:], [not v], [a or b]). *)
Definition truthy (v : pyval) : bool :=
  match v with
  | PNone => false
  | PBool b => b
  | PInt n => negb (n =? 0)%Z
  | PFloat (FlFinite q) => negb (Qeq_bool q 0)
  | PFloat _ => true
  | PStr s => negb (String.eqb s "")
  | PList l => match l with [] => false | _ => true end
  | PDict d => negb (bool_decide (d = ∅))
  end.

(** [v == "literal"]: only a [str] compares equal to a [str]. *)
Definition eq_str (v : pyval) (s : string) : bool :=
  match v with
  | PStr t => String.eqb t s
  | _ => false
  end.

(** [d.get(k)] and [d.get(k, default)] on a [dict]. *)
Definition dict_get (d : gmap string pyval) (k : string) : pyval :=
  default PNone (d !! k).

Definition dict_get_or (d : gmap string pyval) (k : string) (dflt : pyval) : pyval :=
  default dflt (d !! k).

(** [d[k]] on a [dict]. *)
Definition dict_item (d : gmap string pyval) (k : string) : res pyval :=
  match d !! k with
  | Some v => Ok v
  | None => Raise KeyError
  end.

(** [v.get(k, default)] on an arbitrary value: only a [dict] has [.get]. *)
Definition get_or (v : pyval) (k : string) (dflt : pyval) : res pyval :=
  match v with
  | PDict d => Ok (dict_get_or d k dflt)
  | _ => Raise AttributeError
  end.

Definition get (v : pyval) (k : string) : res pyval := get_or v k PNone.

(** [v[k]] with a [str] key on an arbitrary value. *)
Definition item (v : pyval) (k : string) : res pyval :=
  match v with
  | PDict d => dict_item d k
  | _ => Raise TypeError
  end.

(** [needle in hay] for two [str]: substring test. *)
Fixpoint str_contains (needle hay : string) : bool :=
  String.prefix needle hay ||
  match hay with
  | EmptyString => false
  | String _ rest => str_contains needle rest
  end.

(** ["literal" in v] on an arbitrary value. *)
Definition str_in (s : string) (v : pyval) : res bool :=
  match v with
  | PStr t => Ok (str_contains s t)
  | PList l => Ok (existsb (fun x => eq_str x s) l)
  | PDict d => Ok (bool_decide (is_Some (d !! s)))
  | _ => Raise TypeError
  end.

(** The characters of a [str], as one-character strings. *)
Fixpoint chars (s : string) : list pyval :=
  match s with
  | EmptyString => []
  | String c rest => PStr (String c EmptyString) :: chars rest
  end.

(** [for x in v]: the items a value yields when iterated.  A [dict] yields
    its keys; their order is not kept by the map, and the callers below
    fail on the first key whichever it is. *)
Definition iter (v : pyval) : res (list pyval) :=
  match v with
  | PList l => Ok l
  | PDict d => Ok (PStr <$> (map_to_list d).*1)
  | PStr s => Ok (chars s)
  | _ => Raise TypeError
  end.

End Py.
Import Py.

(** ** config.py *)

Record Config := {
  timeout : Z;
  max_retries : Z;
  retry_delay : Z;
  overpass_servers : list (string * string)
}.

(** The defaults of the [Config] dataclass. *)
Definition default_config : Config := {|
  timeout := 30;
  max_retries := 3;
  retry_delay := 5;
  overpass_servers :=
    [ ("overpass-api.de", "https://overpass-api.de/api/interpreter");
      ("kumi.systems", "https://overpass.kumi.systems/api/interpreter");
      ("mail.ru", "https://maps.mail.ru/osm/tools/overpass/api/interpreter");
      ("private.coffee", "https://overpass.private.coffee/api/interpreter");
      ("osm.jp", "https://overpass.osm.jp/api/interpreter") ]
|}.

(** [range(n)] *)
Definition range (n : Z) : list Z := Z.of_nat <$> seq 0 (Z.to_nat n).

(** ** clients/overpass.py *)

Module Overpass.

(** What [self._session.post] does: an HTTP response with its status code
    and what [resp.json()] gives, [requests.exceptions.Timeout], or another
    [requests.RequestException]. *)
Inductive post_outcome :=
| Responded (status_code : Z) (json : res pyval)
| TimedOut
| RequestFailed.

(** What the client does to the outside, in order. *)
Inductive event :=
| EvRateLimit
| EvPost (server_name : string)
| EvSleep (seconds : Z).

(** How one pass over the server list ends. *)
Inductive round_result :=
| Served (data : pyval) (server_name : string)
| Crashed (e : exn)
| AllFailed (timeouts rate_limits other_errors : Z).

(** The requests of one pass, in server order. *)
Definition posts (servers : list (string * string)) : list event :=
  (fun server => EvPost server.1) <$> servers.

Section Query.

(** The network: a state of its own, advanced by every request. *)
Context {W : Type}.
Variable post : string -> string -> Z -> W -> post_outcome * W.
Variable config : Config.

(** The fields of [OverpassClient] the executor touches, with the record of
    its requests and sleeps.  Logger calls, and [last_error] which only
    feeds one, are left out. *)
Record client := {
  world : W;
  _current_server : option string;
  trace : list event
}.

Definition emit (ev : event) (c : client) : client :=
  {| world := world c; _current_server := _current_server c;
     trace := trace c ++ [ev] |}.

(** [_rate_limit]: waits until [request_delay] has passed since the last
    request; the clock is not modelled, only that the wait happens here. *)
Definition _rate_limit (c : client) : client := emit EvRateLimit c.

(** The inner [for idx, (server_name, server_url) in enumerate(...)]. *)
Fixpoint try_servers (query : string) (timeout : Z)
    (servers : list (string * string))
    (timeouts rate_limits other_errors : Z) (c : client)
    : round_result * client :=
  match servers with
  | [] => (AllFailed timeouts rate_limits other_errors, c)
  | (server_name, server_url) :: rest =>
      let '(outcome, w) := post server_url query timeout (world c) in
      let c := emit (EvPost server_name)
                 {| world := w; _current_server := _current_server c;
                    trace := trace c |} in
      match outcome with
      | Responded status_code json =>
          if status_code =? 200 then
            let c := {| world := world c; _current_server := Some server_name;
                        trace := trace c |} in
            match json with
            | Ok data => (Served data server_name, c)
            | Raise RequestException =>
                try_servers query timeout rest
                  timeouts rate_limits (other_errors + 1) c
            | Raise e => (Crashed e, c)
            end
          else if status_code =? 429 then
            try_servers query timeout rest
              timeouts (rate_limits + 1) other_errors c
          else if status_code =? 504 then
            try_servers query timeout rest
              (timeouts + 1) rate_limits other_errors c
          else
            try_servers query timeout rest
              timeouts rate_limits (other_errors + 1) c
      | TimedOut =>
          try_servers query timeout rest
            (timeouts + 1) rate_limits other_errors c
      | RequestFailed =>
          try_servers query timeout rest
            timeouts rate_limits (other_errors + 1) c
      end
  end%Z.

(** The outer [for attempt in range(self.config.max_retries)], over the
    attempts still to run. *)
Fixpoint query_rounds (query : string) (timeout : Z) (attempts : list Z)
    (c : client) : res (option pyval * option string) * client :=
  match attempts with
  | [] => (Ok (None, None), c)
  | attempt :: rest =>
      match try_servers query timeout (overpass_servers config) 0 0 0 c with
      | (Served data server_name, c) => (Ok (Some data, Some server_name), c)
      | (Crashed e, c) => (Raise e, c)
      | (AllFailed timeouts rate_limits other_errors, c) =>
          if rate_limits =? 0 then (Ok (None, None), c)
          else
            let c :=
              if attempt <? max_retries config - 1
              then emit (EvSleep (retry_delay config * (attempt + 2))) c
              else c in
            query_rounds query timeout rest c
      end
  end%Z.

(** [OverpassClient.query(query, timeout)] *)
Definition query (q : string) (timeout_override : option Z) (c : client)
    : res (option pyval * option string) * client :=
  let c := _rate_limit c in
  let timeout :=
    match timeout_override with
    | Some t => if (t =? 0)%Z then timeout config else t
    | None => timeout config
    end in
  query_rounds q timeout (range (max_retries config)) c.

End Query.

(** [OverpassClient._circuit_score(element)], [element] being a [dict]. *)
Definition _circuit_score (element : gmap string pyval) : res Z :=
  let tags := dict_get_or element "tags" (PDict ∅) in
  let score := 0 in
  t_type ← get tags "type";
  let score := if eq_str t_type "circuit" then score + 100 else score in
  t_highway ← get tags "highway";
  let score := if eq_str t_highway "raceway" then score + 50 else score in
  t_sport ← get_or tags "sport" (PStr "");
  has_motor ← str_in "motor" t_sport;
  let score := if has_motor : bool then score + 10 else score in
  t_leisure ← get tags "leisure";
  let score := if eq_str t_leisure "track" then score + 10 else score in
  t_type ← get tags "type";
  let score := if eq_str t_type "multipolygon" || eq_str t_type "site"
               then score - 30 else score in
  t_leisure ← get tags "leisure";
  let score := if eq_str t_leisure "sports_centre" then score - 50 else score in
  t_highway ← get tags "highway";
  let score := if eq_str t_highway "services" then score - 60 else score in
  has_landuse ← str_in "landuse" tags;
  has_amenity ← (if has_landuse : bool then Ok true else str_in "amenity" tags);
  let score := if has_amenity : bool then score - 20 else score in
  let score := if eq_str (dict_get element "type") "relation"
               then score + 5 else score in
  Ok score.

(** The additive rule table of the Candidate Scorer, row by row as the
    specification lists it, over a tag map of strings and the element kind. *)
Definition tag_is (tags : gmap string string) (k v : string) : bool :=
  bool_decide (tags !! k = Some v).

Definition tag_contains (tags : gmap string string) (k s : string) : bool :=
  match tags !! k with
  | Some v => str_contains s v
  | None => false
  end.

Definition tag_present (tags : gmap string string) (k : string) : bool :=
  bool_decide (is_Some (tags !! k)).

Definition rule (condition : bool) (delta : Z) : Z :=
  if condition then delta else 0.

Definition rule_table_score (tags : gmap string string) (kind : option string) : Z :=
  rule (tag_is tags "type" "circuit") 100
  + rule (tag_is tags "highway" "raceway") 50
  + rule (tag_contains tags "sport" "motor") 10
  + rule (tag_is tags "leisure" "track") 10
  + rule (tag_is tags "type" "multipolygon" || tag_is tags "type" "site") (-30)
  + rule (tag_is tags "leisure" "sports_centre") (-50)
  + rule (tag_is tags "highway" "services") (-60)
  + rule (tag_present tags "landuse" || tag_present tags "amenity") (-20)
  + rule (bool_decide (kind = Some "relation")) 5.

(** The tag map of an element as Overpass delivers it: every value a [str]. *)
Definition str_tags (tags : gmap string string) : pyval :=
  PDict (PStr <$> tags).

(** The element kind ([element["type"]]) when it is a [str]. *)
Definition kind_of (element : gmap string pyval) : option string :=
  match element !! "type" with
  | Some (PStr k) => Some k
  | _ => None
  end.

End Overpass.

(** ** Strings

    A Python [str] is modelled by a [string] whose characters are the code
    points below 256. *)

Module Str.

(** [c.isspace()] on those code points. *)
Definition isspace (c : ascii) : bool :=
  let n := nat_of_ascii c in
  ((9 <=? n) && (n <=? 13) || (28 <=? n) && (n <=? 32)
   || (n =? 133) || (n =? 160))%nat.

Definition is_empty (s : string) : bool :=
  match s with
  | EmptyString => true
  | String _ _ => false
  end.

(** Leading and trailing characters of a class removed. *)
Fixpoint lstrip_by (blank : ascii -> bool) (s : string) : string :=
  match s with
  | EmptyString => EmptyString
  | String c rest => if blank c then lstrip_by blank rest else s
  end.

Fixpoint rstrip_by (blank : ascii -> bool) (s : string) : string :=
  match s with
  | EmptyString => EmptyString
  | String c rest =>
      let rest' := rstrip_by blank rest in
      if blank c && is_empty rest' then EmptyString else String c rest'
  end.

Definition strip_by (blank : ascii -> bool) (s : string) : string :=
  rstrip_by blank (lstrip_by blank s).

(** [s.strip()] *)
Definition strip (s : string) : string := strip_by isspace s.

(** [s.split(sep)] for a one-character separator: one piece more than there
    are separators. *)
Fixpoint split (sep : ascii) (s : string) : list string :=
  match s with
  | EmptyString => [EmptyString]
  | String c rest =>
      if Ascii.eqb c sep then EmptyString :: split sep rest
      else match split sep rest with
           | piece :: pieces => String c piece :: pieces
           | [] => [String c EmptyString]
           end
  end.

(** [sep.join(parts)] *)
Fixpoint join (sep : string) (parts : list string) : string :=
  match parts with
  | [] => ""
  | [part] => part
  | part :: rest => (part ++ sep ++ join sep rest)%string
  end.

(** [str(n)] for an [int]. *)
Definition of_int (n : Z) : string :=
  DecimalString.NilZero.string_of_int (Z.to_int n).

End Str.

(** ** Insertion-ordered dictionaries

    Where the source iterates over a [dict], its insertion order is kept:
    an association list without repeated keys. *)

Module ODict.

Definition odict (V : Type) := list (string * V).

Fixpoint get {V} (d : odict V) (k : string) : option V :=
  match d with
  | [] => None
  | (k', v) :: rest => if String.eqb k' k then Some v else get rest k
  end.

Definition mem {V} (d : odict V) (k : string) : bool :=
  match get d k with
  | Some _ => true
  | None => false
  end.

(** [d[k] = v]: an existing key keeps its place, a new one goes last. *)
Fixpoint set {V} (d : odict V) (k : string) (v : V) : odict V :=
  match d with
  | [] => [(k, v)]
  | (k', v') :: rest =>
      if String.eqb k' k then (k', v) :: rest else (k', v') :: set rest k v
  end.

Definition keys {V} (d : odict V) : list string := d.*1.

(** [{k: v for k in ks}] *)
Definition from_keys {V} (ks : list string) (v : V) : odict V :=
  fold_left (fun d k => set d k v) ks [].

End ODict.

(** ** models.py *)

Module Models.

Record Circuit := {
  name : string;
  location : string;
  country : string;
  grands_prix : string
}.

(** [Circuit.search_names] *)
Definition search_names (self : Circuit) : list string :=
  let names := [name self] in
  if negb (Str.is_empty (grands_prix self)) then
    fold_left
      (fun names gp_name =>
         let gp_name := Str.strip gp_name in
         if negb (Str.is_empty gp_name) then names ++ [gp_name] else names)
      (Str.split "," (grands_prix self)) names
  else names.

(** The search names in the words of the specification: the primary name,
    then the non-empty stripped comma-separated components of
    [grands_prix]. *)
Definition search_names_spec (self : Circuit) : list string :=
  name self
  :: filter (fun gp_name => Str.is_empty gp_name = false)
       (Str.strip <$> Str.split "," (grands_prix self)).

Record SearchResult := {
  sr_osm_id : pyval;
  sr_osm_type : pyval;
  sr_method : string;
  sr_wikidata_id : pyval
}.

(** [CacheEntry]: the dataclass does not check its annotations, so a field
    holds whatever value it was given. *)
Record CacheEntry := {
  osm_id : pyval;
  osm_type : pyval;
  wikidata_id : pyval;
  search_method : pyval;
  search_name : pyval;
  verified_at : pyval;
  manual : pyval;
  comment : pyval;
  osm_version : pyval
}.

(** The annotations of the dataclass: [int | None], [str | None], [str],
    [bool]. *)
Definition is_opt_int (v : pyval) : bool :=
  match v with PNone | PInt _ => true | _ => false end.

Definition is_opt_str (v : pyval) : bool :=
  match v with PNone | PStr _ => true | _ => false end.

Definition is_str (v : pyval) : bool :=
  match v with PStr _ => true | _ => false end.

Definition is_bool (v : pyval) : bool :=
  match v with PBool _ => true | _ => false end.

Definition well_typed (e : CacheEntry) : bool :=
  is_opt_int (osm_id e) && is_opt_str (osm_type e)
  && is_opt_str (wikidata_id e) && is_opt_str (search_method e)
  && is_opt_str (search_name e) && is_str (verified_at e)
  && is_bool (manual e) && is_opt_str (comment e)
  && is_opt_int (osm_version e).

(** [x is not None] *)
Definition is_not_none (v : pyval) : bool :=
  match v with PNone => false | _ => true end.

(** [CacheEntry.to_dict] *)
Definition to_dict (self : CacheEntry) : gmap string pyval :=
  let result : gmap string pyval :=
    {[ "osm_id" := osm_id self;
       "osm_type" := osm_type self;
       "wikidata_id" := wikidata_id self;
       "search_method" := search_method self;
       "search_name" := search_name self;
       "verified_at" := verified_at self;
       "manual" := manual self ]} in
  let result :=
    if truthy (comment self) then <["comment" := comment self]> result
    else result in
  let result :=
    if is_not_none (osm_version self)
    then <["osm_version" := osm_version self]> result
    else result in
  result.

(** [CacheEntry.from_dict] *)
Definition from_dict (data : gmap string pyval) : CacheEntry := {|
  osm_id := dict_get data "osm_id";
  osm_type := dict_get data "osm_type";
  wikidata_id := dict_get data "wikidata_id";
  search_method := dict_get data "search_method";
  search_name := dict_get data "search_name";
  verified_at := dict_get_or data "verified_at" (PStr "");
  manual := dict_get_or data "manual" (PBool false);
  comment := dict_get data "comment";
  osm_version := dict_get data "osm_version"
|}.

(** What a write followed by a read does to a record: a comment that
    tests false is dropped and read back as [None]. *)
Definition normalize (e : CacheEntry) : CacheEntry := {|
  osm_id := osm_id e;
  osm_type := osm_type e;
  wikidata_id := wikidata_id e;
  search_method := search_method e;
  search_name := search_name e;
  verified_at := verified_at e;
  manual := manual e;
  comment := if truthy (comment e) then comment e else PNone;
  osm_version := osm_version e
|}.

End Models.

(** ** cache.py *)

Module Cache.
Import Models.

(** [CircuitCache]: the loaded store [_data], and the snapshots [save] has
    handed to [json.dump], oldest first.  How a snapshot reaches the file is
    the matter of [Files] below; [save] itself swallows an [OSError]. *)
Record CircuitCache := {
  _data : gmap string pyval;
  saves : list (gmap string pyval)
}.

(** [CircuitCache.save] *)
Definition save (self : CircuitCache) : CircuitCache :=
  {| _data := _data self; saves := saves self ++ [_data self] |}.

(** [CircuitCache.get] *)
Definition get (name : string) (self : CircuitCache) : res (option CacheEntry) :=
  let circuits := dict_get_or (_data self) "circuits" (PDict ∅) in
  present ← str_in name circuits;
  if present : bool then
    entry ← item circuits name;
    match entry with
    | PDict data => Ok (Some (from_dict data))
    | _ => Raise AttributeError
    end
  else Ok None.

Definition opt_int (v : option Z) : pyval :=
  match v with Some n => PInt n | None => PNone end.

Definition opt_str (v : option string) : pyval :=
  match v with Some s => PStr s | None => PNone end.

(** [if s:] on a [str | None]. *)
Definition nonempty (v : option string) : bool := truthy (opt_str v).

(** The comment [set] gives an entry: the caller's, or the generated
    note when the entry needs a manual check and the caller gave none. *)
Definition entry_comment (needs_manual : bool)
    (wikidata_id comment : option string) : pyval :=
  if needs_manual && negb (nonempty comment) then
    let note := "TODO: verify OSM ID manually" in
    if nonempty wikidata_id
    then PStr (note ++ " (check https://www.wikidata.org/wiki/"
                    ++ default "" wikidata_id ++ ")")%string
    else PStr note
  else opt_str comment.

(** The generated note, with the link when the identifier is not empty. *)
Definition todo_note (first_qid : string) : string :=
  if Str.is_empty first_qid then "TODO: verify OSM ID manually"
  else ("TODO: verify OSM ID manually (check https://www.wikidata.org/wiki/"
        ++ first_qid ++ ")")%string.

(** The entry [set] builds: [manual] is set when there is no OSM id. *)
Definition new_entry (now : string) (osm_id : option Z)
    (osm_type wikidata_id method search_name comment : option string)
    : CacheEntry :=
  let needs_manual := bool_decide (osm_id = None) in
  {| Models.osm_id := opt_int osm_id;
     Models.osm_type := opt_str osm_type;
     Models.wikidata_id := opt_str wikidata_id;
     Models.search_method := opt_str method;
     Models.search_name := opt_str search_name;
     Models.verified_at := PStr now;
     Models.manual := PBool needs_manual;
     Models.comment := entry_comment needs_manual wikidata_id comment;
     Models.osm_version := PNone |}.

(** [CircuitCache.set]; [now] is the timestamp [datetime.now()] formats.
    The two [.get] calls need a [dict] each. *)
Definition set (now : string) (name : string) (osm_id : option Z)
    (osm_type wikidata_id method search_name comment : option string)
    (self : CircuitCache) : res () * CircuitCache :=
  let self :=
    match _data self !! "circuits" with
    | Some _ => self
    | None => {| _data := <["circuits" := PDict ∅]> (_data self);
                 saves := saves self |}
    end in
  match dict_get (_data self) "circuits" with
  | PDict circuits =>
      match default (PDict ∅) (circuits !! name) with
      | PDict existing =>
          if truthy (dict_get existing "manual") then (Ok (), self)
          else
            let entry :=
              new_entry now osm_id osm_type wikidata_id method search_name
                comment in
            (Ok (),
             save {| _data := <["circuits" :=
                                  PDict (<[name := PDict (to_dict entry)]> circuits)]>
                                (_data self);
                     saves := saves self |})
      | _ => (Raise AttributeError, self)
      end
  | _ => (Raise AttributeError, self)
  end.

(** [set] will store a record under the name: the store has no record for
    it, or one that is not manual. *)
Definition writable (self : CircuitCache) (name : string) : bool :=
  match _data self !! "circuits" with
  | None => true
  | Some (PDict circuits) =>
      match circuits !! name with
      | None => true
      | Some (PDict existing) => negb (truthy (dict_get existing "manual"))
      | Some _ => false
      end
  | Some _ => false
  end.

(** [CircuitCache.update_version] *)
Definition update_version (name : string) (version : Z) (self : CircuitCache)
    : res () * CircuitCache :=
  match _data self !! "circuits" with
  | None => (Ok (), self)
  | Some circuits =>
      match str_in name circuits with
      | Raise e => (Raise e, self)
      | Ok false => (Ok (), self)
      | Ok true =>
          match circuits, item circuits name with
          | PDict cs, Ok (PDict record) =>
              (Ok (),
               save
                 {| _data :=
                      <["circuits" :=
                          PDict (<[name :=
                                     PDict (<["osm_version" := PInt version]>
                                              record)]> cs)]> (_data self);
                    saves := saves self |})
          | _, Raise e => (Raise e, self)
          | _, _ => (Raise TypeError, self)
          end
      end
  end.

(** The automated writers of the store, as calls. *)
Inductive call :=
| CallSet (now name : string) (osm_id : option Z)
    (osm_type wikidata_id method search_name comment : option string)
| CallUpdateVersion (name : string) (version : Z).

Definition target (c : call) : string :=
  match c with
  | CallSet _ name _ _ _ _ _ _ => name
  | CallUpdateVersion name _ => name
  end.

Definition is_update_version (c : call) : bool :=
  match c with
  | CallSet _ _ _ _ _ _ _ _ => false
  | CallUpdateVersion _ _ => true
  end.

Definition do_call (c : call) (self : CircuitCache) : res () * CircuitCache :=
  match c with
  | CallSet now name osm_id osm_type wikidata_id method search_name comment =>
      set now name osm_id osm_type wikidata_id method search_name comment self
  | CallUpdateVersion name version => update_version name version self
  end.

(** Calls made one after the other; an exception ends the sequence and
    leaves the store as it then is. *)
Fixpoint run (calls : list call) (self : CircuitCache) : res () * CircuitCache :=
  match calls with
  | [] => (Ok (), self)
  | c :: rest =>
      match do_call c self with
      | (Ok _, self) => run rest self
      | (Raise e, self) => (Raise e, self)
      end
  end.

(** The record stored under a name, when the store has one. *)
Definition stored (self : CircuitCache) (name : string)
    : option (gmap string pyval) :=
  match _data self !! "circuits" with
  | Some (PDict cs) =>
      match cs !! name with
      | Some (PDict record) => Some record
      | _ => None
      end
  | _ => None
  end.

(** The stored record has its [manual] flag set. *)
Definition is_manual (self : CircuitCache) (name : string) : bool :=
  match stored self name with
  | Some record => truthy (dict_get record "manual")
  | None => false
  end.

End Cache.

(** ** Writing files: [CircuitCache.save] and [utils.atomic_write]

    The file system is a map from paths to contents.  A write is the list
    of the operations it performs on it, in order; being interrupted (the
    process exits on Ctrl+C, see [cli._handle_interrupt]) means that only a
    prefix of them has happened. *)

Module Files.

Inductive op :=
| OpenW (path : string)                (* open(path, "w"): create or empty *)
| Write (path : string) (chunk : string)
| Rename (src dst : string)
| Unlink (path : string).

Definition apply_op (fs : gmap string string) (o : op) : gmap string string :=
  match o with
  | OpenW path => <[path := ""]> fs
  | Write path chunk =>
      match fs !! path with
      | Some content => <[path := (content ++ chunk)%string]> fs
      | None => fs
      end
  | Rename src dst =>
      match fs !! src with
      | Some content => <[dst := content]> (delete src fs)
      | None => fs
      end
  | Unlink path => delete path fs
  end.

Definition apply_ops (ops : list op) (fs : gmap string string)
    : gmap string string :=
  fold_left apply_op ops fs.

(** The state in which an interruption after [k] operations leaves the
    files. *)
Definition interrupted (k : nat) (ops : list op) (fs : gmap string string)
    : gmap string string :=
  apply_ops (take k ops) fs.

Section Writers.

(** [json.dump(data, f, ensure_ascii=False, indent=2)]: the pieces of text
    it writes, one after the other. *)
Variable dump : gmap string pyval -> list string.

Definition dumped (data : gmap string pyval) : string :=
  fold_right String.append "" (dump data).

(** [CircuitCache.save]: the store is opened for writing in place. *)
Definition save (path : string) (_data : gmap string pyval) : list op :=
  OpenW path :: (Write path <$> dump _data).

(** [atomic_write]: [tmp] is the name [NamedTemporaryFile] picks in the
    directory of [path]. *)
Definition atomic_write (tmp : string) (data : gmap string pyval)
    (path : string) : list op :=
  OpenW tmp :: (Write tmp <$> dump data) ++ [Rename tmp path].

End Writers.

End Files.

(** ** clients/wikidata.py *)

Module Wikidata.
Import ODict.

(** [int(s)] for a [str] in the decimal notation: optional blanks around,
    an optional sign, digits with single underscores between them.
    Digits outside ASCII, which Python also reads, are not.  The blanks
    [int] skips are those of [isspace] without the four separators
    0x1c to 0x1f. *)
Definition int_blank (c : ascii) : bool :=
  let n := nat_of_ascii c in
  ((9 <=? n) && (n <=? 13) || (n =? 32) || (n =? 133) || (n =? 160))%nat.

Definition digit_value (c : ascii) : option Z :=
  let n := nat_of_ascii c in
  if ((48 <=? n) && (n <=? 57))%nat then Some (Z.of_nat n - 48) else None.

(** The digits from [acc] on; [after_digit] tells whether an underscore
    may come next. *)
Fixpoint digits (s : string) (acc : Z) (after_digit : bool) : option Z :=
  match s with
  | EmptyString => if after_digit then Some acc else None
  | String c rest =>
      match digit_value c with
      | Some d => digits rest (10 * acc + d) true
      | None =>
          if Ascii.eqb c "_" && after_digit then
            match rest with
            | EmptyString => None
            | String c' _ =>
                match digit_value c' with
                | Some _ => digits rest acc false
                | None => None
                end
            end
          else None
      end
  end.

Definition int_of_str (s : string) : res Z :=
  let body := Str.strip_by int_blank s in
  let parsed :=
    match body with
    | String "-" rest => Z.opp <$> digits rest 0 false
    | String "+" rest => digits rest 0 false
    | _ => digits body 0 false
    end in
  match parsed with
  | Some n => Ok n
  | None => Raise ValueError
  end.

(** [int(v)] on an arbitrary value. *)
Definition int_of (v : pyval) : res Z :=
  match v with
  | PInt n => Ok n
  | PBool b => Ok (if b then 1 else 0)
  | PFloat (FlFinite q) => Ok (Z.quot (Qnum q) (Z.pos (Qden q)))
  | PFloat (FlInf _) => Raise OverflowError
  | PFloat FlNan => Raise ValueError
  | PStr s => int_of_str s
  | PNone | PList _ | PDict _ => Raise TypeError
  end.

(** [s.split("/")[-1]] *)
Definition last_segment (s : string) : string :=
  List.last (Str.split "/" s) "".

(** [v.split("/")[-1]] on an arbitrary value: only a [str] has [.split]. *)
Definition uri_qid (v : pyval) : res string :=
  match v with
  | PStr s => Ok (last_segment s)
  | _ => Raise AttributeError
  end.

(** The SPARQL text sent for a list of Q-IDs. *)
Definition p402_query (qids : list string) : string :=
  let values := Str.join " " ((fun qid => "wd:" ++ qid)%string <$> qids) in
  ("
SELECT ?item ?osmRelation WHERE {
  VALUES ?item { " ++ values ++ " }
  OPTIONAL { ?item wdt:P402 ?osmRelation. }
}
")%string.

(** The body of the inner [try] for one binding: the value to store, or
    nothing to do. *)
Definition binding_value (binding : gmap string pyval) : res (option Z) :=
  match binding !! "osmRelation" with
  | None => Ok None
  | Some relation =>
      match (value ← item relation "value"; int_of value) with
      | Ok n => Ok (Some n)
      | Raise ValueError | Raise KeyError => Ok None
      | Raise e => Raise e
      end
  end.

(** One turn of [for binding in ...]. *)
Definition bind_one (results : odict (option Z)) (binding : pyval)
    : res (odict (option Z)) :=
  item_field ← get_or binding "item" (PDict ∅);
  item_uri ← get_or item_field "value" (PStr "");
  qid ← uri_qid item_uri;
  match binding with
  | PDict b =>
      relation ← binding_value b;
      match relation with
      | Some n => Ok (set results qid (Some n))
      | None => Ok results
      end
  | _ => Raise AttributeError
  end.

(** The outer [try] body once the response is decoded. *)
Definition read_bindings (qids : list string) (data : pyval)
    : res (odict (option Z)) :=
  let results := from_keys qids None in
  results_field ← get_or data "results" (PDict ∅);
  bindings_field ← get_or results_field "bindings" (PList []);
  bindings ← iter bindings_field;
  for_each bind_one bindings results.

Section Batch.

(** The SPARQL endpoint: what [self._session.get(...)] followed by
    [resp.json()] gives for a query text, an exception of either included. *)
Context {W : Type}.
Variable sparql_get : string -> W -> res pyval * W.

(** [WikidataClient.get_p402_batch]; the rate-limit wait is not modelled. *)
Definition get_p402_batch (qids : list string) (w : W)
    : res (odict (option Z)) * W :=
  match qids with
  | [] => (Ok [], w)
  | _ =>
      let '(response, w) := sparql_get (p402_query qids) w in
      match data ← response; read_bindings qids data with
      | Ok results => (Ok results, w)
      | Raise RequestException | Raise KeyError | Raise ValueError =>
          (Ok (from_keys qids None), w)
      | Raise e => (Raise e, w)
      end
  end.

End Batch.

End Wikidata.

(** ** services.py: [element_to_geojson] *)

Module GeoJson.

(** [[[p["lon"], p["lat"]] for p in geometry]] *)
Definition coords_of (geometry : pyval) : res pyval :=
  points ← iter geometry;
  coords ← comprehension
              (fun p => lon ← item p "lon"; lat ← item p "lat";
                        Ok (PList [lon; lat]))
              points;
  Ok (PList coords).

Definition line_string (coords : pyval) : pyval :=
  PDict {[ "type" := PStr "LineString"; "coordinates" := coords ]}.

Definition feature (properties : gmap string pyval) (coords : pyval) : pyval :=
  PDict {[ "type" := PStr "Feature";
           "properties" := PDict properties;
           "geometry" := line_string coords ]}.

(** One turn of [for member in element.get("members", [])]. *)
Definition add_member (features : list pyval) (member : pyval)
    : res (list pyval) :=
  member_type ← item member "type";
  has_geometry ←
    (if eq_str member_type "way" then str_in "geometry" member else Ok false);
  if has_geometry : bool then
    geometry ← item member "geometry";
    coords ← coords_of geometry;
    role ← get_or member "role" (PStr "");
    ref ← get member "ref";
    Ok (features ++ [feature {[ "role" := role; "ref" := ref ]} coords])
  else Ok features.

(** [element_to_geojson(element)] *)
Definition element_to_geojson (element : gmap string pyval)
    : res (gmap string pyval) :=
  let features : list pyval := [] in
  let osm_type := dict_get_or element "type" (PStr "relation") in
  features ←
    (if eq_str osm_type "relation" then
       members ← iter (dict_get_or element "members" (PList []));
       for_each add_member members features
     else if eq_str osm_type "way" then
       match element !! "geometry" with
       | Some geometry =>
           coords ← coords_of geometry;
           Ok (features ++ [feature ∅ coords])
       | None => Ok features
       end
     else Ok features);
  Ok {[ "type" := PStr "FeatureCollection"; "features" := PList features ]}.

(** What the source relies on Overpass to deliver (see [out geom]): a
    geometry is a list of points that carry [lon] and [lat], and the members
    of a relation are objects that carry a [type]. *)
Definition is_point (p : pyval) : bool :=
  match p with
  | PDict d => bool_decide (is_Some (d !! "lon"))
               && bool_decide (is_Some (d !! "lat"))
  | _ => false
  end.

Definition is_geometry (g : pyval) : bool :=
  match g with
  | PList points => forallb is_point points
  | _ => false
  end.

(** A member that yields a feature: a way with a geometry. *)
Definition contributes (member : pyval) : bool :=
  match member with
  | PDict d => eq_str (dict_get d "type") "way"
               && bool_decide (is_Some (d !! "geometry"))
  | _ => false
  end.

Definition is_member (member : pyval) : bool :=
  match member with
  | PDict d =>
      bool_decide (is_Some (d !! "type"))
      && (if contributes member then is_geometry (dict_get d "geometry")
          else true)
  | _ => false
  end.

Definition well_formed (element : gmap string pyval) : bool :=
  let osm_type := dict_get_or element "type" (PStr "relation") in
  if eq_str osm_type "relation" then
    match element !! "members" with
    | Some (PList members) => forallb is_member members
    | Some _ => false
    | None => true
    end
  else if eq_str osm_type "way" then
    match element !! "geometry" with
    | Some geometry => is_geometry geometry
    | None => true
    end
  else true.

(** The parts of an element that yield a feature, in order: for a relation
    its members that are ways with a geometry, for a way the element itself
    when it has a geometry, nothing for another kind. *)
Definition sources (element : gmap string pyval) : list pyval :=
  let osm_type := dict_get_or element "type" (PStr "relation") in
  if eq_str osm_type "relation" then
    match iter (dict_get_or element "members" (PList [])) with
    | Ok members => List.filter contributes members
    | Raise _ => []
    end
  else if eq_str osm_type "way" then
    match element !! "geometry" with
    | Some _ => [PDict element]
    | None => []
    end
  else [].

(** A feature as the specification describes it: a [LineString] whose coordinates
    are pairs. *)
Definition is_pair (c : pyval) : Prop :=
  exists lon lat, c = PList [lon; lat].

Definition is_line_feature (f : pyval) : Prop :=
  exists properties coords,
    f = feature properties (PList coords) /\ Forall is_pair coords.

(** The features the specification asks for, written from its words: the
    coordinates of a line are the points of the geometry in order, each as
    the pair of its longitude and its latitude; a member of a relation
    gives a line with its role (empty when it has none) and its reference,
    a way gives a line without properties. *)
Definition lon_lat (point : pyval) : pyval :=
  match point with
  | PDict d => PList [dict_get d "lon"; dict_get d "lat"]
  | _ => PNone
  end.

Definition points_of (geometry : pyval) : list pyval :=
  match geometry with
  | PList points => points
  | _ => []
  end.

Definition line_of (geometry : pyval) : pyval :=
  PList (lon_lat <$> points_of geometry).

Definition member_feature (member : pyval) : pyval :=
  match member with
  | PDict d =>
      feature {[ "role" := dict_get_or d "role" (PStr "");
                 "ref" := dict_get d "ref" ]}
        (line_of (dict_get d "geometry"))
  | _ => PNone
  end.

Definition expected_features (element : gmap string pyval) : list pyval :=
  let osm_type := dict_get_or element "type" (PStr "relation") in
  if eq_str osm_type "relation" then member_feature <$> sources element
  else if eq_str osm_type "way" then
    match element !! "geometry" with
    | Some geometry => [feature ∅ (line_of geometry)]
    | None => []
    end
  else [].

End GeoJson.

(** ** services.py: [search_osm_id] *)

Module Services.
Import ODict.

Record _Candidate := {
  osm_id : Z;
  osm_type : string;
  qid : string;
  method : string;
  search_name : string;
  score : Z;
  from_circuit_name : bool
}.

(** The sort key [(c.from_circuit_name, c.score)] and the order of such
    tuples: first component first, [False < True]. *)
Definition key (c : _Candidate) : bool * Z := (from_circuit_name c, score c).

Definition tuple_lt (a b : bool * Z) : bool :=
  if Bool.eqb a.1 b.1 then a.2 <? b.2 else b.1.

(** [a] does not rank below [b]. *)
Definition ge (a b : _Candidate) : Prop := tuple_lt (key a) (key b) = false.

(** [candidates.sort(key=..., reverse=True)].  Python's sort is stable, also
    with [reverse=True]: of two candidates with equal keys the one that
    came first stays first.  A candidate is put behind the ones with a
    greater key and in front of the rest, which all came after it. *)
Fixpoint insert (c : _Candidate) (sorted : list _Candidate) : list _Candidate :=
  match sorted with
  | [] => [c]
  | d :: rest =>
      if tuple_lt (key c) (key d) then d :: insert c rest else c :: sorted
  end.

Fixpoint sort_reverse (candidates : list _Candidate) : list _Candidate :=
  match candidates with
  | [] => []
  | c :: rest => insert c (sort_reverse rest)
  end.

(** [x or None] on a [str]. *)
Definition or_none (s : string) : option string :=
  if Str.is_empty s then None else Some s.

(** The line written for a runner-up. *)
Definition describe (c : _Candidate) : string :=
  (osm_type c ++ "/" ++ Str.of_int (osm_id c) ++ " (via '" ++ search_name c
   ++ "', " ++ (if Str.is_empty (qid c) then "name" else qid c)
   ++ ", score=" ++ Str.of_int (score c) ++ ")")%string.

Definition runners_up_comment (others : list _Candidate) : string :=
  ("Also found: " ++ Str.join ", " (describe <$> others)
   ++ ". Please verify manually.")%string.

(** The comment stored with the winner: none when it is the only
    candidate. *)
Definition runners_up (others : list _Candidate) : option string :=
  match others with
  | [] => None
  | _ => Some (runners_up_comment others)
  end.

(** [overpass._circuit_score(element_data) if element_data else 0] *)
Definition score_of (element_data : option (gmap string pyval)) : res Z :=
  match element_data with
  | Some element =>
      if truthy (PDict element) then Overpass._circuit_score element else Ok 0
  | None => Ok 0
  end.

(** [if osm_id:] on an [int | None]. *)
Definition nonzero (n : option Z) : option Z :=
  match n with
  | Some z => if (z =? 0)%Z then None else Some z
  | None => None
  end.

(** While the first search name is processed, the circuit-name set holds
    exactly the identifiers collected, each recorded under that name. *)
Definition first_pass (n : string) (acc : odict string * gset string) : Prop :=
  (forall k, mem acc.1 k = true <-> k ∈ acc.2)
  /\ (forall k, k ∈ acc.2 -> get acc.1 k = Some n).

(** What the collection steps carry along. *)
Record found := {
  candidates : list _Candidate;
  checked_osm_ids : gset Z
}.

Section Pipeline.

(** The services behind the clients that [search_osm_id] calls, at their
    annotated types; each call may change the state of the world. *)
Context {W : Type}.
Variable clock : W -> string.
Variable format : pyval -> string.
Variable find_ids : string -> W -> list string * W.
Variable sparql_get : string -> W -> res pyval * W.
Variable get_geometry : Z -> string -> W -> option (gmap string pyval) * W.
Variable find_by_wikidata_tags_batch :
  list string -> W -> odict (option Z * option string * Z) * W.
Variable find_by_name :
  string -> W -> (option Z * option string * option string) * W.
Variable verify_exists : pyval -> pyval -> W -> bool * W.

(** A [for] loop whose body calls out and may raise. *)
Fixpoint for_each_w {A S} (body : S -> A -> W -> res S * W)
    (xs : list A) (s : S) (w : W) : res S * W :=
  match xs with
  | [] => (Ok s, w)
  | x :: rest =>
      match body s x w with
      | (Ok s, w) => for_each_w body rest s w
      | (Raise e, w) => (Raise e, w)
      end
  end.

(** Step 1, the inner [for qid in qids]. *)
Definition add_qid (i : nat) (search_name : string)
    (acc : odict string * gset string) (qid : string)
    : odict string * gset string :=
  let '(all_qids, circuit_name_qids) := acc in
  if mem all_qids qid then acc
  else (set all_qids qid search_name,
        if (i =? 0)%nat then {[qid]} ∪ circuit_name_qids
        else circuit_name_qids).

(** Step 1, [for i, search_name in enumerate(circuit.search_names)], from
    index [i] on. *)
Fixpoint collect_qids (i : nat) (names : list string)
    (acc : odict string * gset string) (w : W)
    : (odict string * gset string) * W :=
  match names with
  | [] => (acc, w)
  | search_name :: rest =>
      let '(qids, w) := find_ids search_name w in
      collect_qids (S i) rest (fold_left (add_qid i search_name) qids acc) w
  end.

(** Step 2, one turn of [for qid, p402_id in p402_results.items()]. *)
Definition add_p402 (all_qids : odict string) (circuit_name_qids : gset string)
    (f : found) (entry : string * option Z) (w : W) : res found * W :=
  let '(qid, p402_id) := entry in
  match nonzero p402_id with
  | Some p402_id =>
      if bool_decide (p402_id ∈ checked_osm_ids f) then (Ok f, w)
      else
        let checked := {[p402_id]} ∪ checked_osm_ids f in
        match get all_qids qid with
        | None => (Raise KeyError, w)
        | Some search_name =>
            let '(element_data, w) := get_geometry p402_id "relation" w in
            match score_of element_data with
            | Raise e => (Raise e, w)
            | Ok score =>
                (Ok {| candidates :=
                         candidates f ++
                         [{| osm_id := p402_id; osm_type := "relation";
                             qid := qid; method := "P402";
                             search_name := search_name;
                             score := score + 20;
                             from_circuit_name :=
                               bool_decide (qid ∈ circuit_name_qids) |}];
                       checked_osm_ids := checked |}, w)
            end
        end
  | None => (Ok f, w)
  end.

(** Step 3, one turn of [for qid, (osm_id, osm_type, score) in ...]. *)
Definition add_tagged (all_qids : odict string) (circuit_name_qids : gset string)
    (f : found) (entry : string * (option Z * option string * Z))
    : res found :=
  let '(qid, (osm_id, osm_type, score)) := entry in
  match nonzero osm_id, or_none (default "" osm_type) with
  | Some osm_id, Some osm_type =>
      if bool_decide (osm_id ∈ checked_osm_ids f) then Ok f
      else
        search_name ← match get all_qids qid with
                      | Some n => Ok n
                      | None => Raise KeyError
                      end;
        Ok {| candidates :=
                candidates f ++
                [{| osm_id := osm_id; osm_type := osm_type; qid := qid;
                    method := "wikidata_tag"; search_name := search_name;
                    score := score;
                    from_circuit_name :=
                      bool_decide (qid ∈ circuit_name_qids) |}];
              checked_osm_ids := {[osm_id]} ∪ checked_osm_ids f |}
  | _, _ => Ok f
  end.

(** Steps 2 and 3: [if all_qids: ...]. *)
Definition wikidata_candidates (all_qids : odict string)
    (circuit_name_qids : gset string) (w : W) : res found * W :=
  let f := {| candidates := []; checked_osm_ids := ∅ |} in
  match all_qids with
  | [] => (Ok f, w)
  | _ =>
      let qid_list := keys all_qids in
      match Wikidata.get_p402_batch sparql_get qid_list w with
      | (Raise e, w) => (Raise e, w)
      | (Ok p402_results, w) =>
          match for_each_w (add_p402 all_qids circuit_name_qids)
                  p402_results f w with
          | (Raise e, w) => (Raise e, w)
          | (Ok f, w) =>
              let '(osm_results, w) :=
                find_by_wikidata_tags_batch qid_list w in
              (for_each (add_tagged all_qids circuit_name_qids) osm_results f,
               w)
          end
      end
  end.

(** [max((c.score for c in candidates), default=-999)] *)
Definition best_score (cs : list _Candidate) : Z :=
  match cs with
  | [] => -999
  | c :: rest => fold_left (fun m d => Z.max m (score d)) rest (score c)
  end.

Definition should_try_name_search (cs : list _Candidate) : bool :=
  match cs with
  | [] => true
  | _ => negb (existsb from_circuit_name cs) && (best_score cs <? 50)
  end.

(** Step 4, the direct name search. *)
Definition name_search (circuit : Models.Circuit) (f : found) (w : W)
    : res found * W :=
  if should_try_name_search (candidates f) then
    let search_name :=
      match Models.search_names circuit with
      | first :: _ => first
      | [] => Models.name circuit
      end in
    let '((osm_id, osm_type, server), w) := find_by_name search_name w in
    match nonzero osm_id, or_none (default "" osm_type) with
    | Some osm_id, Some osm_type =>
        if bool_decide (osm_id ∈ checked_osm_ids f) then (Ok f, w)
        else
          let '(element_data, w) := get_geometry osm_id osm_type w in
          match score_of element_data with
          | Raise e => (Raise e, w)
          | Ok score =>
              (Ok {| candidates :=
                       candidates f ++
                       [{| osm_id := osm_id; osm_type := osm_type; qid := "";
                           method := "osm_name"; search_name := search_name;
                           score := score; from_circuit_name := true |}];
                     checked_osm_ids := {[osm_id]} ∪ checked_osm_ids f |}, w)
          end
    | _, _ => (Ok f, w)
    end
  else (Ok f, w).

(** The result handed back for the winner. *)
Definition result_of (best : _Candidate) : Models.SearchResult :=
  {| Models.sr_osm_id := PInt (osm_id best);
     Models.sr_osm_type := PStr (osm_type best);
     Models.sr_method :=
       if Str.is_empty (qid best) then "Overpass name search"
       else ("Wikidata " ++ method best)%string;
     Models.sr_wikidata_id := Cache.opt_str (or_none (qid best)) |}.

(** "Pick best candidate" and the three [cache.set] calls that end
    [search_osm_id]. *)
Definition pick_and_cache (now : string) (name : string)
    (all_qids : odict string) (cs : list _Candidate)
    (cache : Cache.CircuitCache)
    : res (option Models.SearchResult) * Cache.CircuitCache :=
  match sort_reverse cs with
  | best :: others =>
      let comment :=
        match others with
        | [] => None
        | _ => Some (runners_up_comment others)
        end in
      match Cache.set now name (Some (osm_id best)) (Some (osm_type best))
              (or_none (qid best)) (Some (method best))
              (Some (search_name best)) comment cache with
      | (Ok _, cache) => (Ok (Some (result_of best)), cache)
      | (Raise e, cache) => (Raise e, cache)
      end
  | [] =>
      match keys all_qids with
      | first_qid :: _ =>
          match Cache.set now name None None (Some first_qid) None None None
                  cache with
          | (Ok _, cache) => (Ok None, cache)
          | (Raise e, cache) => (Raise e, cache)
          end
      | [] =>
          match Cache.set now name None None None None None None cache with
          | (Ok _, cache) => (Ok None, cache)
          | (Raise e, cache) => (Raise e, cache)
          end
      end
  end.

(** Everything after the cache check. *)
Definition search (circuit : Models.Circuit) (cache : Cache.CircuitCache)
    (w : W) : res (option Models.SearchResult) * (Cache.CircuitCache * W) :=
  let '((all_qids, circuit_name_qids), w) :=
    collect_qids 0 (Models.search_names circuit) ([], ∅) w in
  match wikidata_candidates all_qids circuit_name_qids w with
  | (Raise e, w) => (Raise e, (cache, w))
  | (Ok f, w) =>
      match name_search circuit f w with
      | (Raise e, w) => (Raise e, (cache, w))
      | (Ok f, w) =>
          let '(result, cache) :=
            pick_and_cache (clock w) (Models.name circuit) all_qids
              (candidates f) cache in
          (result, (cache, w))
      end
  end.

(** [search_osm_id(circuit, cache, wikidata, overpass, osm, logger)] *)
Definition search_osm_id (circuit : Models.Circuit)
    (cache : Cache.CircuitCache) (w : W)
    : res (option Models.SearchResult) * (Cache.CircuitCache * W) :=
  match Cache.get (Models.name circuit) cache with
  | Raise e => (Raise e, (cache, w))
  | Ok None => search circuit cache w
  | Ok (Some cached) =>
      let osm_id := Models.osm_id cached in
      let osm_type :=
        if truthy (Models.osm_type cached) then Models.osm_type cached
        else PStr "relation" in
      if negb (Models.is_not_none osm_id) && truthy (Models.manual cached)
      then (Ok None, (cache, w))
      else if truthy osm_id then
        let '(exists_, w) := verify_exists osm_id osm_type w in
        if exists_ : bool then
          let method :=
            if truthy (Models.search_method cached)
            then Models.search_method cached else PStr "cached" in
          (Ok (Some {| Models.sr_osm_id := osm_id;
                       Models.sr_osm_type := osm_type;
                       Models.sr_method :=
                         ("cache (" ++ format method ++ ")")%string;
                       Models.sr_wikidata_id := Models.wikidata_id cached |}),
           (cache, w))
        else search circuit cache w
      else search circuit cache w
  end.

End Pipeline.

End Services.

(** ** Sample inputs *)

Module Samples.
Import Models Cache.

(** A fleet in which every server answers 504 with an HTML error page; the
    network state counts the requests. *)
Definition all_504 (url q : string) (to : Z) (w : nat)
    : Overpass.post_outcome * nat :=
  (Overpass.Responded 504 (Raise ValueError), S w).

(** A hand-verified record, as an operator writes it into the file. *)
Definition monza_record : gmap string pyval :=
  {[ "osm_id" := PInt 9428445; "osm_type" := PStr "relation";
     "wikidata_id" := PStr "Q171356"; "manual" := PBool true ]}.

Definition manual_store : CircuitCache :=
  {| _data := {[ "circuits" := PDict {[ "Monza" := PDict monza_record ]} ]};
     saves := [] |}.

Definition sample_calls : list call :=
  [ CallSet "2026-01-01 10:00" "Monza" (Some 1) (Some "way") None
      (Some "osm_name") (Some "Monza") None;
    CallUpdateVersion "Monza" 7;
    CallSet "2026-01-01 10:01" "Imola" None None (Some "Q1") None None None ].

(** SPARQL results for [Q1] and [Q2]: a binding per item, the first with
    the given [osmRelation] value, the second with the literal ["42"]. *)
Definition binding (qid : string) (relation_value : pyval) : pyval :=
  PDict {[ "item" := PDict {[ "type" := PStr "uri";
                              "value" := PStr ("http://www.wikidata.org/entity/"
                                               ++ qid)%string ]};
           "osmRelation" := PDict {[ "type" := PStr "literal";
                                     "value" := relation_value ]} ]}.

Definition sparql_response (first_value : pyval) : pyval :=
  PDict {[ "results" :=
             PDict {[ "bindings" :=
                        PList [ binding "Q1" first_value;
                                binding "Q2" (PStr "42") ] ]} ]}.

(** An endpoint that always answers with that document. *)
Definition sparql_answers (first_value : pyval) (q : string) (w : ())
    : res pyval * () :=
  (Ok (sparql_response first_value), w).

(** The mapping file with one hand-verified record in it. *)
Definition mappings_file : string := "circuit_mappings.json".

Definition quoted (s : string) : string :=
  (String (ascii_of_nat 34) s ++ String (ascii_of_nat 34) "")%string.

Definition stored_text : string :=
  ("{" ++ quoted "circuits" ++ ": {" ++ quoted "Monza" ++ ": {"
   ++ quoted "osm_id" ++ ": 9428445, " ++ quoted "manual" ++ ": true}}}")%string.

Definition disk : gmap string string := {[ mappings_file := stored_text ]}.

(** A relation one of whose members has no [type]. *)
Definition untyped_member_relation : gmap string pyval :=
  {[ "type" := PStr "relation"; "id" := PInt 555;
     "members" := PList [PDict {[ "ref" := PInt 1; "role" := PStr "outer" ]}] ]}.

(** A relation with a way that has a two-point geometry and a node. *)
Definition point (lon lat : Z) : pyval :=
  PDict {[ "lon" := PInt lon; "lat" := PInt lat ]}.

Definition track_relation : gmap string pyval :=
  {[ "type" := PStr "relation"; "id" := PInt 555;
     "members" :=
       PList [ PDict {[ "type" := PStr "way"; "ref" := PInt 1;
                        "role" := PStr "outer";
                        "geometry" := PList [point 9 45; point 10 46] ]};
               PDict {[ "type" := PStr "node"; "ref" := PInt 2 ]} ] ]}.

(** The two candidates of the specification's example: one found through
    the circuit name with a low score, one through a Grand Prix name with
    a high one. *)
Definition primary_candidate : Services._Candidate :=
  {| Services.osm_id := 555; Services.osm_type := "relation";
     Services.qid := "Q1"; Services.method := "P402";
     Services.search_name := "Example Circuit"; Services.score := 10;
     Services.from_circuit_name := true |}.

Definition grand_prix_candidate : Services._Candidate :=
  {| Services.osm_id := 777; Services.osm_type := "way";
     Services.qid := "Q2"; Services.method := "wikidata_tag";
     Services.search_name := "Example Grand Prix"; Services.score := 90;
     Services.from_circuit_name := false |}.

(** A circuit with two Grand Prix names, written with blanks and an empty
    component, and a knowledge base that knows one identifier per name. *)
Definition imola : Models.Circuit :=
  {| Models.name := "Imola"; Models.location := "Imola";
     Models.country := "Italy";
     Models.grands_prix := " San Marino Grand Prix, ,Italian Grand Prix " |}.

Definition one_id_per_name (search_name : string) (w : ())
    : list string * () :=
  (if String.eqb search_name "Imola" then ["Q1"; "Q7"] else ["Q7"; "Q9"], w).

(** A world in which the knowledge base knows the circuit and the map
    does not. *)
Definition sparql_empty (q : string) (w : ()) : res pyval * () :=
  (Ok (PDict ∅), w).

Definition no_geometry (osm_id : Z) (osm_type : string) (w : ())
    : option (gmap string pyval) * () :=
  (None, w).

Definition no_tagged (qids : list string) (w : ())
    : ODict.odict (option Z * option string * Z) * () :=
  (ODict.from_keys qids (None, None, 0), w).

Definition no_name_hit (search_name : string) (w : ())
    : (option Z * option string * option string) * () :=
  ((None, None, None), w).

Definition always_exists (osm_id osm_type : pyval) (w : ()) : bool * () :=
  (true, w).

Definition fixed_clock (w : ()) : string := "2026-01-01 10:00".

Definition plain_format (v : pyval) : string :=
  match v with
  | PStr s => s
  | _ => ""
  end.

Definition empty_store : CircuitCache :=
  {| _data := {[ "circuits" := PDict ∅ ]}; saves := [] |}.

Definition known_but_absent_run
    : res (option SearchResult) * (CircuitCache * ()) :=
  Services.search_osm_id fixed_clock plain_format one_id_per_name sparql_empty
    no_geometry no_tagged no_name_hit always_exists imola empty_store ().

(** A record whose comment was left empty. *)
Definition empty_comment_entry : CacheEntry := {|
  osm_id := PInt 9428445;
  osm_type := PStr "relation";
  wikidata_id := PStr "Q171356";
  search_method := PStr "P402";
  search_name := PStr "Monza";
  verified_at := PStr "2026-01-01 10:00";
  manual := PBool false;
  comment := PStr "";
  osm_version := PNone
|}.

(** A record with a comment and a version. *)
Definition commented_entry : CacheEntry := {|
  osm_id := PInt 9428445;
  osm_type := PStr "relation";
  wikidata_id := PStr "Q171356";
  search_method := PStr "P402";
  search_name := PStr "Monza";
  verified_at := PStr "2026-01-01 10:00";
  manual := PBool false;
  comment := PStr "checked";
  osm_version := PInt 12
|}.

End Samples.

(** ** utils.py: [atomic_write] with its error handling *)

Module AtomicWrite.
Import Files.

(** Which operations of one call raise.  [json.dump] may raise after some
    of its pieces were written; leaving the [with] block flushes and closes
    the temporary file and may raise with only some of the pieces on disk. *)
Record faults := {
  mkdir_fails : bool;
  create_fails : bool;
  dump_fails : option nat;
  close_fails : option nat;
  rename_fails : bool;
  unlink_fails : bool
}.

(** No operation the function needs for its result raises. *)
Definition no_fault (f : faults) : bool :=
  negb (mkdir_fails f) && negb (create_fails f)
  && bool_decide (dump_fails f = None) && bool_decide (close_fails f = None)
  && negb (rename_fails f).

Section Run.

Variable dump : gmap string pyval -> list string.

(** The text of the first pieces of a dump. *)
Definition partial (written : nat) (data : gmap string pyval) : string :=
  fold_right String.append "" (take written (dump data)).

(** The body of [try]: whether it ran through, the value of [tmp_path]
    where it stopped, and the files.  [tmp_path] is assigned inside the
    [with] block, after [json.dump]. *)
Definition try_body (tmp : string) (data : gmap string pyval)
    (path : string) (f : faults) (fs : gmap string string)
    : bool * option string * gmap string string :=
  let tmp_path : option string := None in
  if create_fails f then (false, tmp_path, fs)
  else
    let fs := apply_op fs (OpenW tmp) in
    match dump_fails f with
    | Some written =>
        (false, tmp_path, apply_ops (take written (Write tmp <$> dump data)) fs)
    | None =>
        let tmp_path := Some tmp in
        match close_fails f with
        | Some flushed =>
            (false, tmp_path,
             apply_ops (take flushed (Write tmp <$> dump data)) fs)
        | None =>
            let fs := apply_ops (Write tmp <$> dump data) fs in
            if rename_fails f then (false, tmp_path, fs)
            else (true, tmp_path, apply_op fs (Rename tmp path))
        end
    end.

(** The [except Exception] branch: the temporary file is removed when
    [tmp_path] is set and the file exists; [unlink] may raise in turn. *)
Definition handler (tmp_path : option string) (f : faults)
    (fs : gmap string string) : res bool * gmap string string :=
  match tmp_path with
  | Some p =>
      if bool_decide (is_Some (fs !! p)) then
        if unlink_fails f then (Raise OSError, fs)
        else (Ok false, apply_op fs (Unlink p))
      else (Ok false, fs)
  | None => (Ok false, fs)
  end.

(** [atomic_write(data, path, logger)], run to its end: the value returned
    or the exception that leaves it, and the files afterwards.  [tmp] is
    the name [NamedTemporaryFile] picks.  [path.parent.mkdir] stands
    outside the [try]. *)
Definition atomic_write_run (tmp : string) (data : gmap string pyval)
    (path : string) (f : faults) (fs : gmap string string)
    : res bool * gmap string string :=
  if mkdir_fails f then (Raise OSError, fs)
  else
    match try_body tmp data path f fs with
    | (true, _, fs) => (Ok true, fs)
    | (false, tmp_path, fs) => handler tmp_path f fs
    end.

End Run.

End AtomicWrite.

(** ** cache.py: loading and statistics *)

Module CacheLoad.
Import Models Cache.

(** [DEFAULT_CACHE] *)
Definition DEFAULT_CACHE : gmap string pyval :=
  {[ "_schema" :=
       PDict {[ "version" := PInt 1;
                "description" := PStr "F1 Circuit ID mappings cache";
                "fields" :=
                  PDict {[ "osm_id" :=
                             PStr "OpenStreetMap element ID (number or null)";
                           "osm_type" := PStr "Element type: relation or way";
                           "wikidata_id" := PStr "Wikidata Q-ID (e.g. Q173099)";
                           "search_method" :=
                             PStr "How found: manual/P402/wikidata_tag/osm_name";
                           "search_name" := PStr "Which name variant matched";
                           "verified_at" := PStr "Last verification timestamp";
                           "manual" := PStr "true = won't be auto-updated";
                           "comment" := PStr "Notes (auto-added for TODO items)";
                           "osm_version" :=
                             PStr "OSM element version (for update checking)" ]} ]};
     "circuits" := PDict ∅ ]}.

(** What opening and decoding the mapping file gives: no such file, an
    [OSError], a [json.JSONDecodeError], the decoded document, or another
    exception that [open] or [json.load] raises.  A [ValueError] there
    stands for those that are no [json.JSONDecodeError]:
    [UnicodeDecodeError] on bytes that are not UTF-8, for instance. *)
Inductive file_read :=
| Missing
| Unreadable
| NotJson
| Parsed (data : pyval)
| Raised (e : exn).

(** [except (json.JSONDecodeError, OSError)], on an exception that is no
    [json.JSONDecodeError]. *)
Definition caught (e : exn) : bool :=
  match e with
  | OSError => true
  | _ => false
  end.

(** [{**DEFAULT_CACHE, **data}]: [data] has to be a mapping; its keys win. *)
Definition merge_default (data : pyval) : res (gmap string pyval) :=
  match data with
  | PDict d => Ok (d ∪ DEFAULT_CACHE)
  | _ => Raise TypeError
  end.

(** [CircuitCache.__init__] with [_load].  One cache object is modelled:
    that [DEFAULT_CACHE.copy()] shares the inner [circuits] dictionary with
    the module constant shows only between several objects. *)
Definition init (f : file_read) : res CircuitCache :=
  match f with
  | Parsed data =>
      merged ← merge_default data;
      let merged :=
        match merged !! "circuits" with
        | Some _ => merged
        | None => <["circuits" := PDict ∅]> merged
        end in
      Ok {| _data := merged; saves := [] |}
  | Unreadable | NotJson => Ok {| _data := DEFAULT_CACHE; saves := [] |}
  | Raised e =>
      if caught e then Ok {| _data := DEFAULT_CACHE; saves := [] |}
      else Raise e
  | Missing => Ok (save {| _data := DEFAULT_CACHE; saves := [] |})
  end.

(** [CircuitCache.stats] *)
Definition stats (self : CircuitCache) : res (Z * Z) :=
  match dict_get_or (_data self) "circuits" (PDict ∅) with
  | PDict circuits =>
      manual ← for_each
                  (fun n c => flag ← Py.get c "manual";
                              Ok (if truthy flag then n + 1 else n))
                  (map_to_list circuits).*2 0;
      Ok (manual, Z.of_nat (size circuits) - manual)
  | _ => Raise AttributeError
  end.

(** A store in which [circuits] is a dictionary of dictionaries, the shape
    [set] and [update_version] keep. *)
Definition all_records (self : CircuitCache) : Prop :=
  exists circuits,
    _data self !! "circuits" = Some (PDict circuits)
    /\ forall name v, circuits !! name = Some v -> exists record, v = PDict record.

(** The number of stored records whose [manual] flag tests true. *)
Definition counts_manual (v : pyval) : bool :=
  match v with
  | PDict record => truthy (dict_get record "manual")
  | _ => false
  end.

Definition manual_count (circuits : gmap string pyval) : Z :=
  Z.of_nat (length (List.filter counts_manual (map_to_list circuits).*2)).

End CacheLoad.

(** ** clients/overpass.py: what a query does to the outside *)

Module OverpassMore.
Import Overpass.

(** An outcome after which the executor goes on to the next server. *)
Definition failed (o : post_outcome) : bool :=
  match o with
  | Responded status_code json =>
      if status_code =? 200 then
        match json with
        | Raise RequestException => true
        | _ => false
        end
      else true
  | TimedOut | RequestFailed => true
  end.

(** The events of [rounds] passes in which every request is rate limited,
    the first being attempt number [attempt]: after each pass but the one
    of the last attempt, a wait of [retry_delay * (attempt + 2)]. *)
Fixpoint rate_limited_trace (config : Config) (attempt : Z) (rounds : nat)
    : list event :=
  match rounds with
  | O => []
  | S rounds =>
      posts (overpass_servers config)
      ++ (if attempt <? max_retries config - 1
          then [EvSleep (retry_delay config * (attempt + 2))] else [])
      ++ rate_limited_trace config (attempt + 1) rounds
  end.

Definition is_post (ev : event) : bool :=
  match ev with
  | EvPost _ => true
  | _ => false
  end.

End OverpassMore.

(** ** Sorting scored items

    [scored.sort(key=lambda x: x[0], reverse=True)] on a list of
    [(score, item)] pairs, as the Overpass and Wikidata clients use it.
    The sort is stable: an item goes behind those with a greater score and
    in front of the others, which all came after it. *)

Module Scored.

Fixpoint insert {A} (x : Z * A) (sorted : list (Z * A)) : list (Z * A) :=
  match sorted with
  | [] => [x]
  | y :: rest => if x.1 <? y.1 then y :: insert x rest else x :: sorted
  end.

Fixpoint sort_reverse {A} (scored : list (Z * A)) : list (Z * A) :=
  match scored with
  | [] => []
  | x :: rest => insert x (sort_reverse rest)
  end.

End Scored.

(** ** clients/wikidata.py: [find_ids] *)

Module WikidataSearch.

(** [c.lower()] on the code points below 256. *)
Definition lower_char (c : ascii) : ascii :=
  let n := nat_of_ascii c in
  if ((65 <=? n) && (n <=? 90)
      || (192 <=? n) && (n <=? 222) && negb (n =? 215))%nat
  then ascii_of_nat (n + 32) else c.

Fixpoint lower (s : string) : string :=
  match s with
  | EmptyString => EmptyString
  | String c rest => String (lower_char c) (lower rest)
  end.

(** [v.lower()] on an arbitrary value: only a [str] has [.lower]. *)
Definition lower_of (v : pyval) : res string :=
  match v with
  | PStr s => Ok (lower s)
  | _ => Raise AttributeError
  end.

(** [CIRCUIT_KEYWORDS] *)
Definition CIRCUIT_KEYWORDS : list string :=
  ["circuit"; "track"; "raceway"; "motorsport"; "racing"].

(** The score a description earns. *)
Definition bonus (desc : string) : Z :=
  let score := 0 in
  let score :=
    if existsb (fun kw => str_contains kw desc) CIRCUIT_KEYWORDS
    then score + 10 else score in
  let score :=
    if str_contains "formula" desc || str_contains "f1" desc
    then score + 5 else score in
  score.

(** One turn of [for r in results]: the pair appended to [scored]. *)
Definition score_result (r : pyval) : res (Z * pyval) :=
  description ← get_or r "description" (PStr "");
  desc ← lower_of description;
  qid ← item r "id";
  Ok (bonus desc, qid).

(** The [try] body once the response is decoded. *)
Definition rank (data : pyval) : res (list pyval) :=
  results ← get_or data "search" (PList []);
  if truthy results then
    items ← iter results;
    scored ← comprehension score_result items;
    Ok (Scored.sort_reverse scored).*2
  else Ok [].

Section FindIds.

(** The search endpoint: what [self._session.get(...)] followed by
    [resp.json()] gives for a name and a limit, an exception of either
    included. *)
Context {W : Type}.
Variable search_get : string -> Z -> W -> res pyval * W.

(** [WikidataClient.find_ids(name, limit)]; the rate-limit wait is not
    modelled. *)
Definition find_ids (name : string) (limit : Z) (w : W)
    : res (list pyval) * W :=
  let '(response, w) := search_get name limit w in
  match data ← response; rank data with
  | Ok qids => (Ok qids, w)
  | Raise RequestException | Raise KeyError | Raise ValueError => (Ok [], w)
  | Raise e => (Raise e, w)
  end.

End FindIds.

(** A search result as the endpoint delivers it: an object with an [id]
    and, if any, a description that is a string. *)
Definition is_result (r : pyval) : bool :=
  match r with
  | PDict d =>
      bool_decide (is_Some (d !! "id"))
      && match d !! "description" with
         | Some (PStr _) | None => true
         | Some _ => false
         end
  | _ => false
  end.

(** The identifier of a result and the bonus of its description. *)
Definition result_id (r : pyval) : pyval :=
  match r with
  | PDict d => dict_get d "id"
  | _ => PNone
  end.

Definition result_bonus (r : pyval) : Z :=
  match r with
  | PDict d =>
      match d !! "description" with
      | Some (PStr s) => bonus (lower s)
      | _ => bonus ""
      end
  | _ => 0
  end.

End WikidataSearch.

(** ** clients/overpass.py: [get_geometry] and [_find_circuit_in_complex] *)

Module OverpassSearch.
Import Overpass.

(** The double quote, to write query texts. *)
Definition dq : string := String (ascii_of_nat 34) "".

(** [data and data.get("elements")], [data] being what [query] returned:
    the elements when they test true. *)
Definition elements_of (data : option pyval) : res (option pyval) :=
  match data with
  | None => Ok None
  | Some d =>
      if truthy d then
        elements ← get d "elements";
        Ok (if truthy elements then Some elements else None)
      else Ok None
  end.

(** [elements[0]] on a value that tests true. *)
Definition first_of (elements : pyval) : res pyval :=
  match elements with
  | PList (element :: _) => Ok element
  | PStr (String c _) => Ok (PStr (String c ""))
  | PDict _ => Raise KeyError
  | _ => Raise TypeError
  end.

(** [self._circuit_score(el)] on an arbitrary value. *)
Definition score_el (el : pyval) : res Z :=
  match el with
  | PDict element => _circuit_score element
  | _ => Raise AttributeError
  end.

(** [[(self._circuit_score(el), el) for el in elements]] *)
Definition scored_elements (elements : pyval) : res (list (Z * pyval)) :=
  items ← iter elements;
  comprehension (fun el => score ← score_el el; Ok (score, el)) items.

(** [f"[out:json][timeout:60];{osm_type}({osm_id});out geom;"] *)
Definition geometry_query (osm_id : Z) (osm_type : string) : string :=
  ("[out:json][timeout:60];" ++ osm_type ++ "(" ++ Str.of_int osm_id
   ++ ");out geom;")%string.

Section Search.

Context {W : Type}.
Variable post : string -> string -> Z -> W -> post_outcome * W.
Variable config : Config.

(** How an arbitrary value is written into an f-string. *)
Variable format : pyval -> string.

(** [OverpassClient] with its geometry cache. *)
Record overpass := {
  net : @client W;
  _geometry_cache : gmap (Z * string) pyval
}.

(** [OverpassClient.get_geometry(osm_id, osm_type, use_cache)] *)
Definition get_geometry (osm_id : Z) (osm_type : string) (use_cache : bool)
    (self : overpass) : res (option pyval * option string) * overpass :=
  let cache_key := (osm_id, osm_type) in
  match (if use_cache then _geometry_cache self !! cache_key else None) with
  | Some element => (Ok (Some element, Some "cache"), self)
  | None =>
      let '(answer, net') :=
        query post config (geometry_query osm_id osm_type) (Some 90)
          (net self) in
      let self := {| net := net'; _geometry_cache := _geometry_cache self |} in
      match answer with
      | Raise e => (Raise e, self)
      | Ok (data, server) =>
          match elements ← elements_of data;
                match elements with
                | Some elements => element ← first_of elements; Ok (Some element)
                | None => Ok None
                end with
          | Raise e => (Raise e, self)
          | Ok (Some element) =>
              (Ok (Some element, server),
               {| net := net';
                  _geometry_cache :=
                    <[cache_key := element]> (_geometry_cache self) |})
          | Ok None => (Ok (None, server), self)
          end
      end
  end.

(** [OverpassClient.clear_cache()] *)
Definition clear_cache (self : overpass) : overpass :=
  {| net := net self; _geometry_cache := ∅ |}.

(** The query text of [_find_circuit_in_complex]. *)
Definition complex_query (parent_id parent_type : pyval) : string :=
  ("[out:json][timeout:60];
" ++ format parent_type ++ "(" ++ format parent_id ++ ");
>>;
(
  nwr._[" ++ dq ++ "type" ++ dq ++ "=" ++ dq ++ "circuit" ++ dq ++ "];
  nwr._[" ++ dq ++ "highway" ++ dq ++ "=" ++ dq ++ "raceway" ++ dq ++ "];
);
out body;")%string.

(** [best["id"], best["type"], server] *)
Definition id_and_type (best : pyval) (server : option string)
    : res (pyval * pyval * option string) :=
  osm_id ← item best "id";
  osm_type ← item best "type";
  Ok (osm_id, osm_type, server).

(** [OverpassClient._find_circuit_in_complex(parent_id, parent_type)] *)
Definition _find_circuit_in_complex (parent_id parent_type : pyval)
    (c : @client W) : res (pyval * pyval * option string) * @client W :=
  let '(answer, c) :=
    query post config (complex_query parent_id parent_type) (Some 90) c in
  match answer with
  | Raise e => (Raise e, c)
  | Ok (data, server) =>
      (elements ← elements_of data;
       match elements with
       | Some elements =>
           scored ← scored_elements elements;
           match Scored.sort_reverse scored with
           | (best_score, best) :: _ =>
               if 0 <? best_score then id_and_type best server
               else Ok (PNone, PNone, None)
           | [] => Ok (PNone, PNone, None)
           end
       | None => Ok (PNone, PNone, None)
       end,
       c)
  end.

End Search.

End OverpassSearch.

(** ** services.py: what the collection steps keep true *)

Module ServicesMore.
Import Services.

(** Every candidate has an OSM id that is not zero and a type that is not
    empty, its id is among the checked ones, and no id occurs twice. *)
Definition distinct (f : found) : Prop :=
  NoDup (osm_id <$> candidates f)
  /\ forall c, c ∈ candidates f ->
       osm_id c ∈ checked_osm_ids f /\ osm_id c ≠ 0 /\ osm_type c ≠ "".

(** What the pipeline returns on a cache hit. *)
Definition cached_result (format : pyval -> string)
    (record : gmap string pyval) : Models.SearchResult :=
  {| Models.sr_osm_id := dict_get record "osm_id";
     Models.sr_osm_type :=
       if truthy (dict_get record "osm_type") then dict_get record "osm_type"
       else PStr "relation";
     Models.sr_method :=
       ("cache ("
        ++ format (if truthy (dict_get record "search_method")
                   then dict_get record "search_method" else PStr "cached")
        ++ ")")%string;
     Models.sr_wikidata_id := dict_get record "wikidata_id" |}.

End ServicesMore.

(** ** services.py: [process_circuit] *)

Module Process.
Import Models Cache Services.

Record ProcessResult := {
  success : bool;
  message : string;
  is_skipped : bool
}.

Definition nl : string := String (ascii_of_nat 10) "".

(** [local_ver >= remote_ver] for a stored version, which is whatever the
    mapping file holds, and an [int]. *)
Definition ge_int (v : pyval) (n : Z) : res bool :=
  match v with
  | PBool b => Ok (n <=? Z.b2z b)
  | PInt m => Ok (n <=? m)
  | PFloat (FlFinite q) => Ok (Qle_bool (inject_Z n) q)
  | PFloat (FlInf negative) => Ok (negb negative)
  | PFloat FlNan => Ok false
  | _ => Raise TypeError
  end.

Definition already_exists : ProcessResult :=
  {| success := true; message := "Already exists"; is_skipped := true |}.

Definition manual_skip : ProcessResult :=
  {| success := false;
     message :=
       ("The race track may no longer exist." ++ nl
        ++ " Skipped (manual=true and osm_id=null in circuit_mappings.json)"
       )%string;
     is_skipped := false |}.

Definition not_in_osm (wikidata_id : string) : ProcessResult :=
  {| success := false;
     message :=
       ("Not found in OpenStreetMap" ++ nl
        ++ "       Wikidata: " ++ wikidata_id ++ nl
        ++ "       Actions:" ++ nl
        ++ "          1. Check https://www.wikidata.org/wiki/" ++ wikidata_id
        ++ nl
        ++ "          2. Find circuit at https://www.openstreetmap.org" ++ nl
        ++ "          3. Add OSM ID to circuit_mappings.json")%string;
     is_skipped := false |}.

Definition not_anywhere (name : string) : ProcessResult :=
  {| success := false;
     message :=
       ("Not found in Wikidata or OSM" ++ nl
        ++ "       Actions:" ++ nl
        ++ "          1. Find circuit at https://www.openstreetmap.org" ++ nl
        ++ "          2. Add OSM ID to circuit_mappings.json:" ++ nl
        ++ "             " ++ Samples.quoted name ++ ": {"
        ++ Samples.quoted "osm_id" ++ ": 12345, "
        ++ Samples.quoted "osm_type" ++ ": " ++ Samples.quoted "way" ++ ", "
        ++ Samples.quoted "manual" ++ ": true}")%string;
     is_skipped := false |}.

Definition up_to_date (local_ver : string) : ProcessResult :=
  {| success := true;
     message := ("Up to date (v" ++ local_ver ++ ")")%string;
     is_skipped := true |}.

Definition no_element (osm_type osm_id : string) : ProcessResult :=
  {| success := false;
     message :=
       ("Failed to get geometry from Overpass API" ++ nl
        ++ "       OSM " ++ osm_type ++ ": " ++ osm_id ++ nl
        ++ "       Possible causes:" ++ nl
        ++ "          - All Overpass servers are overloaded or unavailable"
        ++ nl
        ++ "          - Try running the script later" ++ nl
        ++ "          - Check: https://www.openstreetmap.org/" ++ osm_type
        ++ "/" ++ osm_id)%string;
     is_skipped := false |}.

Definition no_features (osm_type osm_id : string) : ProcessResult :=
  {| success := false;
     message :=
       ("OSM " ++ osm_type ++ " has no geometry" ++ nl
        ++ "       OSM " ++ osm_type ++ ": " ++ osm_id ++ nl
        ++ "       Possible causes:" ++ nl
        ++ "          - Element exists but has no geometry data" ++ nl
        ++ "          - Check: https://www.openstreetmap.org/" ++ osm_type
        ++ "/" ++ osm_id ++ nl
        ++ "          - May need to find a different OSM ID for this circuit"
       )%string;
     is_skipped := false |}.

Definition saved (method osm_type osm_id server : string) : ProcessResult :=
  {| success := true;
     message :=
       ("Saved via " ++ method ++ " (OSM " ++ osm_type ++ ": " ++ osm_id
        ++ ", server: " ++ server ++ ")")%string;
     is_skipped := false |}.

Definition not_saved (out_path : string) : ProcessResult :=
  {| success := false;
     message :=
       ("Failed to save file " ++ out_path ++ nl
        ++ "       Check write permissions for tracks_geojson/")%string;
     is_skipped := false |}.

(** The answer when [search_osm_id] came back empty-handed. *)
Definition not_found (format : pyval -> string) (circuit : Circuit)
    (cache : CircuitCache) : res ProcessResult :=
  cached ← Cache.get (name circuit) cache;
  match cached with
  | Some entry =>
      if truthy (manual entry) && negb (is_not_none (Models.osm_id entry))
      then Ok manual_skip
      else if truthy (wikidata_id entry)
      then Ok (not_in_osm (format (wikidata_id entry)))
      else Ok (not_anywhere (name circuit))
  | None => Ok (not_anywhere (name circuit))
  end.

Section ProcessCircuit.

(** The world outside: the clock, [str()] as f-strings apply it, the file
    name and path operations, the output directory, the clients at their
    annotated types, and [utils.atomic_write] seen from its caller. *)
Context {W : Type}.
Variable clock : W -> string.
Variable format : pyval -> string.
Variable safe_filename : Circuit -> string.
Variable joinpath : string -> string -> string.
Variable path_exists : string -> W -> bool.
Variable find_ids : string -> W -> list string * W.
Variable sparql_get : string -> W -> res pyval * W.
Variable overpass_get_geometry :
  pyval -> pyval -> W -> (option (gmap string pyval) * option string) * W.
Variable find_by_wikidata_tags_batch :
  list string -> W -> ODict.odict (option Z * option string * Z) * W.
Variable find_by_name :
  string -> W -> (option Z * option string * option string) * W.
Variable verify_exists : pyval -> pyval -> W -> bool * W.
Variable get_version : pyval -> pyval -> W -> option Z * W.
Variable atomic_write : gmap string pyval -> string -> W -> bool * W.

(** [element_data, _ = overpass.get_geometry(osm_id, osm_type)] *)
Definition get_geometry (osm_id : Z) (osm_type : string) (w : W)
    : option (gmap string pyval) * W :=
  let '((element_data, _), w) :=
    overpass_get_geometry (PInt osm_id) (PStr osm_type) w in
  (element_data, w).

Definition search_osm_id
    : Circuit -> CircuitCache -> W
      -> res (option SearchResult) * (CircuitCache * W) :=
  Services.search_osm_id clock format find_ids sparql_get get_geometry
    find_by_wikidata_tags_batch find_by_name verify_exists.

(** From ["# Get geometry"] to the end: [remote_ver] is what the update
    check has fetched, if it ran. *)
Definition fetch_and_save (circuit : Circuit) (out_path : string)
    (result : SearchResult) (remote_ver : option Z) (cache : CircuitCache)
    (w : W) : res ProcessResult * (CircuitCache * W) :=
  let osm_id := sr_osm_id result in
  let osm_type := sr_osm_type result in
  let '((element, server), w) := overpass_get_geometry osm_id osm_type w in
  match element with
  | None => (Ok (no_element (format osm_type) (format osm_id)), (cache, w))
  | Some element =>
      if negb (truthy (PDict element))
      then (Ok (no_element (format osm_type) (format osm_id)), (cache, w))
      else
        match GeoJson.element_to_geojson element with
        | Raise e => (Raise e, (cache, w))
        | Ok geojson =>
            match dict_item geojson "features" with
            | Raise e => (Raise e, (cache, w))
            | Ok features =>
                if negb (truthy features)
                then (Ok (no_features (format osm_type) (format osm_id)),
                      (cache, w))
                else
                  let '(written, w) := atomic_write geojson out_path w in
                  if written : bool then
                    let '(remote_ver, w) :=
                      match remote_ver with
                      | None => get_version osm_id osm_type w
                      | Some v => (Some v, w)
                      end in
                    let done :=
                      saved (sr_method result) (format osm_type)
                        (format osm_id) (format (opt_str server)) in
                    match nonzero remote_ver with
                    | Some version =>
                        match update_version (name circuit) version cache with
                        | (Ok _, cache) => (Ok done, (cache, w))
                        | (Raise e, cache) => (Raise e, (cache, w))
                        end
                    | None => (Ok done, (cache, w))
                    end
                  else (Ok (not_saved out_path), (cache, w))
            end
        end
  end.

(** [process_circuit(circuit, output_dir, cache, wikidata, overpass, osm,
    logger, check_update)] *)
Definition process_circuit (circuit : Circuit) (output_dir : string)
    (cache : CircuitCache) (check_update : bool) (w : W)
    : res ProcessResult * (CircuitCache * W) :=
  let out_path :=
    joinpath output_dir (safe_filename circuit ++ ".geojson")%string in
  if path_exists out_path w && negb check_update
  then (Ok already_exists, (cache, w))
  else
    match search_osm_id circuit cache w with
    | (Raise e, state) => (Raise e, state)
    | (Ok None, (cache, w)) => (not_found format circuit cache, (cache, w))
    | (Ok (Some result), (cache, w)) =>
        if path_exists out_path w && check_update then
          match Cache.get (name circuit) cache with
          | Raise e => (Raise e, (cache, w))
          | Ok cached =>
              let local_ver :=
                match cached with
                | Some entry => osm_version entry
                | None => PNone
                end in
              let '(remote_ver, w) :=
                get_version (sr_osm_id result) (sr_osm_type result) w in
              match
                (if truthy local_ver then
                   match nonzero remote_ver with
                   | Some remote => ge_int local_ver remote
                   | None => Ok false
                   end
                 else Ok false)
              with
              | Raise e => (Raise e, (cache, w))
              | Ok true => (Ok (up_to_date (format local_ver)), (cache, w))
              | Ok false =>
                  fetch_and_save circuit out_path result remote_ver cache w
              end
          end
        else fetch_and_save circuit out_path result None cache w
    end.

End ProcessCircuit.

End Process.

(** ** cli.py: the loop of [run] *)

Module Cli.
Import Models Cache.

(** The counters of [run] and the list of failures. *)
Record tally := {
  success : Z;
  failed : Z;
  skipped : Z;
  failed_list : list (string * string)
}.

Definition start : tally :=
  {| success := 0; failed := 0; skipped := 0; failed_list := [] |}.

(** The body of the loop after [process_circuit] has returned. *)
Definition count (t : tally) (circuit : Circuit)
    (result : Process.ProcessResult) : tally :=
  if Process.success result then
    if Process.is_skipped result then
      {| success := success t; failed := failed t; skipped := skipped t + 1;
         failed_list := failed_list t |}
    else
      {| success := success t + 1; failed := failed t; skipped := skipped t;
         failed_list := failed_list t |}
  else
    {| success := success t; failed := failed t + 1; skipped := skipped t;
       failed_list :=
         failed_list t ++ [(name circuit, Process.message result)] |}.

Section Run.

Context {W : Type}.
Variable clock : W -> string.
Variable format : pyval -> string.
Variable safe_filename : Circuit -> string.
Variable joinpath : string -> string -> string.
Variable path_exists : string -> W -> bool.
Variable find_ids : string -> W -> list string * W.
Variable sparql_get : string -> W -> res pyval * W.
Variable overpass_get_geometry :
  pyval -> pyval -> W -> (option (gmap string pyval) * option string) * W.
Variable find_by_wikidata_tags_batch :
  list string -> W -> ODict.odict (option Z * option string * Z) * W.
Variable find_by_name :
  string -> W -> (option Z * option string * option string) * W.
Variable verify_exists : pyval -> pyval -> W -> bool * W.
Variable get_version : pyval -> pyval -> W -> option Z * W.
Variable atomic_write : gmap string pyval -> string -> W -> bool * W.

(** [time.sleep(config.request_delay)] *)
Variable sleep : W -> W.

(** [for idx, circuit in enumerate(circuits, 1): ...] *)
Fixpoint process_all (circuits : list Circuit) (output_dir : string)
    (check_update : bool) (t : tally) (cache : CircuitCache) (w : W)
    : res tally * (CircuitCache * W) :=
  match circuits with
  | [] => (Ok t, (cache, w))
  | circuit :: rest =>
      match Process.process_circuit clock format safe_filename joinpath
              path_exists find_ids sparql_get overpass_get_geometry
              find_by_wikidata_tags_batch find_by_name verify_exists
              get_version atomic_write circuit output_dir cache check_update
              w with
      | (Raise e, state) => (Raise e, state)
      | (Ok result, (cache, w)) =>
          process_all rest output_dir check_update (count t circuit result)
            cache (sleep w)
      end
  end.

End Run.

End Cli.

(** ** clients/osm.py *)

Module Osm.
Import Overpass OverpassSearch.

Definition OSM_API_BASE : string := "https://www.openstreetmap.org/api/0.6".

(** The exceptions [get_version] catches. *)
Definition caught (e : exn) : bool :=
  match e with
  | RequestException | KeyError | ValueError => true
  | _ => false
  end.

(** The body of [if resp.status_code == 200:] in [get_version], [data]
    being what [resp.json()] gave. *)
Definition version_of (data : pyval) : res pyval :=
  elements ← get_or data "elements" (PList []);
  if truthy elements then
    element ← first_of elements;
    Py.get element "version"
  else Ok PNone.

Section Client.

(** [self._session.head(url, timeout=10)], which gives a status code or
    raises a [requests.RequestException], and [self._session.get]. *)
Context {W : Type}.
Variable format : pyval -> string.
Variable head : string -> Z -> W -> option Z * W.
Variable get_ : string -> Z -> W -> post_outcome * W.

Definition element_url (osm_id osm_type : pyval) : string :=
  (OSM_API_BASE ++ "/" ++ format osm_type ++ "/" ++ format osm_id)%string.

(** [OsmClient.verify_exists(osm_id, osm_type)] *)
Definition verify_exists (osm_id osm_type : pyval) (w : W) : bool * W :=
  let '(status_code, w) := head (element_url osm_id osm_type) 10 w in
  (match status_code with
   | Some code => code =? 200
   | None => true
   end, w).

(** [OsmClient.get_version(osm_id, osm_type)] *)
Definition get_version (osm_id osm_type : pyval) (w : W) : res pyval * W :=
  let '(outcome, w) :=
    get_ (element_url osm_id osm_type ++ ".json")%string 10 w in
  match outcome with
  | Responded status_code json =>
      if status_code =? 200 then
        match data ← json; version_of data with
        | Ok version => (Ok version, w)
        | Raise e => if caught e then (Ok PNone, w) else (Raise e, w)
        end
      else (Ok PNone, w)
  | TimedOut | RequestFailed => (Ok PNone, w)
  end.

End Client.

End Osm.

(** ** clients/overpass.py: [find_by_name] *)

Module OverpassName.
Import Overpass OverpassSearch.

Definition tag_filter (key op value : string) : string :=
  ("[" ++ dq ++ key ++ dq ++ op ++ dq ++ value ++ dq ++ "]")%string.

Definition clause (kind key op value search_name : string) : string :=
  ("  " ++ kind ++ tag_filter key op value ++ "[" ++ dq ++ "name" ++ dq ++ "~"
   ++ dq ++ search_name ++ dq ++ ",i];" ++ Process.nl)%string.

(** The query text of [find_by_name]. *)
Definition name_query (search_name : string) : string :=
  ("[out:json][timeout:30];" ++ Process.nl ++ "(" ++ Process.nl
   ++ clause "relation" "leisure" "=" "track" search_name
   ++ clause "relation" "sport" "~" "motor" search_name
   ++ clause "relation" "highway" "=" "raceway" search_name
   ++ clause "relation" "type" "=" "circuit" search_name
   ++ clause "way" "leisure" "=" "track" search_name
   ++ clause "way" "sport" "~" "motor" search_name
   ++ clause "way" "highway" "=" "raceway" search_name
   ++ ");" ++ Process.nl ++ "out body;")%string.

(** [best_tags = best.get("tags", {})] and [is_complex]: a best element
    that scores nothing, is a site or a multipolygon, or is a sports
    centre. *)
Definition is_complex (best_score : Z) (best : pyval) : res bool :=
  best_tags ← get_or best "tags" (PDict ∅);
  if best_score <=? 0 then Ok true
  else
    type_ ← Py.get best_tags "type";
    if eq_str type_ "site" || eq_str type_ "multipolygon" then Ok true
    else
      leisure ← Py.get best_tags "leisure";
      Ok (eq_str leisure "sports_centre").

(** [srv or server] *)
Definition or_server (srv server : option string) : option string :=
  match srv with
  | Some s => if Str.is_empty s then server else Some s
  | None => server
  end.

Section Search.

Context {W : Type}.
Variable post : string -> string -> Z -> W -> post_outcome * W.
Variable config : Config.
Variable format : pyval -> string.

(** From ["# Check if best is still a complex"] on. *)
Definition descend (best_score : Z) (best : pyval) (server : option string)
    (c : @client W) : res (pyval * pyval * option string) * @client W :=
  match is_complex best_score best with
  | Raise e => (Raise e, c)
  | Ok false => (id_and_type best server, c)
  | Ok true =>
      match parent_id ← item best "id";
            parent_type ← item best "type";
            Ok (parent_id, parent_type) with
      | Raise e => (Raise e, c)
      | Ok (parent_id, parent_type) =>
          match _find_circuit_in_complex post config format parent_id
                  parent_type c with
          | (Raise e, c) => (Raise e, c)
          | (Ok (inner_id, inner_type, srv), c) =>
              if truthy inner_id
              then (Ok (inner_id, inner_type, or_server srv server), c)
              else (id_and_type best server, c)
          end
      end
  end.

(** [OverpassClient.find_by_name(search_name)].  The elements test true
    where [scored[0]] is read, so the list of scored elements is not
    empty there. *)
Definition find_by_name (search_name : string) (c : @client W)
    : res (pyval * pyval * option string) * @client W :=
  let '(answer, c) := query post config (name_query search_name) None c in
  match answer with
  | Raise e => (Raise e, c)
  | Ok (data, server) =>
      match elements_of data with
      | Raise e => (Raise e, c)
      | Ok None => (Ok (PNone, PNone, None), c)
      | Ok (Some elements) =>
          match scored_elements elements with
          | Raise e => (Raise e, c)
          | Ok scored =>
              match Scored.sort_reverse scored with
              | (best_score, best) :: _ => descend best_score best server c
              | [] => (Ok (PNone, PNone, None), c)
              end
          end
      end
  end.

End Search.

End OverpassName.

(** ** Further sample inputs *)

Module Inputs.

(** A dump in three pieces, and a call in which it breaks after two of
    them. *)
Definition three_pieces (data : gmap string pyval) : list string :=
  ["{"; " features "; "}"].

Definition dump_breaks : AtomicWrite.faults :=
  {| AtomicWrite.mkdir_fails := false; AtomicWrite.create_fails := false;
     AtomicWrite.dump_fails := Some 2%nat; AtomicWrite.close_fails := None;
     AtomicWrite.rename_fails := false; AtomicWrite.unlink_fails := false |}.


(** A store with one automatic record, and a document that is not an
    object. *)
Definition spa_record : gmap string pyval :=
  {[ "osm_id" := PInt 4744242; "osm_type" := PStr "relation";
     "manual" := PBool false ]}.

Definition loaded_store : Cache.CircuitCache :=
  {| Cache._data := {[ "circuits" := PDict {[ "Spa" := PDict spa_record ]} ]};
     Cache.saves := [] |}.

Definition file_document : pyval :=
  PDict {[ "circuits" := PDict {[ "Spa" := PDict spa_record ]} ]}.


(** A fleet of three servers of which the first two answer 504 and the
    third answers the query, and one in which every server answers 429. *)
Definition three_servers : Config :=
  {| timeout := 30; max_retries := 3; retry_delay := 5;
     overpass_servers := [("a", "https://a/"); ("b", "https://b/");
                          ("c", "https://c/")] |}.

Definition third_answers (url q : string) (to : Z) (w : nat)
    : Overpass.post_outcome * nat :=
  if String.eqb url "https://c/"
  then (Overpass.Responded 200 (Ok (PDict {[ "elements" := PList [] ]})), S w)
  else (Overpass.Responded 504 (Raise ValueError), S w).

Definition all_429 (url q : string) (to : Z) (w : nat)
    : Overpass.post_outcome * nat :=
  (Overpass.Responded 429 (Raise ValueError), S w).

Definition fresh_client : Overpass.client :=
  {| Overpass.world := 0%nat; Overpass._current_server := None;
     Overpass.trace := [] |}.


(** Three search results: a town, a circuit described in capitals, and a
    Formula One circuit; and the same with the identifier of the second
    missing. *)
Definition search_result (qid desc : string) : pyval :=
  PDict {[ "id" := PStr qid; "description" := PStr desc ]}.

Definition monza_results : list pyval :=
  [ search_result "Q1" "city in Lombardy";
    search_result "Q2" "Motor RACING venue";
    search_result "Q3" "Formula One circuit in Italy" ].

Definition search_answers (results : list pyval) (name : string) (limit : Z)
    (w : ()) : res pyval * () :=
  (Ok (PDict {[ "search" := PList results ]}), w).


(** A server that answers every query with one relation, and a client
    with an empty geometry cache. *)
Definition one_server : Config :=
  {| timeout := 30; max_retries := 3; retry_delay := 5;
     overpass_servers := [("a", "https://a/")] |}.

Definition relation_answer (url q : string) (to : Z) (w : nat)
    : Overpass.post_outcome * nat :=
  (Overpass.Responded 200
     (Ok (PDict {[ "elements" := PList [PDict Samples.track_relation] ]})),
   S w).

Definition fresh_overpass : OverpassSearch.overpass :=
  {| OverpassSearch.net := fresh_client;
     OverpassSearch._geometry_cache := ∅ |}.


(** What a descent into a complex finds: a raceway way, a circuit relation
    and a circuit way. *)
Definition tagged (osm_id : Z) (kind key value : string) : pyval :=
  PDict {[ "id" := PInt osm_id; "type" := PStr kind;
           "tags" := Overpass.str_tags {[ key := value ]} ]}.

Definition inside_complex : list pyval :=
  [ tagged 1 "way" "highway" "raceway";
    tagged 2 "relation" "type" "circuit";
    tagged 3 "way" "type" "circuit" ].

Definition complex_answer (url q : string) (to : Z) (w : nat)
    : Overpass.post_outcome * nat :=
  (Overpass.Responded 200 (Ok (PDict {[ "elements" := PList inside_complex ]})),
   S w).



(** A world that counts the calls made to it.  The knowledge base knows
    one item for the circuit name and one for every other name, the
    endpoint links them to the relations 555 and 42, the map has a circuit
    relation 555 and finds 555 again and the way 43 through the tags. *)
Definition monza : Models.Circuit :=
  {| Models.name := "Monza"; Models.location := "Monza";
     Models.country := "Italy"; Models.grands_prix := "Italian Grand Prix" |}.

Definition clock (w : nat) : string := "2026-01-01 10:00".

Definition two_ids (search_name : string) (w : nat) : list string * nat :=
  (if String.eqb search_name "Imola" then ["Q1"] else ["Q2"], S w).

Definition no_ids (search_name : string) (w : nat) : list string * nat :=
  ([], S w).

Definition sparql_two (q : string) (w : nat) : res pyval * nat :=
  (Ok (Samples.sparql_response (PStr "555")), S w).

Definition circuit_geometry (osm_id : Z) (osm_type : string) (w : nat)
    : option (gmap string pyval) * nat :=
  (if osm_id =? 555
   then Some {[ "id" := PInt 555; "type" := PStr "relation";
                "tags" := Overpass.str_tags {[ "type" := "circuit" ]} ]}
   else None, S w).

Definition tagged_batch (qids : list string) (w : nat)
    : ODict.odict (option Z * option string * Z) * nat :=
  ([("Q1", (Some 555, Some "relation", 100));
    ("Q2", (Some 43, Some "way", 60))], S w).

Definition no_hit (search_name : string) (w : nat)
    : (option Z * option string * option string) * nat :=
  ((None, None, None), S w).

Definition still_exists (osm_id osm_type : pyval) (w : nat) : bool * nat :=
  (true, S w).

(** The identifiers collected for Imola in that world, and the candidates
    found for them. *)
Definition imola_qids : ODict.odict string * gset string :=
  (Services.collect_qids two_ids 0 (Models.search_names Samples.imola)
     ([], ∅) 0%nat).1.

Definition imola_found : Services.found :=
  match (Services.wikidata_candidates sparql_two circuit_geometry
           tagged_batch imola_qids.1 imola_qids.2 0%nat).1 with
  | Ok f => f
  | Raise _ => {| Services.candidates := []; Services.checked_osm_ids := ∅ |}
  end.

(** The searches for Imola in that world and in one that knows nothing. *)
Definition imola_search
    : res (option Models.SearchResult) * (Cache.CircuitCache * nat) :=
  Services.search clock two_ids sparql_two circuit_geometry tagged_batch
    no_hit Samples.imola Samples.empty_store 0%nat.

Definition imola_unknown
    : res (option Models.SearchResult) * (Cache.CircuitCache * nat) :=
  Services.search clock no_ids sparql_two circuit_geometry tagged_batch
    no_hit Samples.imola Samples.empty_store 0%nat.

Definition imola_result : Models.SearchResult :=
  {| Models.sr_osm_id := PInt 555; Models.sr_osm_type := PStr "relation";
     Models.sr_method := "Wikidata P402";
     Models.sr_wikidata_id := PStr "Q1" |}.


(** A run of [process_circuit] in a world where nothing is on disk yet,
    Overpass returns the track relation for every element, the element is
    at version 7 and the file can be written; and one in which neither
    the knowledge base nor the map knows the circuit. *)
Definition ascii_name (circuit : Models.Circuit) : string :=
  Models.name circuit.

Definition slash (dir file : string) : string := (dir ++ "/" ++ file)%string.

Definition nothing_on_disk (path : string) (w : nat) : bool := false.

Definition track_geometry (osm_id osm_type : pyval) (w : nat)
    : (option (gmap string pyval) * option string) * nat :=
  ((Some Samples.track_relation, Some "a"), S w).

Definition version_7 (osm_id osm_type : pyval) (w : nat) : option Z * nat :=
  (Some 7, S w).

Definition write_succeeds (data : gmap string pyval) (path : string) (w : nat)
    : bool * nat :=
  (true, S w).

Definition show (v : pyval) : string :=
  match v with
  | PStr s => s
  | PInt n => Str.of_int n
  | _ => "None"
  end.

Definition imola_process
    : res Process.ProcessResult * (Cache.CircuitCache * nat) :=
  Process.process_circuit clock show ascii_name slash
    nothing_on_disk two_ids sparql_two track_geometry tagged_batch no_hit
    still_exists version_7 write_succeeds Samples.imola "tracks"
    Samples.empty_store false 0%nat.

Definition imola_saved : Process.ProcessResult :=
  match imola_process.1 with
  | Ok r => r
  | Raise _ => Process.already_exists
  end.

Definition imola_searched
    : res (option Models.SearchResult) * (Cache.CircuitCache * nat) :=
  Process.search_osm_id clock show two_ids sparql_two
    track_geometry tagged_batch no_hit still_exists Samples.imola
    Samples.empty_store 0%nat.

Definition unknown_searched
    : res (option Models.SearchResult) * (Cache.CircuitCache * nat) :=
  Process.search_osm_id clock show no_ids sparql_two
    track_geometry tagged_batch no_hit still_exists Samples.imola
    Samples.empty_store 0%nat.


(** An endpoint that cannot be reached, and a target file with a text in
    it. *)
Definition sparql_down (q : string) (w : ()) : res pyval * () :=
  (Raise RequestException, w).

Definition old_track : gmap string string :=
  {[ "tracks/monza.geojson" := "old" ]}.


(** A run over two circuits: the file of Monza is on disk already, and
    the one of Imola cannot be written. *)
Definition two_circuits : list Models.Circuit := [Samples.imola; monza].

Definition monza_on_disk (path : string) (w : nat) : bool :=
  String.eqb path "tracks/Monza.geojson".

Definition write_fails (data : gmap string pyval) (path : string) (w : nat)
    : bool * nat :=
  (false, S w).

Definition napping (w : nat) : nat := S w.

Definition two_circuits_run : res Cli.tally * (Cache.CircuitCache * nat) :=
  Cli.process_all clock show ascii_name slash monza_on_disk two_ids
    sparql_two track_geometry tagged_batch no_hit still_exists version_7
    write_fails napping two_circuits "tracks" false Cli.start
    Samples.empty_store 0%nat.

Definition two_circuits_tally : Cli.tally :=
  match two_circuits_run.1 with
  | Ok t => t
  | Raise _ => Cli.start
  end.


(** The OSM API answering with version 12 of an element, and answering
    with a list where an object is expected. *)
Definition element_answer (url : string) (to : Z) (w : nat)
    : Overpass.post_outcome * nat :=
  (Overpass.Responded 200
     (Ok (PDict {[ "elements" :=
                     PList [PDict {[ "id" := PInt 555;
                                     "version" := PInt 12 ]}] ]})), S w).

Definition list_answer (url : string) (to : Z) (w : nat)
    : Overpass.post_outcome * nat :=
  (Overpass.Responded 200 (Ok (PList [])), S w).

(** A server whose first answer is a site relation and whose later
    answers are what is inside it. *)
Definition site : pyval := tagged 9 "relation" "type" "site".

Definition site_then_inside (url q : string) (to : Z) (w : nat)
    : Overpass.post_outcome * nat :=
  (Overpass.Responded 200
     (Ok (PDict {[ "elements" :=
                     PList (if (w =? 0)%nat then [site]
                            else inside_complex) ]})), S w).

End Inputs.

(** * Properties *)

Module ODictFacts.
Import ODict.

Lemma get_set_eq {V} (d : odict V) k v : get (set d k v) k = Some v.
Proof.
  induction d as [| [k' v'] rest IH]; simpl.
  - by rewrite String.eqb_refl.
  - destruct (String.eqb k' k) eqn:Hk; simpl; by rewrite Hk.
Qed.

Lemma get_set_ne {V} (d : odict V) k k' v :
  k ≠ k' -> get (set d k v) k' = get d k'.
Proof.
  intros Hne. induction d as [| [k0 v0] rest IH]; simpl.
  - by apply String.eqb_neq in Hne as ->.
  - destruct (String.eqb_spec k0 k) as [-> | Hk]; simpl.
    + by apply String.eqb_neq in Hne as ->.
    + by rewrite IH.
Qed.

Lemma mem_set {V} (d : odict V) k k' v :
  mem d k' = true -> mem (set d k v) k' = true.
Proof.
  unfold mem. destruct (decide (k = k')) as [-> | Hne].
  - by rewrite get_set_eq.
  - by rewrite get_set_ne.
Qed.

Lemma fold_set_get {V} (ks : list string) (v : V) (d : odict V) k :
  k ∈ ks \/ get d k = Some v ->
  get (fold_left (fun d k => set d k v) ks d) k = Some v.
Proof.
  revert d. induction ks as [| k0 rest IH]; intros d Hk; simpl.
  - destruct Hk as [Hin | Hget]; [by apply elem_of_nil in Hin | done].
  - apply IH. destruct (decide (k0 = k)) as [-> | Hne].
    + right. apply get_set_eq.
    + destruct Hk as [Hin | Hget].
      * left. apply elem_of_cons in Hin as [-> | Hin]; done.
      * right. by rewrite get_set_ne.
Qed.

(** [{qid: None for qid in qids}] has an entry, [None], for every [qid]. *)
Lemma from_keys_get {V} (ks : list string) (v : V) k :
  k ∈ ks -> get (from_keys ks v) k = Some v.
Proof. intros Hin. apply fold_set_get. by left. Qed.

Lemma mem_set_iff {V} (d : odict V) k k' v :
  mem (set d k v) k' = true <-> k' = k \/ mem d k' = true.
Proof.
  unfold mem. destruct (decide (k = k')) as [-> | Hne].
  - rewrite get_set_eq. split; [by left | done].
  - rewrite get_set_ne by done. split; [by right |].
    by intros [-> | H].
Qed.

End ODictFacts.

Module OverpassFacts.
Import Overpass Samples.

Section QueryFacts.

Context {W : Type}.
Variable post : string -> string -> Z -> W -> post_outcome * W.
Variable config : Config.

(** A pass that ends with every server failed has asked each of them once,
    and done nothing else. *)
Lemma try_servers_all_failed_trace q to servers :
  forall t r o (c c' : client) t' r' o',
    try_servers post q to servers t r o c = (AllFailed t' r' o', c') ->
    trace c' = trace c ++ posts servers.
Proof.
  induction servers as [| [name url] rest IH]; intros t r o c c' t' r' o' Hrun.
  - simpl in Hrun. injection Hrun as _ _ _ <-. by rewrite app_nil_r.
  - simpl in Hrun. destruct (post url q to (world c)) as [outcome w].
    assert (Hstep : forall t1 r1 o1 cur,
      try_servers post q to rest t1 r1 o1
        {| world := w; _current_server := cur;
           trace := trace c ++ [EvPost name] |} = (AllFailed t' r' o', c') ->
      trace c' = trace c ++ posts (( name, url) :: rest)).
    { intros t1 r1 o1 cur Hrest. apply IH in Hrest. simpl in Hrest.
      rewrite Hrest. simpl. by rewrite <- app_assoc. }
    destruct outcome as [code json | |]; [| by eapply Hstep | by eapply Hstep].
    destruct (code =? 200)%Z.
    + destruct json as [data | []]; try discriminate. by eapply Hstep.
    + destruct (code =? 429)%Z; [by eapply Hstep |].
      destruct (code =? 504)%Z; by eapply Hstep.
Qed.

(** A pass without success and without a 429 ends the query there: the
    rounds still to run are dropped and nothing is slept. *)
Lemma query_rounds_abort q to attempt rest (c c' : client) t o :
  try_servers post q to (overpass_servers config) 0 0 0 c
    = (AllFailed t 0 o, c') ->
  query_rounds post config q to (attempt :: rest) c = (Ok (None, None), c').
Proof. intros Hround. simpl. by rewrite Hround. Qed.

(** When every server answers 504 a pass counts one timeout per server. *)
Lemma try_servers_all_504 q to :
  (forall url w, exists json w',
      post url q to w = (Responded 504 json, w')) ->
  forall servers t r o (c : client), exists c',
    try_servers post q to servers t r o c
      = (AllFailed (t + Z.of_nat (length servers)) r o, c')
    /\ _current_server c' = _current_server c.
Proof.
  intros H504. induction servers as [| [name url] rest IH]; intros t r o c.
  - exists c. simpl. split; [| done]. do 2 f_equal. lia.
  - simpl. destruct (H504 url (world c)) as (json & w' & ->). simpl.
    edestruct IH as (c' & -> & Hcur). exists c'. split; [| exact Hcur].
    do 2 f_equal. lia.
Qed.

(** C5: inside a query, a pass over the server list that ends with no
    success and no 429 makes the executor return failure at once, having
    asked each server once and slept for no backoff, whatever rounds were
    left; and when every server answers 504 the whole query is one
    rate-limit wait, one request per server, and failure. *)
Theorem query_no_rate_limit_aborts_after_one_round
    (q : string) (to : Z) (attempt : Z) (rest : list Z) (c c' : client)
    (t o : Z) :
  try_servers post q to (overpass_servers config) 0 0 0 c
    = (AllFailed t 0 o, c') ->
  (query_rounds post config q to (attempt :: rest) c = (Ok (None, None), c')
   /\ trace c' = trace c ++ posts (overpass_servers config))
  /\ (forall (timeout_override : option Z) (c0 : client),
        0 < max_retries config ->
        (forall q' to' url w, exists json w',
            post url q' to' w = (Responded 504 json, w')) ->
        exists c1,
          query post config q timeout_override c0 = (Ok (None, None), c1)
          /\ trace c1
             = trace c0 ++ EvRateLimit :: posts (overpass_servers config)
          /\ _current_server c1 = _current_server c0).
Proof.
  intros Hround. split.
  - split; [by eapply query_rounds_abort |].
    by eapply try_servers_all_failed_trace.
  - intros timeout_override c0 Hretries H504. unfold query.
    set (to' := match timeout_override with
                | Some t0 => if (t0 =? 0)%Z then timeout config else t0
                | None => timeout config
                end).
    unfold range. destruct (Z.to_nat (max_retries config)) as [| n] eqn:Hn;
      [lia |].
    rewrite <- cons_seq. rewrite fmap_cons.
    destruct (try_servers_all_504 q to' (H504 q to')
                (overpass_servers config) 0 0 0 (_rate_limit c0))
      as (c1 & Hrun & Hcur).
    exists c1. split; [by eapply query_rounds_abort | split].
    + apply try_servers_all_failed_trace in Hrun. rewrite Hrun. simpl.
      by rewrite <- app_assoc.
    + exact Hcur.
Qed.

End QueryFacts.

Lemma query_no_rate_limit_aborts_after_one_round_witness :
  let c := {| world := 0%nat; _current_server := None; trace := [] |} in
  let c' := {| world := 5%nat; _current_server := None;
               trace := posts (overpass_servers default_config) |} in
  (query_rounds all_504 default_config "q" 30 [0; 1; 2] c
     = (Ok (None, None), c')
   /\ trace c' = trace c ++ posts (overpass_servers default_config))
  /\ exists c1,
       query all_504 default_config "q" None c = (Ok (None, None), c1)
       /\ trace c1
          = trace c ++ EvRateLimit :: posts (overpass_servers default_config)
       /\ _current_server c1 = _current_server c.
Proof.
  intros c c'.
  destruct (query_no_rate_limit_aborts_after_one_round
              all_504 default_config "q" 30 0 [1; 2] c c' 5 0 eq_refl)
    as [Hround Hquery].
  split; [exact Hround |].
  apply Hquery; [reflexivity |].
  intros q' to' url w. by exists (Raise ValueError), (S w).
Defined.

Lemma get_str_tags tags k :
  get (str_tags tags) k = Ok (default PNone (PStr <$> tags !! k)).
Proof. unfold get, get_or, str_tags, dict_get_or. by rewrite lookup_fmap. Qed.

Lemma eq_str_tag tags k v :
  eq_str (default PNone (PStr <$> tags !! k)) v = tag_is tags k v.
Proof.
  unfold tag_is. destruct (tags !! k) as [s|]; simpl; [|done].
  destruct (String.eqb_spec s v) as [->|Hne].
  - by rewrite bool_decide_eq_true_2.
  - rewrite bool_decide_eq_false_2; [done | congruence].
Qed.

Lemma str_in_tags tags k :
  str_in k (str_tags tags) = Ok (tag_present tags k).
Proof.
  unfold str_in, str_tags, tag_present. f_equal.
  apply bool_decide_ext. rewrite lookup_fmap. apply fmap_is_Some.
Qed.

Lemma get_or_str_tags tags k dflt :
  get_or (str_tags tags) k (PStr dflt) = Ok (PStr (default dflt (tags !! k))).
Proof.
  unfold get_or, str_tags, dict_get_or. rewrite lookup_fmap.
  by destruct (tags !! k).
Qed.

Lemma sport_contains tags :
  str_in "motor" (PStr (default "" (tags !! "sport")))
  = Ok (tag_contains tags "sport" "motor").
Proof. unfold tag_contains. by destruct (tags !! "sport"). Qed.

Lemma kind_relation element :
  eq_str (dict_get element "type") "relation"
  = bool_decide (kind_of element = Some "relation").
Proof.
  unfold dict_get, kind_of.
  destruct (element !! "type") as [[]|]; simpl; try done.
  destruct (String.eqb_spec s "relation") as [->|Hne].
  - by rewrite bool_decide_eq_true_2.
  - rewrite bool_decide_eq_false_2; [done | congruence].
Qed.

Lemma if_add (c : bool) (s d : Z) :
  (if c then s + d else s) = s + rule c d.
Proof. destruct c; simpl; lia. Qed.

Lemma if_sub (c : bool) (s d : Z) :
  (if c then s - d else s) = s + rule c (- d).
Proof. destruct c; simpl; lia. Qed.

(** On string-valued tags the scorer never raises and computes the rule
    table. *)
Lemma circuit_score_rule_table element tags :
  dict_get_or element "tags" (PDict ∅) = str_tags tags ->
  _circuit_score element = Ok (rule_table_score tags (kind_of element)).
Proof.
  intros Htags. unfold _circuit_score. rewrite Htags.
  cbv zeta. rewrite !get_str_tags. cbn [mbind res_bind].
  rewrite get_or_str_tags. cbn [mbind res_bind].
  rewrite sport_contains. cbn [mbind res_bind].
  rewrite !str_in_tags. cbn [mbind res_bind].
  replace (if tag_present tags "landuse" then Ok true
           else Ok (tag_present tags "amenity"))
    with (Ok (A:=bool) (tag_present tags "landuse" || tag_present tags "amenity"))
    by (by destruct (tag_present tags "landuse")).
  cbn [mbind res_bind].
  rewrite !eq_str_tag, kind_relation.
  rewrite !if_add, !if_sub. reflexivity.
Qed.

(** The scorer reads nothing of the element but its tags and its kind. *)
Lemma circuit_score_depends_on_tags_and_kind (e1 e2 : gmap string pyval) :
  e1 !! "tags" = e2 !! "tags" ->
  e1 !! "type" = e2 !! "type" ->
  _circuit_score e1 = _circuit_score e2.
Proof.
  intros Htags Hkind. unfold _circuit_score, dict_get_or, dict_get.
  by rewrite Htags, Hkind.
Qed.

Lemma rule_table_not_relation tags kind :
  kind ≠ Some "relation" ->
  rule_table_score tags kind = rule_table_score tags None.
Proof.
  intros Hk. unfold rule_table_score.
  by rewrite !bool_decide_eq_false_2.
Qed.

(** C6: the Candidate Scorer is a function of the element's tags and kind
    only (two elements that agree on both get the same result), on a tag map
    of strings it returns the sum of the rule table, and on an element that
    is not a relation the tag maps [{type: circuit}], [{highway: services}]
    and [{leisure: sports_centre, landuse: x}] score 100, -60 and -70. *)
Theorem circuit_score_pure_rule_table :
  (forall e1 e2 : gmap string pyval,
      e1 !! "tags" = e2 !! "tags" -> e1 !! "type" = e2 !! "type" ->
      _circuit_score e1 = _circuit_score e2)
  /\ (forall (element : gmap string pyval) (tags : gmap string string),
      dict_get_or element "tags" (PDict ∅) = str_tags tags ->
      _circuit_score element = Ok (rule_table_score tags (kind_of element)))
  /\ (forall element : gmap string pyval,
      kind_of element ≠ Some "relation" ->
      (element !! "tags" = Some (str_tags {[ "type" := "circuit" ]}) ->
       _circuit_score element = Ok 100)
      /\ (element !! "tags" = Some (str_tags {[ "highway" := "services" ]}) ->
          _circuit_score element = Ok (-60))
      /\ (element !! "tags"
            = Some (str_tags {[ "leisure" := "sports_centre"; "landuse" := "x" ]}) ->
          _circuit_score element = Ok (-70))).
Proof.
  split; [exact circuit_score_depends_on_tags_and_kind |].
  split; [exact circuit_score_rule_table |].
  intros element Hkind.
  repeat split; intros Htags;
    (erewrite circuit_score_rule_table;
     [| unfold dict_get_or; rewrite Htags; reflexivity]);
    rewrite (rule_table_not_relation _ _ Hkind); by vm_compute.
Qed.

(** The three sample tag maps on a way, and the first one on a relation. *)
Lemma circuit_score_pure_rule_table_witness :
  _circuit_score {[ "type" := PStr "way";
                    "tags" := str_tags {[ "type" := "circuit" ]} ]} = Ok 100
  /\ _circuit_score {[ "tags" := str_tags {[ "highway" := "services" ]} ]}
     = Ok (-60)
  /\ _circuit_score
       {[ "id" := PInt 7; "type" := PStr "way";
          "tags" := str_tags {[ "leisure" := "sports_centre"; "landuse" := "x" ]} ]}
     = Ok (-70)
  /\ _circuit_score {[ "type" := PStr "relation";
                       "tags" := str_tags {[ "type" := "circuit" ]} ]} = Ok 105.
Proof.
  destruct circuit_score_pure_rule_table as (_ & Htable & Hsamples).
  split; [| split; [| split]].
  - apply Hsamples; [by vm_compute | reflexivity].
  - apply Hsamples; [by vm_compute | reflexivity].
  - apply Hsamples; [by vm_compute | reflexivity].
  - erewrite Htable; [| reflexivity]. by vm_compute.
Defined.

End OverpassFacts.


Module CacheFacts.
Import Models Cache Samples.

Lemma stored_inv self name record :
  stored self name = Some record ->
  exists circuits, _data self !! "circuits" = Some (PDict circuits)
                   /\ circuits !! name = Some (PDict record).
Proof.
  unfold stored. intros H.
  destruct (_data self !! "circuits") as [[| | | | | |circuits]|]; try done.
  exists circuits. split; [done |].
  destruct (circuits !! name) as [[| | | | | |r]|]; congruence.
Qed.

Lemma stored_circuits self name circuits :
  _data self !! "circuits" = Some (PDict circuits) ->
  stored self name
  = match circuits !! name with
    | Some (PDict record) => Some record
    | _ => None
    end.
Proof. intros H. unfold stored. by rewrite H. Qed.

(** [set] on a name whose record is manual returns before it writes. *)
Lemma set_manual_noop now name oid oty wid met sn com self record :
  stored self name = Some record ->
  truthy (dict_get record "manual") = true ->
  set now name oid oty wid met sn com self = (Ok (), self).
Proof.
  intros Hst Hman. apply stored_inv in Hst as (circuits & Hc & Hn).
  unfold set. rewrite Hc. unfold dict_get at 1. rewrite Hc. simpl.
  rewrite Hn. simpl. by rewrite Hman.
Qed.

(** [set] on one name leaves the records of the others alone. *)
Lemma set_other now name' oid oty wid met sn com self name :
  name' ≠ name ->
  stored (set now name' oid oty wid met sn com self).2 name = stored self name.
Proof.
  intros Hne. unfold set.
  destruct (_data self !! "circuits") as [circuits|] eqn:Hc.
  - unfold dict_get at 1. rewrite Hc. simpl.
    destruct circuits as [| | | | | |cs]; try done.
    destruct (default (PDict ∅) (cs !! name')) as [| | | | | |existing]; try done.
    destruct (truthy (dict_get existing "manual")); [done |].
    simpl. erewrite !stored_circuits; [| exact Hc | by apply lookup_insert_eq].
    by rewrite lookup_insert_ne.
  - unfold dict_get at 1. simpl. rewrite lookup_insert_eq. simpl.
    rewrite lookup_empty. simpl.
    erewrite stored_circuits; [| by apply lookup_insert_eq].
    rewrite lookup_insert_ne by done. rewrite lookup_empty.
    unfold stored. by rewrite Hc.
Qed.

(** [update_version] writes the version into the record, manual or not. *)
Lemma update_version_stored name version self record :
  stored self name = Some record ->
  (update_version name version self).1 = Ok ()
  /\ stored (update_version name version self).2 name
     = Some (<["osm_version" := PInt version]> record).
Proof.
  intros Hst. apply stored_inv in Hst as (circuits & Hc & Hn).
  unfold update_version. rewrite Hc. simpl.
  rewrite bool_decide_eq_true_2 by (by rewrite Hn).
  unfold dict_item. rewrite Hn. simpl. split; [done |].
  erewrite stored_circuits; [| by apply lookup_insert_eq].
  by rewrite lookup_insert_eq.
Qed.

Lemma update_version_other name' version self name :
  name' ≠ name ->
  stored (update_version name' version self).2 name = stored self name.
Proof.
  intros Hne. unfold update_version.
  destruct (_data self !! "circuits") as [circuits|] eqn:Hc; [| done].
  destruct (str_in name' circuits) as [[|]|]; try done.
  destruct circuits as [| | | | | |cs]; simpl; try done;
    try (by destruct (_ : res pyval)).
  destruct (dict_item cs name') as [[| | | | | |record]|]; try done.
  simpl. erewrite !stored_circuits; [| exact Hc | by apply lookup_insert_eq].
  by rewrite lookup_insert_ne.
Qed.

(** [set] on a name that is writable stores the entry it builds and saves
    the store. *)
Lemma set_writable now name oid oty wid met sn com self :
  writable self name = true ->
  exists self',
    set now name oid oty wid met sn com self = (Ok (), self')
    /\ stored self' name
       = Some (to_dict (new_entry now oid oty wid met sn com))
    /\ saves self' = saves self ++ [_data self'].
Proof.
  unfold writable, set. intros Hw.
  destruct (_data self !! "circuits") as [circuits |] eqn:Hc.
  - unfold dict_get at 1. rewrite Hc. simpl.
    destruct circuits as [| | | | | | cs]; try done.
    destruct (cs !! name) as [[| | | | | | existing] |]; try done; simpl.
    + apply negb_true_iff in Hw. rewrite Hw. eexists. split; [done |].
      split; [| done]. simpl.
      erewrite stored_circuits by apply lookup_insert_eq.
      by rewrite lookup_insert_eq.
    + eexists. split; [done |]. split; [| done]. simpl.
      erewrite stored_circuits by apply lookup_insert_eq.
      by rewrite lookup_insert_eq.
  - unfold dict_get at 1. simpl. rewrite lookup_insert_eq. simpl.
    rewrite lookup_empty. simpl. eexists. split; [done |].
    split; [| done]. simpl.
    erewrite stored_circuits by apply lookup_insert_eq.
    by rewrite lookup_insert_eq.
Qed.

(** One call keeps a manual record manual, changes at most its
    [osm_version], and changes nothing unless it is [update_version] on
    that very name. *)
Lemma do_call_manual c self name record :
  stored self name = Some record ->
  truthy (dict_get record "manual") = true ->
  exists record',
    stored (do_call c self).2 name = Some record'
    /\ truthy (dict_get record' "manual") = true
    /\ (forall field, field ≠ "osm_version" -> record' !! field = record !! field)
    /\ (is_update_version c && String.eqb (target c) name = false ->
        record' = record)
    /\ (target c = name -> (do_call c self).1 = Ok ()).
Proof.
  intros Hst Hman.
  destruct c as [now name' oid oty wid met sn com | name' version]; simpl.
  - destruct (decide (name' = name)) as [-> | Hne].
    + erewrite set_manual_noop by done. simpl. by exists record.
    + rewrite set_other by done. exists record.
      by repeat split.
  - destruct (decide (name' = name)) as [-> | Hne].
    + destruct (update_version_stored name version self record Hst)
        as [Hok Hrec].
      rewrite Hrec. eexists. split; [done |].
      split; [unfold dict_get; by rewrite lookup_insert_ne |].
      split; [intros field Hf; by rewrite lookup_insert_ne |].
      split; [by rewrite String.eqb_refl | done].
    + rewrite update_version_other by done. exists record.
      by repeat split.
Qed.

(** C1, as the code has it: whatever automated calls are made, in any
    number and on any names, a record whose [manual] flag is set stays
    stored and keeps every field but [osm_version]; it is equal to its prior
    value unless [update_version] was called on its name, and that call
    stores the version it is given; calls on the record's own name never
    raise. *)
Theorem manual_record_frozen_but_version
    (self : CircuitCache) (name : string) (record : gmap string pyval)
    (calls : list call) :
  stored self name = Some record ->
  truthy (dict_get record "manual") = true ->
  (exists record',
      stored (run calls self).2 name = Some record'
      /\ (forall field, field ≠ "osm_version" ->
          record' !! field = record !! field)
      /\ (forallb (fun c => negb (is_update_version c
                                  && String.eqb (target c) name)) calls = true ->
          record' = record)
      /\ (forallb (fun c => String.eqb (target c) name) calls = true ->
          (run calls self).1 = Ok ()))
  /\ (forall version,
        stored (update_version name version self).2 name
        = Some (<["osm_version" := PInt version]> record)).
Proof.
  intros Hst Hman. split.
  2: { intros version. by apply update_version_stored. }
  revert self record Hst Hman.
  induction calls as [| c rest IH]; intros self record Hst Hman.
  - exists record. by repeat split.
  - destruct (do_call_manual c self name record Hst Hman)
      as (r1 & Hst1 & Hman1 & Hsame1 & Heq1 & Hok1).
    simpl. destruct (do_call c self) as [[[] | e] self1] eqn:Hcall;
      simpl in Hst1, Hok1.
    + destruct (IH self1 r1 Hst1 Hman1) as (r2 & Hst2 & Hsame2 & Heq2 & Hok2).
      exists r2. split; [done |].
      split; [intros field Hf; by rewrite Hsame2, Hsame1 |].
      split.
      * intros [Hc Hrest]%andb_prop. rewrite Heq2 by done.
        apply Heq1. by apply negb_true_iff.
      * intros [Hc Hrest]%andb_prop. by apply Hok2.
    + exists r1. simpl. split; [done |]. split; [done |]. split.
      * intros [Hc Hrest]%andb_prop. apply Heq1. by apply negb_true_iff.
      * intros [Hc Hrest]%andb_prop. apply String.eqb_eq in Hc.
        by specialize (Hok1 Hc).
Qed.

Lemma manual_record_frozen_but_version_witness :
  (exists record',
      stored (run sample_calls manual_store).2 "Monza" = Some record'
      /\ (forall field, field ≠ "osm_version" ->
          record' !! field = monza_record !! field)
      /\ (forallb (fun c => negb (is_update_version c
                                  && String.eqb (target c) "Monza"))
            sample_calls = true ->
          record' = monza_record)
      /\ (forallb (fun c => String.eqb (target c) "Monza") sample_calls = true ->
          (run sample_calls manual_store).1 = Ok ()))
  /\ (forall version,
        stored (update_version "Monza" version manual_store).2 "Monza"
        = Some (<["osm_version" := PInt version]> monza_record)).
Proof.
  apply (manual_record_frozen_but_version
           manual_store "Monza" monza_record sample_calls); reflexivity.
Defined.

(** The version update reaches a manual record: after it the stored record
    is no longer the one that was there. *)
Lemma manual_record_mutated_by_update_version :
  is_manual manual_store "Monza" = true
  /\ stored (run [CallUpdateVersion "Monza" 7] manual_store).2 "Monza"
     ≠ stored manual_store "Monza".
Proof.
  split; [reflexivity |].
  intros Heq.
  apply (f_equal (fun r => r ≫= (.!! "osm_version"))) in Heq.
  vm_compute in Heq. discriminate Heq.
Qed.

End CacheFacts.

Module ModelsFacts.
Import Models Samples.

Lemma not_none_false v : is_not_none v = false -> v = PNone.
Proof. by destruct v. Qed.

(** Reading back what [to_dict] wrote. *)
Lemma from_dict_to_dict (e : CacheEntry) :
  from_dict (to_dict e) = normalize e.
Proof.
  destruct e as [oid oty wid sm sn va man com ver].
  unfold from_dict, to_dict, normalize, dict_get, dict_get_or; simpl.
  destruct (truthy com); destruct (is_not_none ver) eqn:Hver;
    try apply not_none_false in Hver; subst;
    f_equal; by simplify_map_eq.
Qed.

Lemma normalize_id (e : CacheEntry) :
  truthy (comment e) = true \/ comment e = PNone -> normalize e = e.
Proof.
  destruct e as [oid oty wid sm sn va man com ver]. unfold normalize; simpl.
  intros [-> | ->]; reflexivity.
Qed.

(** [CircuitCache.get] reads a stored record through [from_dict]. *)
Lemma get_stored self name record :
  Cache.stored self name = Some record ->
  Cache.get name self = Ok (Some (from_dict record)).
Proof.
  intros (circuits & Hc & Hn)%CacheFacts.stored_inv.
  unfold Cache.get, dict_get_or. rewrite Hc. simpl.
  rewrite bool_decide_eq_true_2 by (by rewrite Hn).
  unfold dict_item. by rewrite Hn.
Qed.

(** C8, as the code has it: a record written with [to_dict] and read back
    with [from_dict], directly or through [CircuitCache.get], comes back
    equal field for field, except that a comment that tests false (the
    empty string) comes back as [None]; a record whose comment is [None] or
    non-empty comes back equal. *)
Theorem cache_entry_round_trip :
  (forall e : CacheEntry, from_dict (to_dict e) = normalize e)
  /\ (forall e : CacheEntry,
        truthy (comment e) = true \/ comment e = PNone ->
        from_dict (to_dict e) = e)
  /\ (forall (self : Cache.CircuitCache) (name : string) (e : CacheEntry),
        Cache.stored self name = Some (to_dict e) ->
        Cache.get name self = Ok (Some (normalize e))).
Proof.
  split; [exact from_dict_to_dict |]. split.
  - intros e He. rewrite from_dict_to_dict. by apply normalize_id.
  - intros self name e Hst. rewrite <- from_dict_to_dict.
    by apply get_stored.
Qed.

Lemma cache_entry_round_trip_witness :
  from_dict (to_dict commented_entry) = commented_entry
  /\ from_dict (to_dict empty_comment_entry) = normalize empty_comment_entry.
Proof.
  destruct cache_entry_round_trip as (Hnorm & Hsame & _).
  split.
  - apply Hsame. left. reflexivity.
  - apply Hnorm.
Defined.

(** A well-typed record with an empty comment does not come back equal:
    its comment, which was not [None], is [None] after the round trip. *)
Lemma empty_comment_lost_in_round_trip :
  well_typed empty_comment_entry = true
  /\ comment empty_comment_entry = PStr ""
  /\ comment (from_dict (to_dict empty_comment_entry)) = PNone
  /\ from_dict (to_dict empty_comment_entry) ≠ empty_comment_entry.
Proof.
  split; [reflexivity |]. split; [reflexivity |]. split; [reflexivity |].
  intros Heq. apply (f_equal comment) in Heq. vm_compute in Heq.
  discriminate Heq.
Qed.

End ModelsFacts.

Module SearchNamesFacts.
Import Models Samples.

Lemma gp_loop (pieces : list string) (names : list string) :
  fold_left
    (fun names gp_name =>
       let gp_name := Str.strip gp_name in
       if negb (Str.is_empty gp_name) then names ++ [gp_name] else names)
    pieces names
  = names ++ filter (fun gp_name => Str.is_empty gp_name = false)
               (Str.strip <$> pieces).
Proof.
  revert names. induction pieces as [| piece rest IH]; intros names; simpl.
  - by rewrite app_nil_r.
  - rewrite IH. destruct (Str.is_empty (Str.strip piece)) eqn:He; simpl.
    + by rewrite filter_cons_False by congruence.
    + rewrite filter_cons_True by done. by rewrite <- app_assoc.
Qed.

Lemma search_names_refines (c : Circuit) :
  search_names c = search_names_spec c.
Proof.
  unfold search_names, search_names_spec.
  destruct (grands_prix c) as [| ch rest] eqn:Hgp; simpl; [done |].
  by rewrite gp_loop.
Qed.

Section Collect.

Import ODict ODictFacts Services.

Context {W : Type}.
Variable find_ids : string -> W -> list string * W.

Lemma add_qid_first n acc q :
  first_pass n acc ->
  first_pass n (add_qid 0 n acc q)
  /\ (forall k, k ∈ (add_qid 0 n acc q).2 <-> k = q \/ k ∈ acc.2).
Proof.
  destruct acc as [d s]. intros [Hmem Hget]. unfold add_qid. simpl in *.
  destruct (mem d q) eqn:Hq; simpl.
  - split; [by split |]. intros k. split; [by right |].
    intros [-> | Hk]; [by apply Hmem | done].
  - split; [split |]; cbn [fst snd].
    + intros k. rewrite mem_set_iff, Hmem. set_solver.
    + intros k [->%elem_of_singleton | Hk]%elem_of_union.
      * apply get_set_eq.
      * rewrite get_set_ne; [by apply Hget |].
        intros ->. apply Hmem in Hk. congruence.
    + intros k. set_solver.
Qed.

Lemma fold_add_qid_first n qids :
  forall acc,
    first_pass n acc ->
    first_pass n (fold_left (add_qid 0 n) qids acc)
    /\ (forall k, k ∈ (fold_left (add_qid 0 n) qids acc).2
                  <-> k ∈ qids \/ k ∈ acc.2).
Proof.
  induction qids as [| q rest IH]; intros acc Hacc; simpl.
  - split; [done |]. intros k. set_solver.
  - destruct (add_qid_first n acc q Hacc) as [Hacc' Hin'].
    destruct (IH _ Hacc') as [Hfinal Hin]. split; [done |].
    intros k. rewrite Hin, Hin'. set_solver.
Qed.

(** For the later search names the circuit-name set is left alone and
    no recorded name is replaced. *)
Lemma add_qid_later i n acc q :
  i ≠ 0%nat ->
  (add_qid i n acc q).2 = acc.2
  /\ (forall k v, get acc.1 k = Some v -> get (add_qid i n acc q).1 k = Some v).
Proof.
  intros Hi. destruct acc as [d s]. unfold add_qid. simpl.
  destruct (mem d q) eqn:Hq; simpl; [done |].
  apply Nat.eqb_neq in Hi as ->. split; [done |].
  intros k v Hk. rewrite get_set_ne; [done |].
  intros ->. unfold mem in Hq. by rewrite Hk in Hq.
Qed.

Lemma fold_add_qid_later i n qids :
  i ≠ 0%nat ->
  forall acc,
    (fold_left (add_qid i n) qids acc).2 = acc.2
    /\ (forall k v, get acc.1 k = Some v ->
                    get (fold_left (add_qid i n) qids acc).1 k = Some v).
Proof.
  intros Hi. induction qids as [| q rest IH]; intros acc; simpl; [done |].
  destruct (add_qid_later i n acc q Hi) as [Hs Hg].
  destruct (IH (add_qid i n acc q)) as [Hs' Hg']. split; [congruence |].
  intros k v Hk. by apply Hg', Hg.
Qed.

Lemma collect_qids_later names :
  forall i acc w,
    i ≠ 0%nat ->
    (collect_qids find_ids i names acc w).1.2 = acc.2
    /\ (forall k v, get acc.1 k = Some v ->
                    get (collect_qids find_ids i names acc w).1.1 k = Some v).
Proof.
  induction names as [| n rest IH]; intros i acc w Hi; simpl; [done |].
  destruct (find_ids n w) as [qids w1].
  destruct (fold_add_qid_later i n qids Hi acc) as [Hs Hg].
  destruct (IH (S i) (fold_left (add_qid i n) qids acc) w1) as [Hs' Hg'];
    [done |].
  split; [congruence |]. intros k v Hk. by apply Hg', Hg.
Qed.

(** The identifiers marked as found through the circuit name are those the
    first search name returned, and they stay recorded under it. *)
Lemma collect_qids_first n rest w :
  let r := (collect_qids find_ids 0 (n :: rest) ([], ∅) w).1 in
  forall qid,
    (qid ∈ r.2 <-> qid ∈ (find_ids n w).1)
    /\ (qid ∈ r.2 -> get r.1 qid = Some n).
Proof.
  simpl. destruct (find_ids n w) as [qids w1]. simpl.
  assert (Hstart : first_pass n (([], ∅) : odict string * gset string)).
  { split; [| set_solver]. intros k. simpl. set_solver. }
  destruct (fold_add_qid_first n qids _ Hstart) as [[Hmem Hget] Hin].
  destruct (collect_qids_later rest 1
              (fold_left (add_qid 0 n) qids ([], ∅)) w1) as [Hs Hg]; [done |].
  intros qid. rewrite Hs. split.
  - rewrite Hin. simpl. set_solver.
  - intros Hq. by apply Hg, Hget.
Qed.

End Collect.

(** C9: the search names of a circuit are its primary name followed, in
    order, by the non-empty stripped comma-separated components of
    [grands_prix]; the list is therefore not empty and starts with the
    primary name, and the identifiers the pipeline marks as found at index 0
    are exactly those [find_ids] returned for the primary name, each
    recorded under it. *)
Theorem search_names_primary_first (c : Circuit) :
  search_names c
  = name c :: filter (fun gp_name => Str.is_empty gp_name = false)
                (Str.strip <$> Str.split "," (grands_prix c))
  /\ search_names c ≠ []
  /\ head (search_names c) = Some (name c)
  /\ (forall (W : Type) (find_ids : string -> W -> list string * W) (w : W),
        let r := (Services.collect_qids find_ids 0 (search_names c)
                    ([], ∅) w).1 in
        forall qid,
          (qid ∈ r.2 <-> qid ∈ (find_ids (name c) w).1)
          /\ (qid ∈ r.2 -> ODict.get r.1 qid = Some (name c))).
Proof.
  pose proof (search_names_refines c) as Hnames.
  unfold search_names_spec in Hnames.
  split; [exact Hnames |]. rewrite Hnames.
  split; [done |]. split; [done |].
  intros W find_ids w. apply collect_qids_first.
Qed.

Lemma search_names_primary_first_witness :
  search_names imola
  = ["Imola"; "San Marino Grand Prix"; "Italian Grand Prix"]
  /\ ODict.get (Services.collect_qids one_id_per_name 0 (search_names imola)
                  ([], ∅) ()).1.1 "Q7" = Some "Imola".
Proof.
  destruct (search_names_primary_first imola) as (Hnames & _ & _ & Hfirst).
  split; [rewrite Hnames; reflexivity |].
  destruct (Hfirst unit one_id_per_name tt "Q7") as [Hin Hget].
  apply Hget, Hin. simpl. apply list_elem_of_further, list_elem_of_here.
Defined.

End SearchNamesFacts.

Module WikidataFacts.
Import ODict ODictFacts Wikidata Samples.

(** A binding that is read without an exception leaves every entry there
    is in place and touches at most the entry of its own item. *)
Lemma bind_one_keeps results b results' :
  bind_one results b = Ok results' ->
  (forall k, mem results k = true -> mem results' k = true)
  /\ exists qid, forall k, k ≠ qid -> get results' k = get results k.
Proof.
  unfold bind_one. intros Hb.
  destruct (get_or b "item" (PDict ∅)) as [item_field |]; [| done].
  simpl in Hb.
  destruct (get_or item_field "value" (PStr "")) as [item_uri |]; [| done].
  simpl in Hb. destruct (uri_qid item_uri) as [qid |]; [| done]. simpl in Hb.
  destruct b as [| | | | | | bd]; try done.
  destruct (binding_value bd) as [[n |] |]; simpl in Hb; try done;
    injection Hb as <-.
  - split; [intros k; apply mem_set |].
    exists qid. intros k Hne. by apply get_set_ne.
  - split; [done |]. by exists qid.
Qed.

Lemma for_each_bind_one_keeps bindings :
  forall results results',
    for_each bind_one bindings results = Ok results' ->
    forall k, mem results k = true -> mem results' k = true.
Proof.
  induction bindings as [| b rest IH]; intros results results' Hrun k Hk.
  - simpl in Hrun. by injection Hrun as <-.
  - simpl in Hrun.
    destruct (bind_one results b) as [r1 |] eqn:Hb; [| done]. simpl in Hrun.
    apply bind_one_keeps in Hb as [Hkeep _]. eapply IH; eauto.
Qed.

Section BatchFacts.

Context {W : Type}.
Variable sparql_get : string -> W -> res pyval * W.

(** X14: Whenever [get_p402_batch] returns, every input identifier has an
    entry. *)
Lemma get_p402_batch_entries qids w results w' :
  get_p402_batch sparql_get qids w = (Ok results, w') ->
  forall qid, qid ∈ qids -> mem results qid = true.
Proof.
  intros Hrun qid Hin. unfold get_p402_batch in Hrun.
  destruct qids as [| q0 qs]; [by apply elem_of_nil in Hin |].
  set (qids := q0 :: qs) in *.
  destruct (sparql_get (p402_query qids) w) as [response w1].
  assert (Hdefault : mem (from_keys qids (@None Z)) qid = true).
  { unfold mem. by rewrite from_keys_get. }
  destruct (response ≫= read_bindings qids) as [r | e] eqn:Hread.
  - injection Hrun as <- <-.
    destruct response as [data |]; [| done]. simpl in Hread.
    unfold read_bindings in Hread.
    destruct (get_or data "results" (PDict ∅)) as [rf |]; [| done].
    simpl in Hread.
    destruct (get_or rf "bindings" (PList [])) as [bf |]; [| done].
    simpl in Hread. destruct (iter bf) as [bs |]; [| done]. simpl in Hread.
    by eapply for_each_bind_one_keeps.
  - destruct e; try done; by injection Hrun as <- <-.
Qed.

(** X15: When the request itself fails, every identifier maps to [None]. *)
Lemma get_p402_batch_request_failed qids w w' e :
  qids ≠ [] ->
  sparql_get (p402_query qids) w = (Raise e, w') ->
  e = RequestException \/ e = ValueError ->
  get_p402_batch sparql_get qids w = (Ok (from_keys qids None), w').
Proof.
  intros Hne Hget He. unfold get_p402_batch.
  destruct qids as [| q0 qs]; [done |]. rewrite Hget.
  by destruct He as [-> | ->].
Qed.

End BatchFacts.

Lemma get_p402_batch_entries_witness :
  ODict.mem [("Q1", @None Z); ("Q2", Some 42)] "Q2" = true.
Proof.
  apply (get_p402_batch_entries (Samples.sparql_answers (PStr "abc"))
           ["Q1"; "Q2"] () [("Q1", None); ("Q2", Some 42)] ()).
  - vm_compute. reflexivity.
  - set_solver.
Defined.

Lemma get_p402_batch_request_failed_witness :
  get_p402_batch Inputs.sparql_down ["Q1"; "Q2"] ()
  = (Ok (ODict.from_keys ["Q1"; "Q2"] None), ()).
Proof.
  apply (get_p402_batch_request_failed Inputs.sparql_down ["Q1"; "Q2"] () ()
           RequestException).
  - discriminate.
  - reflexivity.
  - left. reflexivity.
Defined.

(** C7, where the code departs from it: a binding whose [osmRelation]
    value is [null] is not skipped, [int(None)] raises [TypeError], which
    neither [except] clause catches, so the call returns no mapping at all
    and the entry of [Q2] is lost with it; a binding whose value is not a
    number is skipped and every identifier keeps its entry. *)
Theorem get_p402_batch_null_value_raises :
  get_p402_batch (sparql_answers PNone) ["Q1"; "Q2"] () = (Raise TypeError, ())
  /\ get_p402_batch (sparql_answers (PStr "abc")) ["Q1"; "Q2"] ()
     = (Ok [("Q1", None); ("Q2", Some 42)], ()).
Proof. split; by vm_compute. Qed.

End WikidataFacts.

Module FilesFacts.
Import Files Samples.

Section WritersFacts.

Variable dump : gmap string pyval -> list string.

Lemma append_empty_r (s : string) : (s ++ "")%string = s.
Proof.
  induction s as [| c s IH]; [done |].
  change (String c (s ++ "")%string = String c s). by rewrite IH.
Qed.

Lemma append_assoc (s t u : string) :
  ((s ++ t) ++ u)%string = (s ++ (t ++ u))%string.
Proof.
  induction s as [| c s IH]; [done |].
  change (String c ((s ++ t) ++ u)%string = String c (s ++ (t ++ u))%string).
  by rewrite IH.
Qed.

(** Writing pieces to a file that is there appends them all. *)
Lemma apply_writes path chunks :
  forall fs content,
    fs !! path = Some content ->
    apply_ops (Write path <$> chunks) fs
    = <[path := (content ++ fold_right String.append "" chunks)%string]> fs.
Proof.
  induction chunks as [| chunk rest IH]; intros fs content Hfs; simpl.
  - rewrite append_empty_r. by rewrite insert_id.
  - unfold apply_ops in *. simpl. rewrite Hfs.
    rewrite (IH _ (content ++ chunk)%string) by apply lookup_insert_eq.
    rewrite insert_insert_eq. by rewrite append_assoc.
Qed.

(** While pieces are written to one file, the others stay as they are. *)
Lemma apply_writes_other path chunks other :
  other ≠ path ->
  forall fs, apply_ops (Write path <$> chunks) fs !! other = fs !! other.
Proof.
  intros Hne. induction chunks as [| chunk rest IH]; intros fs; [done |].
  unfold apply_ops in *. simpl. rewrite IH.
  destruct (fs !! path); [by rewrite lookup_insert_ne | done].
Qed.

(** X2: [atomic_write] keeps its promise: wherever it is interrupted, the
    target holds what it held before or the complete new text. *)
Lemma atomic_write_interrupted tmp data path fs k :
  tmp ≠ path ->
  interrupted k (atomic_write dump tmp data path) fs !! path = fs !! path
  \/ interrupted k (atomic_write dump tmp data path) fs !! path
     = Some (dumped dump data).
Proof.
  intros Hne. unfold interrupted, atomic_write.
  destruct k as [| k]; [by left |]. simpl.
  destruct (decide (k ≤ length (Write tmp <$> dump data))%nat) as [Hk | Hk].
  - left. rewrite take_app_le by lia. rewrite <- fmap_take.
    unfold apply_ops. simpl.
    rewrite (apply_writes_other tmp _ path) by done.
    by rewrite lookup_insert_ne.
  - right. rewrite take_ge by (rewrite length_app; simpl; lia).
    unfold apply_ops. rewrite fold_left_app. simpl.
    fold (apply_ops (Write tmp <$> dump data) (<[tmp := ""]> fs)).
    rewrite (apply_writes tmp _ _ "") by apply lookup_insert_eq.
    rewrite lookup_insert_eq. by rewrite lookup_insert_eq.
Qed.

(** [CircuitCache.save] does not: once the file is opened, the target is
    empty, whatever it held. *)
Lemma save_interrupted_empty data path fs :
  interrupted 1 (save dump path data) fs !! path = Some "".
Proof. unfold interrupted, save. simpl. apply lookup_insert_eq. Qed.

End WritersFacts.

Lemma atomic_write_interrupted_witness :
  interrupted 3
    (atomic_write Inputs.three_pieces "tracks/tmpab12.geojson" ∅
       "tracks/monza.geojson") Inputs.old_track !! "tracks/monza.geojson"
  = Inputs.old_track !! "tracks/monza.geojson"
  \/ interrupted 3
       (atomic_write Inputs.three_pieces "tracks/tmpab12.geojson" ∅
          "tracks/monza.geojson") Inputs.old_track !! "tracks/monza.geojson"
     = Some (dumped Inputs.three_pieces ∅).
Proof.
  apply (atomic_write_interrupted Inputs.three_pieces
           "tracks/tmpab12.geojson" ∅ "tracks/monza.geojson"
           Inputs.old_track 3).
  discriminate.
Defined.

(** C4, where the code departs from it: [CircuitCache.save] opens the
    mapping file for writing in place, so an interruption right after the
    [open] leaves the file, which held a hand-verified record, empty; the
    same interruption of [atomic_write] leaves the target as it was. *)
Theorem save_interrupted_truncates_store (dump : gmap string pyval -> list string)
    (data : gmap string pyval) :
  disk !! mappings_file = Some stored_text
  /\ interrupted 1 (save dump mappings_file data) disk !! mappings_file
     = Some ""
  /\ interrupted 1 (atomic_write dump "tmpab12.geojson" data mappings_file) disk
       !! mappings_file
     = Some stored_text.
Proof.
  split; [reflexivity |]. split; [apply save_interrupted_empty |].
  unfold interrupted, atomic_write. simpl.
  rewrite lookup_insert_ne by done. reflexivity.
Qed.

End FilesFacts.

Module GeoJsonFacts.
Import GeoJson Samples.

Lemma point_pairs points :
  forall coords,
    comprehension
      (fun p => lon ← item p "lon"; lat ← item p "lat"; Ok (PList [lon; lat]))
      points = Ok coords ->
    Forall is_pair coords.
Proof.
  induction points as [| p rest IH]; intros coords Hc; simpl in Hc.
  - injection Hc as <-. constructor.
  - destruct (item p "lon") as [lon |]; [| done]. simpl in Hc.
    destruct (item p "lat") as [lat |]; [| done]. simpl in Hc.
    destruct (comprehension _ rest) as [cs |]; [| done]. simpl in Hc.
    injection Hc as <-. constructor; [by exists lon, lat | by apply IH].
Qed.

Lemma coords_of_pairs geometry coords :
  coords_of geometry = Ok coords ->
  exists l, coords = PList l /\ Forall is_pair l.
Proof.
  unfold coords_of. intros Hc.
  destruct (iter geometry) as [points |]; [| done]. simpl in Hc.
  destruct (comprehension _ points) as [cs |] eqn:Hcs; [| done].
  simpl in Hc. injection Hc as <-. exists cs. split; [done |].
  by eapply point_pairs.
Qed.

Lemma points_total points :
  forallb is_point points = true ->
  exists coords,
    comprehension
      (fun p => lon ← item p "lon"; lat ← item p "lat"; Ok (PList [lon; lat]))
      points = Ok coords.
Proof.
  induction points as [| p rest IH]; simpl; [by eexists |].
  intros [Hp Hrest]%andb_prop. destruct (IH Hrest) as [cs ->].
  destruct p as [| | | | | | d]; try done. simpl in Hp.
  apply andb_prop in Hp as [Hlon Hlat].
  apply bool_decide_eq_true_1 in Hlon as [lon Hlon].
  apply bool_decide_eq_true_1 in Hlat as [lat Hlat].
  unfold item, dict_item. rewrite Hlon, Hlat. simpl. by eexists.
Qed.

Lemma coords_of_total geometry :
  is_geometry geometry = true -> exists coords, coords_of geometry = Ok coords.
Proof.
  destruct geometry as [| | | | | points |]; try done. simpl.
  intros [cs Hcs]%points_total. unfold coords_of. simpl. rewrite Hcs.
  by eexists.
Qed.

(** The coordinates the code computes are the specification's. *)
Lemma points_lon_lat points :
  forall coords,
    comprehension
      (fun p => lon ← item p "lon"; lat ← item p "lat"; Ok (PList [lon; lat]))
      points = Ok coords ->
    coords = lon_lat <$> points.
Proof.
  induction points as [| p rest IH]; intros coords Hc; simpl in Hc.
  - by injection Hc as <-.
  - destruct p as [| | | | | | d]; try done. simpl in Hc.
    unfold dict_item in Hc.
    destruct (d !! "lon") as [lon |] eqn:Hlon; [| done]. simpl in Hc.
    destruct (d !! "lat") as [lat |] eqn:Hlat; [| done]. simpl in Hc.
    destruct (comprehension _ rest) as [cs |]; [| done]. simpl in Hc.
    injection Hc as <-. rewrite (IH cs eq_refl). simpl.
    unfold dict_get. by rewrite Hlon, Hlat.
Qed.

Lemma chars_raise s :
  s ≠ "" ->
  comprehension
    (fun p => lon ← item p "lon"; lat ← item p "lat"; Ok (PList [lon; lat]))
    (chars s) = Raise TypeError.
Proof. by destruct s. Qed.

Lemma coords_of_line geometry coords :
  coords_of geometry = Ok coords -> coords = line_of geometry.
Proof.
  unfold coords_of, line_of. intros Hc.
  destruct geometry as [| | | | s | points | d]; try done; simpl in Hc.
  - destruct s as [| c rest]; [by injection Hc as <- | done].
  - destruct (comprehension _ points) as [cs |] eqn:Hcs; [| done].
    simpl in Hc. injection Hc as <-. simpl. f_equal.
    by apply points_lon_lat.
  - destruct (map_to_list d) as [| [k v] rest]; [by injection Hc as <- | done].
Qed.

(** A member that is a way with a geometry adds the feature the
    specification asks for, any other member adds none. *)
Lemma add_member_exact features member features' :
  add_member features member = Ok features' ->
  features'
  = features ++ (member_feature <$> List.filter contributes [member]).
Proof.
  unfold add_member. intros Hadd.
  destruct member as [| | | | | | d]; try done. simpl in Hadd.
  unfold dict_item in Hadd. unfold contributes, dict_get. simpl.
  destruct (d !! "type") as [ty |]; [| done]. simpl in Hadd |- *.
  destruct (eq_str ty "way"); simpl in Hadd |- *.
  2: { injection Hadd as <-. by rewrite app_nil_r. }
  destruct (d !! "geometry") as [g |] eqn:Hg; simpl in Hadd |- *.
  2: { injection Hadd as <-. by rewrite app_nil_r. }
  destruct (coords_of g) as [coords |] eqn:Hc; [| done].
  simpl in Hadd. injection Hadd as <-.
  apply coords_of_line in Hc as ->. unfold dict_get. by rewrite Hg.
Qed.

Lemma members_exact members :
  forall features features',
    for_each add_member members features = Ok features' ->
    features'
    = features ++ (member_feature <$> List.filter contributes members).
Proof.
  induction members as [| m rest IH]; intros features features' Hrun.
  - simpl in Hrun. injection Hrun as <-. by rewrite app_nil_r.
  - simpl in Hrun.
    destruct (add_member features m) as [f1 |] eqn:Hm; [| done].
    simpl in Hrun. apply add_member_exact in Hm as ->.
    rewrite (IH _ _ Hrun), <- app_assoc, <- fmap_app. f_equal. f_equal.
    simpl. by destruct (contributes m).
Qed.

(** A member adds one feature when it is a way with a geometry, and none
    otherwise. *)
Lemma add_member_spec features member features' :
  add_member features member = Ok features' ->
  Forall is_line_feature features ->
  Forall is_line_feature features'
  /\ length features'
     = (length features + length (List.filter contributes [member]))%nat.
Proof.
  unfold add_member. intros Hadd Hfs.
  destruct member as [| | | | | | d]; try done. simpl in Hadd.
  unfold dict_item in Hadd. unfold contributes, dict_get. simpl.
  destruct (d !! "type") as [ty |]; [| done]. simpl in Hadd |- *.
  destruct (eq_str ty "way"); simpl in Hadd |- *.
  2: { injection Hadd as <-. split; [done | lia]. }
  destruct (d !! "geometry") as [g |] eqn:Hg; simpl in Hadd |- *.
  2: { injection Hadd as <-. split; [done | lia]. }
  destruct (coords_of g) as [coords |] eqn:Hc; [| done].
  simpl in Hadd. injection Hadd as <-.
  apply coords_of_pairs in Hc as (l & -> & Hl). split.
  - apply Forall_app. split; [done |]. constructor; [| constructor].
    by eexists _, l.
  - rewrite length_app. simpl. lia.
Qed.

Lemma add_member_total features member :
  is_member member = true -> exists features', add_member features member = Ok features'.
Proof.
  destruct member as [| | | | | | d]; try done. unfold is_member, add_member.
  intros [Hty Hgeo]%andb_prop.
  apply bool_decide_eq_true_1 in Hty as [ty Hty].
  unfold contributes, dict_get in Hgeo. simpl. unfold dict_item.
  rewrite Hty in Hgeo |- *. simpl in Hgeo |- *.
  destruct (eq_str ty "way"); simpl in Hgeo |- *; [| by eexists].
  destruct (d !! "geometry") as [g |] eqn:Hg; simpl in Hgeo |- *.
  - destruct (coords_of_total g Hgeo) as [coords ->]. simpl. by eexists.
  - by eexists.
Qed.

Lemma members_spec members :
  forall features features',
    for_each add_member members features = Ok features' ->
    Forall is_line_feature features ->
    Forall is_line_feature features'
    /\ length features'
       = (length features + length (List.filter contributes members))%nat.
Proof.
  induction members as [| m rest IH]; intros features features' Hrun Hfs.
  - simpl in Hrun. injection Hrun as <-. split; [done | simpl; lia].
  - simpl in Hrun.
    destruct (add_member features m) as [f1 |] eqn:Hm; [| done].
    simpl in Hrun. apply add_member_spec in Hm as [Hf1 Hlen1]; [| done].
    destruct (IH _ _ Hrun Hf1) as [Hf' Hlen']. split; [done |].
    rewrite Hlen', Hlen1. simpl. destruct (contributes m); simpl; lia.
Qed.

Lemma members_total members :
  forallb is_member members = true ->
  forall features, exists features',
    for_each add_member members features = Ok features'.
Proof.
  induction members as [| m rest IH]; intros Hms features; [by eexists |].
  simpl in Hms. apply andb_prop in Hms as [Hm Hrest]. simpl.
  destruct (add_member_total features m Hm) as [f1 ->]. simpl. by apply IH.
Qed.

(** C10, as the code has it: whenever [element_to_geojson] returns, the
    result is a [FeatureCollection] whose features are all [LineString]s of
    [[lon, lat]] pairs, one for each member of a relation that is a way with
    a geometry, one for a way that has a geometry, none for another kind;
    the features are exactly the ones the specification asks for, in the
    order of the members: the coordinates of each are the points of its
    geometry in order, longitude first and latitude second, and a member's
    feature carries its role and reference.  It returns on every element
    whose members carry a [type] and whose geometries are lists of points
    with [lon] and [lat]. *)
Theorem element_to_geojson_features (element : gmap string pyval) :
  (forall result,
      element_to_geojson element = Ok result ->
      exists features,
        result = {[ "type" := PStr "FeatureCollection";
                    "features" := PList features ]}
        /\ Forall is_line_feature features
        /\ length features = length (sources element)
        /\ features = expected_features element)
  /\ (well_formed element = true ->
      exists result, element_to_geojson element = Ok result).
Proof.
  unfold element_to_geojson, expected_features, sources, well_formed.
  destruct (eq_str (dict_get_or element "type" (PStr "relation")) "relation").
  - split.
    + intros result Hrun.
      destruct (iter (dict_get_or element "members" (PList [])))
        as [members |]; [| done].
      simpl in Hrun.
      destruct (for_each add_member members []) as [features |] eqn:Hms;
        [| done].
      simpl in Hrun. injection Hrun as <-.
      pose proof (members_exact _ _ _ Hms) as Hexact.
      apply members_spec in Hms as [Hfs Hlen]; [| constructor].
      exists features. by repeat split.
    + unfold dict_get_or.
      destruct (element !! "members") as [[| | | | | members |] |];
        try done; simpl; [| by eexists].
      intros Hms. destruct (members_total members Hms []) as [features ->].
      by eexists.
  - destruct (eq_str (dict_get_or element "type" (PStr "relation")) "way").
    + destruct (element !! "geometry") as [geometry |].
      * split.
        -- intros result Hrun.
           destruct (coords_of geometry) as [coords |] eqn:Hc; [| done].
           simpl in Hrun. injection Hrun as <-.
           pose proof (coords_of_line _ _ Hc) as Hline.
           apply coords_of_pairs in Hc as (l & -> & Hl).
           eexists. split; [done |]. split; [| split; [done |]].
           ++ constructor; [| constructor]. by eexists _, l.
           ++ simpl. by rewrite Hline.
        -- intros [coords ->]%coords_of_total. by eexists.
      * split; [| by eexists]. intros result [= <-]. exists []. by repeat split.
    + split; [| by eexists]. intros result [= <-]. exists []. by repeat split.
Qed.

Lemma element_to_geojson_features_witness :
  (forall result,
      element_to_geojson track_relation = Ok result ->
      exists features,
        result = {[ "type" := PStr "FeatureCollection";
                    "features" := PList features ]}
        /\ Forall is_line_feature features
        /\ length features = length (sources track_relation)
        /\ features
           = [feature {[ "role" := PStr "outer"; "ref" := PInt 1 ]}
                (PList [PList [PInt 9; PInt 45]; PList [PInt 10; PInt 46]])])
  /\ exists result, element_to_geojson track_relation = Ok result.
Proof.
  destruct (element_to_geojson_features track_relation) as [Hshape Htotal].
  split; [exact Hshape |]. apply Htotal. reflexivity.
Defined.

(** [element_to_geojson] is not total: on a relation with a member that
    has no [type], [member["type"]] raises [KeyError]. *)
Lemma element_to_geojson_untyped_member_raises :
  element_to_geojson untyped_member_relation = Raise KeyError.
Proof. by vm_compute. Qed.

End GeoJsonFacts.

Module SelectionFacts.
Import Services Samples.

Lemma tuple_lt_spec (a b : bool * Z) :
  tuple_lt a b = true
  <-> (a.1 = false /\ b.1 = true) \/ (a.1 = b.1 /\ a.2 < b.2).
Proof.
  unfold tuple_lt. destruct a as [[] x], b as [[] y]; simpl;
    rewrite ?Z.ltb_lt; intuition (try discriminate; try lia).
Qed.

Lemma tuple_ge_spec (a b : bool * Z) :
  tuple_lt a b = false
  <-> (a.1 = true /\ b.1 = false) \/ (a.1 = b.1 /\ b.2 <= a.2).
Proof.
  unfold tuple_lt. destruct a as [[] x], b as [[] y]; simpl;
    rewrite ?Z.ltb_ge; intuition (try discriminate; try lia).
Qed.

Lemma ge_trans a b c : ge a b -> ge b c -> ge a c.
Proof.
  unfold ge. rewrite !tuple_ge_spec.
  destruct (key a) as [[] x], (key b) as [[] y], (key c) as [[] z]; simpl;
    intuition (try discriminate; try lia).
Qed.

Lemma lt_ge a b : tuple_lt (key a) (key b) = true -> ge b a.
Proof.
  unfold ge. rewrite tuple_lt_spec, tuple_ge_spec.
  destruct (key a) as [[] x], (key b) as [[] y]; simpl;
    intuition (try discriminate; try lia).
Qed.

Lemma lt_ne a b : tuple_lt (key a) (key b) = true -> key a ≠ key b.
Proof.
  intros Hlt Heq. rewrite Heq in Hlt. apply tuple_lt_spec in Hlt.
  destruct Hlt as [[? ?] | [_ ?]]; [congruence | lia].
Qed.

Lemma insert_perm c sorted : insert c sorted ≡ₚ c :: sorted.
Proof.
  induction sorted as [| d rest IH]; simpl; [done |].
  destruct (tuple_lt (key c) (key d)); [| done].
  rewrite IH. apply Permutation_swap.
Qed.

Lemma sort_reverse_perm cs : sort_reverse cs ≡ₚ cs.
Proof.
  induction cs as [| c rest IH]; simpl; [done |].
  by rewrite insert_perm, IH.
Qed.

Lemma insert_sorted c sorted :
  StronglySorted ge sorted -> StronglySorted ge (insert c sorted).
Proof.
  induction 1 as [| d rest Hrest IH Hd]; simpl.
  - repeat constructor.
  - destruct (tuple_lt (key c) (key d)) eqn:Hlt.
    + constructor; [done |]. rewrite insert_perm.
      constructor; [by apply lt_ge | done].
    + constructor; [by constructor |]. constructor; [done |].
      eapply Forall_impl; [exact Hd |]. intros x Hx. by eapply ge_trans.
Qed.

Lemma sort_reverse_sorted cs : StronglySorted ge (sort_reverse cs).
Proof.
  induction cs as [| c rest IH]; simpl; [constructor | by apply insert_sorted].
Qed.

(** Candidates with one and the same key keep the order they had. *)
Lemma insert_stable k c sorted :
  filter (fun d => key d = k) (insert c sorted)
  = filter (fun d => key d = k) (c :: sorted).
Proof.
  induction sorted as [| d rest IH]; simpl; [done |].
  destruct (tuple_lt (key c) (key d)) eqn:Hlt; [| done].
  apply lt_ne in Hlt. rewrite filter_cons, IH, !filter_cons.
  repeat case_decide; congruence.
Qed.

Lemma sort_reverse_stable k cs :
  filter (fun d => key d = k) (sort_reverse cs)
  = filter (fun d => key d = k) cs.
Proof.
  induction cs as [| c rest IH]; simpl; [done |].
  by rewrite insert_stable, !filter_cons, IH.
Qed.

(** The head of the sorted list: the first of the candidates that no
    other one outranks. *)
Lemma sort_reverse_head cs best others :
  sort_reverse cs = best :: others ->
  exists pre post,
    cs = pre ++ best :: post
    /\ Forall (fun c => tuple_lt (key c) (key best) = true) pre
    /\ Forall (ge best) post.
Proof.
  revert best others. induction cs as [| c rest IH]; intros best others Hs;
    [done |].
  simpl in Hs.
  destruct (sort_reverse rest) as [| d sorted] eqn:Hrest; simpl in Hs.
  - injection Hs as <- <-.
    assert (rest = []) as ->.
    { apply Permutation_nil_r. by rewrite <- sort_reverse_perm, Hrest. }
    by exists [], [].
  - destruct (tuple_lt (key c) (key d)) eqn:Hlt; injection Hs as <- <-.
    + destruct (IH _ _ eq_refl) as (pre & post & -> & Hpre & Hpost).
      exists (c :: pre), post. split; [done |]. split; [| done].
      by constructor.
    + exists [], rest. split; [done |]. split; [constructor |].
      pose proof (sort_reverse_sorted rest) as Hsorted.
      rewrite Hrest in Hsorted. apply StronglySorted_inv in Hsorted as [_ Hd].
      rewrite <- sort_reverse_perm, Hrest.
      constructor; [done |].
      eapply Forall_impl; [exact Hd |]. intros x Hx. by eapply ge_trans.
Qed.

(** On a store that [cache.set] can handle, a name it may write or a
    manual record, the head of the sorted list is what [search_osm_id]
    returns; on a name it may write the head is also what is stored. *)
Lemma pick_and_cache_returns now name all_qids cs cache best others :
  sort_reverse cs = best :: others ->
  (Cache.writable cache name = true
   \/ exists record,
        Cache.stored cache name = Some record
        /\ truthy (dict_get record "manual") = true) ->
  (pick_and_cache now name all_qids cs cache).1 = Ok (Some (result_of best)).
Proof.
  intros Hs Hstore. unfold pick_and_cache. rewrite Hs.
  destruct Hstore as [Hw | (record & Hst & Hman)].
  - match goal with
    | |- context [Cache.set ?t ?n ?a ?b ?c ?d ?e ?g cache] =>
        destruct (CacheFacts.set_writable t n a b c d e g cache Hw)
          as (cache' & -> & _)
    end.
    done.
  - match goal with
    | |- context [Cache.set ?t ?n ?a ?b ?c ?d ?e ?g cache] =>
        rewrite (CacheFacts.set_manual_noop t n a b c d e g cache record
                   Hst Hman)
    end.
    done.
Qed.

Lemma pick_and_cache_stores now name all_qids cs cache best others :
  sort_reverse cs = best :: others ->
  Cache.writable cache name = true ->
  Cache.stored (pick_and_cache now name all_qids cs cache).2 name
  = Some (Models.to_dict
            (Cache.new_entry now (Some (osm_id best)) (Some (osm_type best))
               (or_none (qid best)) (Some (method best))
               (Some (search_name best)) (runners_up others))).
Proof.
  intros Hs Hw. unfold pick_and_cache. rewrite Hs.
  match goal with
  | |- context [Cache.set ?t ?n ?a ?b ?c ?d ?e ?g cache] =>
      destruct (CacheFacts.set_writable t n a b c d e g cache Hw)
        as (cache' & -> & Hst & _)
  end.
  exact Hst.
Qed.

(** Unless [cache.set] raises, the head of the sorted list is what
    [search_osm_id] returns. *)
Lemma pick_and_cache_best now name all_qids cs cache best others :
  sort_reverse cs = best :: others ->
  (pick_and_cache now name all_qids cs cache).1 = Ok (Some (result_of best))
  \/ exists e, (pick_and_cache now name all_qids cs cache).1 = Raise e.
Proof.
  intros Hs. unfold pick_and_cache. rewrite Hs.
  destruct (Cache.set _ _ _ _ _ _ _ _ _) as [[[] | e] cache'];
    [by left | right; by exists e].
Qed.

(** C2: from a non-empty candidate list the pipeline selects the head of
    the list sorted by [(from_circuit_name, score)] descending.  That
    winner is one of the candidates; every candidate found before it ranks
    strictly below it and none found after it ranks above it (ties keep
    the discovery order); if any candidate comes from the circuit name the
    winner does, whatever the scores, and within the winner's tier no score
    is higher.  The winner is what the selection step returns on every
    store [cache.set] can handle (a name it may write, or a manual
    record), and on a name it may write the winner is what it stores,
    with the others listed in the comment; the step returns nothing else
    unless [cache.set] raises.  The sorted list is a stable descending
    rearrangement of the candidates.  With a circuit-name candidate of
    score 10 and a Grand Prix candidate of score 90, in either order, the
    first is selected. *)
Theorem best_candidate_selection (cs : list _Candidate) :
  cs ≠ [] ->
  (exists best others,
      sort_reverse cs = best :: others
      /\ (exists pre post,
            cs = pre ++ best :: post
            /\ Forall (fun c => tuple_lt (key c) (key best) = true) pre
            /\ Forall (fun c => tuple_lt (key best) (key c) = false) post)
      /\ (forall c, c ∈ cs -> from_circuit_name c = true ->
          from_circuit_name best = true)
      /\ (forall c, c ∈ cs -> from_circuit_name c = from_circuit_name best ->
          score c <= score best)
      /\ (forall now name all_qids cache,
            (pick_and_cache now name all_qids cs cache).1
            = Ok (Some (result_of best))
            \/ exists e,
                (pick_and_cache now name all_qids cs cache).1 = Raise e)
      /\ (forall now name all_qids cache,
            Cache.writable cache name = true
            \/ (exists record,
                  Cache.stored cache name = Some record
                  /\ truthy (dict_get record "manual") = true) ->
            (pick_and_cache now name all_qids cs cache).1
            = Ok (Some (result_of best)))
      /\ (forall now name all_qids cache,
            Cache.writable cache name = true ->
            Cache.stored (pick_and_cache now name all_qids cs cache).2 name
            = Some (Models.to_dict
                      (Cache.new_entry now (Some (osm_id best))
                         (Some (osm_type best)) (or_none (qid best))
                         (Some (method best)) (Some (search_name best))
                         (runners_up others)))))
  /\ sort_reverse cs ≡ₚ cs
  /\ StronglySorted
       (fun a b => tuple_lt (key a) (key b) = false) (sort_reverse cs)
  /\ (forall k, filter (fun c => key c = k) (sort_reverse cs)
               = filter (fun c => key c = k) cs)
  /\ (forall a b,
        from_circuit_name a = true -> score a = 10 ->
        from_circuit_name b = false -> score b = 90 ->
        sort_reverse [a; b] = [a; b] /\ sort_reverse [b; a] = [a; b]).
Proof.
  intros Hne. split; [| split; [| split; [| split]]].
  - destruct (sort_reverse cs) as [| best others] eqn:Hs.
    { apply (f_equal length) in Hs.
      rewrite (Permutation_length (sort_reverse_perm cs)) in Hs.
      by destruct cs. }
    exists best, others. split; [done |].
    destruct (sort_reverse_head cs best others Hs)
      as (pre & post & Hcs & Hpre & Hpost).
    assert (Hmax : forall c, c ∈ cs -> ge best c).
    { intros c Hc. rewrite Hcs in Hc.
      apply elem_of_app in Hc as [Hc | Hc].
      - apply lt_ge. by eapply (proj1 (Forall_forall _ _) Hpre).
      - apply elem_of_cons in Hc as [-> | Hc].
        + unfold ge. apply tuple_ge_spec. right. split; [done | lia].
        + by eapply (proj1 (Forall_forall _ _) Hpost). }
    split; [by exists pre, post |]. split; [| split].
    + intros c Hc Hprim. specialize (Hmax c Hc). unfold ge in Hmax.
      apply tuple_ge_spec in Hmax. unfold key in Hmax. simpl in Hmax.
      destruct Hmax as [[? _] | [? _]]; congruence.
    + intros c Hc Htier. specialize (Hmax c Hc). unfold ge in Hmax.
      apply tuple_ge_spec in Hmax. unfold key in Hmax. simpl in Hmax.
      destruct Hmax as [[? ?] | [_ ?]]; [congruence | done].
    + split; [| split].
      * intros now name all_qids cache. by eapply pick_and_cache_best.
      * intros now name all_qids cache. by eapply pick_and_cache_returns.
      * intros now name all_qids cache. by eapply pick_and_cache_stores.
  - apply sort_reverse_perm.
  - apply sort_reverse_sorted.
  - intros k. apply sort_reverse_stable.
  - intros a b Ha Hsa Hb Hsb. simpl. unfold tuple_lt, key.
    rewrite Ha, Hb, Hsa, Hsb. by simpl.
Qed.

Lemma best_candidate_selection_witness :
  exists best others,
    sort_reverse [grand_prix_candidate; primary_candidate] = best :: others
    /\ best = primary_candidate
    /\ (pick_and_cache "2026-01-01 10:00" "Example Circuit" []
          [grand_prix_candidate; primary_candidate] empty_store).1
       = Ok (Some (result_of best)).
Proof.
  destruct (best_candidate_selection [grand_prix_candidate; primary_candidate])
    as [(best & others & Hs & _ & _ & _ & _ & Hpick & _) _]; [done |].
  exists best, others. split; [exact Hs |].
  split; [by injection Hs as <- _ |].
  apply Hpick. left. reflexivity.
Defined.

End SelectionFacts.

Module PersistFacts.
Import Models Cache Services Samples.

Lemma known_record_fields now first_qid :
  let record := to_dict (new_entry now None None (Some first_qid)
                           None None None) in
  record !! "osm_id" = Some PNone
  /\ record !! "manual" = Some (PBool true)
  /\ record !! "wikidata_id" = Some (PStr first_qid)
  /\ record !! "comment" = Some (PStr (todo_note first_qid)).
Proof.
  unfold to_dict, new_entry, entry_comment, nonempty, todo_note. simpl.
  destruct first_qid as [| ch rest]; simpl; by simplify_map_eq.
Qed.

Lemma unknown_record_fields now :
  let record := to_dict (new_entry now None None None None None None) in
  record !! "osm_id" = Some PNone
  /\ record !! "manual" = Some (PBool true)
  /\ record !! "wikidata_id" = Some PNone
  /\ record !! "comment" = Some (PStr "TODO: verify OSM ID manually")
  /\ record !! "verified_at" = Some (PStr now).
Proof. unfold to_dict, new_entry. simpl. by simplify_map_eq. Qed.

(** C3, as the code has it: when no candidate was found and the name has
    no manual record yet, the pipeline stores and saves a record with no
    OSM id and [manual] set to true, for [set] marks every record without an
    OSM id as needing a manual check.  With an identifier collected, the
    record carries the first one and a note that links it; with none, the
    identifier is [None] and the note has no link (the flag and the
    timestamp are set all the same), so the two records differ. *)
Theorem known_but_absent_record (now name : string)
    (all_qids : ODict.odict string) (first_qid : string) (rest : list string)
    (cache : CircuitCache) :
  ODict.keys all_qids = first_qid :: rest ->
  writable cache name = true ->
  let known := to_dict (new_entry now None None (Some first_qid)
                          None None None) in
  let unknown := to_dict (new_entry now None None None None None None) in
  (exists cache',
      pick_and_cache now name all_qids [] cache = (Ok None, cache')
      /\ stored cache' name = Some known
      /\ saves cache' = saves cache ++ [_data cache'])
  /\ (known !! "osm_id" = Some PNone
      /\ known !! "manual" = Some (PBool true)
      /\ known !! "wikidata_id" = Some (PStr first_qid)
      /\ known !! "comment" = Some (PStr (todo_note first_qid)))
  /\ (exists cache0,
        pick_and_cache now name [] [] cache = (Ok None, cache0)
        /\ stored cache0 name = Some unknown
        /\ saves cache0 = saves cache ++ [_data cache0])
  /\ (unknown !! "osm_id" = Some PNone
      /\ unknown !! "manual" = Some (PBool true)
      /\ unknown !! "wikidata_id" = Some PNone
      /\ unknown !! "verified_at" = Some (PStr now))
  /\ known ≠ unknown.
Proof.
  intros Hkeys Hw known unknown.
  pose proof (known_record_fields now first_qid) as Hknown.
  pose proof (unknown_record_fields now) as (Hu1 & Hu2 & Hu3 & _ & Hu5).
  split; [| split; [exact Hknown | split; [| split]]].
  - unfold pick_and_cache. simpl. rewrite Hkeys.
    destruct (CacheFacts.set_writable now name None None (Some first_qid) None None None
                cache Hw) as (cache' & -> & Hst & Hsaves).
    by exists cache'.
  - unfold pick_and_cache. simpl.
    destruct (CacheFacts.set_writable now name None None None None None None cache Hw)
      as (cache0 & -> & Hst & Hsaves).
    by exists cache0.
  - done.
  - intros Heq. destruct Hknown as (_ & _ & Hk & _).
    fold known in Hk. fold unknown in Hu3. rewrite Heq in Hk. congruence.
Qed.

Lemma known_but_absent_record_witness :
  exists cache',
    pick_and_cache "2026-01-01 10:00" "Imola" [("Q1", "Imola"); ("Q7", "Imola")]
      [] empty_store = (Ok None, cache')
    /\ stored cache' "Imola"
       = Some (to_dict (new_entry "2026-01-01 10:00" None None (Some "Q1")
                          None None None)).
Proof.
  destruct (known_but_absent_record "2026-01-01 10:00" "Imola"
              [("Q1", "Imola"); ("Q7", "Imola")] "Q1" ["Q7"] empty_store
              eq_refl eq_refl) as [(cache' & Hrun & Hst & _) _].
  by exists cache'.
Defined.

(** A run of the pipeline in which the knowledge base knows the circuit
    and nothing is found on the map: the record it stores has the first
    identifier and no OSM id, and its [manual] flag is true, not false. *)
Lemma known_but_absent_record_is_manual :
  let stored_field (field : string) :=
    stored known_but_absent_run.2.1 "Imola" ≫= (.!! field) in
  known_but_absent_run.1 = Ok None
  /\ stored_field "osm_id" = Some PNone
  /\ stored_field "wikidata_id" = Some (PStr "Q1")
  /\ stored_field "manual" = Some (PBool true)
  /\ stored_field "manual" ≠ Some (PBool false).
Proof.
  assert (Hmanual : stored known_but_absent_run.2.1 "Imola" ≫= (.!! "manual")
                    = Some (PBool true)) by by vm_compute.
  simpl. split; [by vm_compute |]. split; [by vm_compute |].
  split; [by vm_compute |]. split; [exact Hmanual |].
  rewrite Hmanual. discriminate.
Qed.

End PersistFacts.

Module AtomicWriteFacts.
Import Files AtomicWrite.

Section RunFacts.

Variable dump : gmap string pyval -> list string.

(** X1: [atomic_write] returns [True] exactly when neither [mkdir], nor
    the creation of the temporary file, nor the dump, nor closing the file,
    nor the rename raises; then the target holds the complete text and the
    temporary file is gone.  In every other case the target is as it was.
    An exception leaves the function only from [mkdir], which stands
    outside the [try], or from the [unlink] in the [except] branch.  When
    it returns [False] the temporary file is gone, except after a failed
    dump: [tmp_path] is not yet set then, so the file stays behind with
    what had been written.  No other file is ever touched. *)
Theorem atomic_write_run_outcome (tmp : string) (data : gmap string pyval)
    (path : string) (f : faults) (fs : gmap string string) :
  tmp ≠ path ->
  fs !! tmp = None ->
  let r := atomic_write_run dump tmp data path f fs in
  (r.1 = Ok true <-> no_fault f = true)
  /\ (r.1 = Ok true ->
      r.2 !! path = Some (dumped dump data) /\ r.2 !! tmp = None)
  /\ (r.1 ≠ Ok true -> r.2 !! path = fs !! path)
  /\ (forall e,
        r.1 = Raise e <->
        e = OSError
        /\ (mkdir_fails f = true
            \/ (create_fails f = false /\ dump_fails f = None
                /\ (is_Some (close_fails f) \/ rename_fails f = true)
                /\ unlink_fails f = true)))
  /\ (r.1 = Ok false ->
      match dump_fails f with
      | Some written =>
          if create_fails f then r.2 = fs
          else r.2 !! tmp = Some (partial dump written data)
      | None => r.2 = fs
      end)
  /\ (forall other, other ≠ tmp -> other ≠ path -> r.2 !! other = fs !! other).
Proof.
  intros Hne Hfresh.
  assert (Hsome : forall written,
             apply_ops (take written (Write tmp <$> dump data)) (<[tmp := ""]> fs)
             = <[tmp := partial dump written data]> fs).
  { intros written. rewrite <- fmap_take.
    rewrite (FilesFacts.apply_writes tmp _ _ "") by apply lookup_insert_eq.
    by rewrite insert_insert_eq. }
  assert (Hall : apply_ops (Write tmp <$> dump data) (<[tmp := ""]> fs)
                 = <[tmp := dumped dump data]> fs).
  { rewrite (FilesFacts.apply_writes tmp _ _ "") by apply lookup_insert_eq.
    by rewrite insert_insert_eq. }
  assert (Hclean : forall content, delete tmp (<[tmp := content]> fs) = fs).
  { intros content. by rewrite delete_insert_eq, (delete_id fs tmp Hfresh). }
  unfold atomic_write_run, try_body, handler, no_fault.
  destruct f as [mk cr du cl rn un]. simpl.
  destruct mk; simpl.
  { split; [done |]. split; [done |]. split; [done |].
    split; [| by split].
    intros e. split; [intros [= <-]; split; [done | by left] |].
    by intros [-> _]. }
  destruct cr; simpl.
  { split; [done |]. split; [done |]. split; [done |].
    split; [| split; [by destruct du | done]].
    intros e. split; [done |]. by intros [_ [? | (? & _)]]. }
  destruct du as [written |]; simpl.
  { rewrite Hsome. split; [done |]. split; [done |].
    split; [intros _; by rewrite lookup_insert_ne |].
    split; [| split; [intros _; apply lookup_insert_eq |]].
    - intros e. split; [done |]. by intros [_ [? | (_ & ? & _)]].
    - intros other Ho _. by rewrite lookup_insert_ne. }
  destruct cl as [flushed |]; simpl.
  { rewrite Hsome, bool_decide_eq_true_2
      by (rewrite lookup_insert_eq; by eexists).
    destruct un; simpl.
    - split; [done |]. split; [done |].
      split; [intros _; by rewrite lookup_insert_ne |].
      split; [| split; [done |]].
      + intros e. split; [intros [= <-]; split; [done |] | by intros [-> _]].
        right. repeat split; try done. left. by eexists.
      + intros other Ho _. by rewrite lookup_insert_ne.
    - rewrite Hclean. split; [done |]. split; [done |].
      split; [done |]. split; [| by split].
      intros e. split; [done |]. by intros [_ [? | (_ & _ & _ & ?)]]. }
  rewrite Hall. destruct rn; simpl.
  { rewrite bool_decide_eq_true_2 by (rewrite lookup_insert_eq; by eexists).
    destruct un; simpl.
    - split; [done |]. split; [done |].
      split; [intros _; by rewrite lookup_insert_ne |].
      split; [| split; [done |]].
      + intros e. split; [intros [= <-]; split; [done |] | by intros [-> _]].
        right. repeat split; try done. by right.
      + intros other Ho _. by rewrite lookup_insert_ne.
    - rewrite Hclean. split; [done |]. split; [done |].
      split; [done |]. split; [| by split].
      intros e. split; [done |]. by intros [_ [? | (_ & _ & _ & ?)]]. }
  rewrite lookup_insert_eq, Hclean.
  split; [done |]. split.
  { intros _. split; [apply lookup_insert_eq | by rewrite lookup_insert_ne]. }
  split; [done |]. split; [| split; [done |]].
  - intros e. split; [done |].
    intros [_ [? | (_ & _ & [[? ?] | ?] & _)]]; done.
  - intros other _ Ho. by rewrite lookup_insert_ne.
Qed.

End RunFacts.

Lemma atomic_write_run_outcome_witness :
  let r := atomic_write_run Inputs.three_pieces "tmpab12.geojson" ∅
             "tracks/Monza.geojson" Inputs.dump_breaks Samples.disk in
  r.1 = Ok false
  /\ r.2 !! "tracks/Monza.geojson" = None
  /\ r.2 !! "tmpab12.geojson" = Some "{ features ".
Proof.
  destruct (atomic_write_run_outcome Inputs.three_pieces "tmpab12.geojson" ∅
              "tracks/Monza.geojson" Inputs.dump_breaks Samples.disk)
    as (_ & _ & Hfalse & _ & Hleft & _); [done | reflexivity |].
  split; [reflexivity |]. split; [by apply Hfalse |].
  exact (Hleft eq_refl).
Defined.

End AtomicWriteFacts.

Module CacheMoreFacts.
Import Models Cache CacheLoad.

(** [get] on a store whose [circuits] is a dictionary. *)
Lemma get_circuits self name circuits :
  _data self !! "circuits" = Some (PDict circuits) ->
  get name self
  = match circuits !! name with
    | None => Ok None
    | Some (PDict record) => Ok (Some (from_dict record))
    | Some _ => Raise AttributeError
    end.
Proof.
  intros Hc. unfold get, dict_get_or. rewrite Hc. simpl.
  destruct (circuits !! name) as [v |] eqn:Hn.
  - rewrite bool_decide_eq_true_2 by done. unfold dict_item. rewrite Hn.
    by destruct v.
  - by rewrite bool_decide_eq_false_2 by (by intros [? ?]).
Qed.

Lemma get_no_circuits self name :
  _data self !! "circuits" = None -> get name self = Ok None.
Proof. intros Hc. unfold get, dict_get_or. by rewrite Hc. Qed.

(** What [set] leaves in [_data] when it writes. *)
Lemma set_data now name oid oty wid met sn com self :
  writable self name = true ->
  exists circuits,
    (_data self !! "circuits" = Some (PDict circuits)
     \/ (_data self !! "circuits" = None /\ circuits = ∅))
    /\ set now name oid oty wid met sn com self
       = (Ok (),
          save {| _data :=
                    <["circuits" :=
                        PDict (<[name :=
                                   PDict (to_dict (new_entry now oid oty wid
                                                     met sn com))]> circuits)]>
                      (_data self);
                  saves := saves self |}).
Proof.
  unfold writable, set. intros Hw.
  destruct (_data self !! "circuits") as [circuits |] eqn:Hc.
  - unfold dict_get at 1. rewrite Hc. simpl.
    destruct circuits as [| | | | | | cs]; try done. exists cs.
    split; [by left |].
    destruct (cs !! name) as [[| | | | | | existing] |]; try done; simpl.
    apply negb_true_iff in Hw. by rewrite Hw.
  - exists ∅. split; [by right |].
    unfold dict_get at 1. simpl. rewrite lookup_insert_eq. simpl.
    rewrite lookup_empty. simpl. by rewrite insert_insert_eq.
Qed.

(** X3: A record that [set] is allowed to write can be read back at once: [get]
    returns the entry [set] built (an empty comment read as [None]), the
    store has been saved in that state, and what [get] returns for every
    other name is what it returned before. *)
Theorem set_then_get (now name : string) (oid : option Z)
    (oty wid met sn com : option string) (self : CircuitCache) :
  writable self name = true ->
  let r := set now name oid oty wid met sn com self in
  r.1 = Ok ()
  /\ get name r.2
     = Ok (Some (normalize (new_entry now oid oty wid met sn com)))
  /\ saves r.2 = saves self ++ [_data r.2]
  /\ (forall other, other ≠ name -> get other r.2 = get other self).
Proof.
  intros Hw. destruct (set_data now name oid oty wid met sn com self Hw)
    as (circuits & Hc & Hset).
  simpl. rewrite Hset. simpl. split; [done |]. split; [| split; [done |]].
  - erewrite get_circuits by (simpl; apply lookup_insert_eq).
    rewrite lookup_insert_eq. by rewrite ModelsFacts.from_dict_to_dict.
  - intros other Hne.
    erewrite get_circuits by (simpl; apply lookup_insert_eq).
    rewrite lookup_insert_ne by done.
    destruct Hc as [Hc | [Hc ->]].
    + by erewrite (get_circuits self) by done.
    + rewrite lookup_empty. by rewrite get_no_circuits.
Qed.

Lemma set_then_get_witness :
  let r := set "2026-01-01 10:00" "Monza" (Some 9428445) (Some "relation")
             (Some "Q171356") (Some "P402") (Some "Monza") None
             Inputs.loaded_store in
  r.1 = Ok ()
  /\ get "Spa" r.2 = get "Spa" Inputs.loaded_store
  /\ (exists e, get "Monza" r.2 = Ok (Some e) /\ osm_id e = PInt 9428445
                /\ manual e = PBool false).
Proof.
  destruct (set_then_get "2026-01-01 10:00" "Monza" (Some 9428445)
              (Some "relation") (Some "Q171356") (Some "P402") (Some "Monza")
              None Inputs.loaded_store eq_refl) as (Hok & Hget & _ & Hother).
  split; [exact Hok |]. split; [by apply Hother |].
  eexists. split; [exact Hget |]. by split.
Defined.

(** X4: A record written without an OSM id freezes itself: it is stored with
    [manual] set, so every later [set] on that name, also one that brings
    an OSM id, changes nothing and saves nothing.  A record written with an
    OSM id stays writable. *)
Theorem set_without_id_freezes (now name : string)
    (oty wid met sn com : option string) (self : CircuitCache) :
  writable self name = true ->
  (let frozen := (set now name None oty wid met sn com self).2 in
   is_manual frozen name = true
   /\ forall now' oid' oty' wid' met' sn' com',
       set now' name oid' oty' wid' met' sn' com' frozen = (Ok (), frozen))
  /\ (forall osm_id : Z,
        writable (set now name (Some osm_id) oty wid met sn com self).2 name
        = true).
Proof.
  intros Hw. split.
  - destruct (CacheFacts.set_writable now name None oty wid met sn com self Hw)
      as (self' & Hset & Hst & _).
    simpl. rewrite Hset. simpl.
    assert (Hman : truthy (dict_get (to_dict (new_entry now None oty wid met
                                                sn com)) "manual") = true).
    { unfold dict_get, to_dict, new_entry. simpl.
      destruct (truthy (entry_comment true wid com)); by simplify_map_eq. }
    split; [unfold is_manual; by rewrite Hst |].
    intros. by eapply CacheFacts.set_manual_noop.
  - intros osm_id.
    destruct (set_data now name (Some osm_id) oty wid met sn com self Hw)
      as (circuits & _ & ->).
    unfold writable, save. simpl. rewrite lookup_insert_eq, lookup_insert_eq.
    unfold dict_get, to_dict, new_entry. simpl.
    destruct (truthy (entry_comment false wid com)); by simplify_map_eq.
Qed.

Lemma set_without_id_freezes_witness :
  let frozen := (set "2026-01-01 10:00" "Imola" None None (Some "Q1") None
                   None None Inputs.loaded_store).2 in
  set "2026-02-02 12:00" "Imola" (Some 4250) (Some "way") None
    (Some "osm_name") (Some "Imola") None frozen = (Ok (), frozen).
Proof.
  destruct (set_without_id_freezes "2026-01-01 10:00" "Imola" None (Some "Q1")
              None None None Inputs.loaded_store eq_refl) as [[_ Hnoop] _].
  apply Hnoop.
Defined.

(** X5: [update_version] never creates a record: on a name [get] does not
    find it leaves the cache as it is and saves nothing.  On a stored
    record it saves the store once, and [get] then returns the record with
    the new version and every other field as before. *)
Theorem update_version_then_get (name : string) (version : Z)
    (self : CircuitCache) :
  (get name self = Ok None ->
   update_version name version self = (Ok (), self))
  /\ (forall record,
        stored self name = Some record ->
        let r := update_version name version self in
        r.1 = Ok ()
        /\ get name r.2
           = Ok (Some (from_dict (<["osm_version" := PInt version]> record)))
        /\ saves r.2 = saves self ++ [_data r.2]).
Proof.
  split.
  - unfold get, update_version, dict_get_or.
    destruct (_data self !! "circuits") as [circuits |]; [| done]. simpl.
    destruct (str_in name circuits) as [[|] |]; simpl; try done.
    destruct (item circuits name) as [[] |]; done.
  - intros record (circuits & Hc & Hn)%CacheFacts.stored_inv.
    unfold update_version. rewrite Hc. simpl.
    rewrite bool_decide_eq_true_2 by (by rewrite Hn).
    unfold dict_item. rewrite Hn. simpl. split; [done |]. split; [| done].
    erewrite get_circuits by (simpl; apply lookup_insert_eq).
    by rewrite lookup_insert_eq.
Qed.

Lemma update_version_then_get_witness :
  update_version "Monza" 3 Inputs.loaded_store = (Ok (), Inputs.loaded_store)
  /\ get "Spa" (update_version "Spa" 3 Inputs.loaded_store).2
     = Ok (Some (from_dict (<["osm_version" := PInt 3]> Inputs.spa_record))).
Proof.
  split.
  - apply (update_version_then_get "Monza" 3 Inputs.loaded_store).
    reflexivity.
  - apply (update_version_then_get "Spa" 3 Inputs.loaded_store).
    reflexivity.
Defined.

Lemma count_loop (values : list pyval) :
  Forall (fun v => exists record, v = PDict record) values ->
  forall n,
    for_each (fun n c => flag ← Py.get c "manual";
                         Ok (if truthy flag then n + 1 else n)) values n
    = Ok (n + Z.of_nat (length (List.filter counts_manual values))).
Proof.
  induction 1 as [| v rest [record ->] _ IH]; intros n; simpl.
  - f_equal. lia.
  - rewrite IH. unfold dict_get_or, dict_get.
    destruct (truthy (default PNone (record !! "manual"))); simpl;
      f_equal; lia.
Qed.

Lemma filter_length_perm (f : pyval -> bool) (l1 l2 : list pyval) :
  l1 ≡ₚ l2 -> length (List.filter f l1) = length (List.filter f l2).
Proof.
  induction 1 as [| x l1 l2 _ IH | x y l | l1 l2 l3 _ IH1 _ IH2]; simpl.
  - done.
  - destruct (f x); simpl; by rewrite IH.
  - by destruct (f x), (f y).
  - by rewrite IH1.
Qed.

Lemma stats_value self circuits :
  _data self !! "circuits" = Some (PDict circuits) ->
  (forall n v, circuits !! n = Some v -> exists record, v = PDict record) ->
  stats self
  = Ok (manual_count circuits,
        Z.of_nat (size circuits) - manual_count circuits).
Proof.
  intros Hc Hrecords. unfold stats, dict_get_or. rewrite Hc. simpl.
  rewrite count_loop; [done |].
  apply Forall_forall. intros v Hv.
  apply list_elem_of_fmap in Hv as ([n v'] & -> & Hin).
  apply elem_of_map_to_list in Hin. by eapply Hrecords.
Qed.

(** X6: On a store of records [stats] counts the manual records and the rest;
    writing a record under a new name with [set] moves exactly one of the
    two counts by one: the manual count when the record has no OSM id, the
    automatic count when it has one. *)
Theorem stats_after_set (now name : string) (oid : option Z)
    (oty wid met sn com : option string) (self : CircuitCache)
    (circuits : gmap string pyval) :
  _data self !! "circuits" = Some (PDict circuits) ->
  (forall n v, circuits !! n = Some v -> exists record, v = PDict record) ->
  circuits !! name = None ->
  exists manual auto,
    stats self = Ok (manual, auto)
    /\ 0 <= manual /\ 0 <= auto
    /\ manual + auto = Z.of_nat (size circuits)
    /\ stats (set now name oid oty wid met sn com self).2
       = Ok (match oid with
             | None => (manual + 1, auto)
             | Some _ => (manual, auto + 1)
             end).
Proof.
  intros Hc Hrecords Hfresh.
  exists (manual_count circuits),
         (Z.of_nat (size circuits) - manual_count circuits).
  split; [by apply stats_value |].
  assert (Hle : manual_count circuits <= Z.of_nat (size circuits)).
  { unfold manual_count. rewrite <- Nat2Z.inj_le.
    etrans; [apply List.filter_length_le |].
    by rewrite length_fmap, length_map_to_list. }
  split; [unfold manual_count; lia |]. split; [lia |]. split; [lia |].
  assert (Hw : writable self name = true).
  { unfold writable. by rewrite Hc, Hfresh. }
  destruct (set_data now name oid oty wid met sn com self Hw)
    as (cs & Hcs & ->).
  destruct Hcs as [Hcs | [Hcs _]]; [| congruence].
  rewrite Hc in Hcs. injection Hcs as <-.
  set (entry := new_entry now oid oty wid met sn com).
  erewrite stats_value; [| simpl; apply lookup_insert_eq |].
  2: { intros n v [[-> <-] | [_ Hv]]%lookup_insert_Some; [by eexists |].
       by eapply Hrecords. }
  rewrite map_size_insert_None by done.
  assert (Hcount : manual_count (<[name := PDict (to_dict entry)]> circuits)
                   = manual_count circuits
                     + (if truthy (dict_get (to_dict entry) "manual")
                        then 1 else 0)).
  { unfold manual_count.
    rewrite (filter_length_perm _ _ ((PDict (to_dict entry))
                                       :: (map_to_list circuits).*2)).
    - simpl. destruct (truthy (dict_get (to_dict entry) "manual")); simpl; lia.
    - by rewrite map_to_list_insert. }
  rewrite Hcount.
  assert (Hflag : truthy (dict_get (to_dict entry) "manual")
                  = bool_decide (oid = None)).
  { unfold dict_get, to_dict, entry, new_entry. simpl.
    destruct (truthy (entry_comment _ wid com)); by simplify_map_eq. }
  rewrite Hflag. destruct oid; simpl; do 2 f_equal; lia.
Qed.

Lemma stats_after_set_witness :
  stats Inputs.loaded_store = Ok (0, 1)
  /\ stats (set "2026-01-01 10:00" "Imola" None None (Some "Q1") None None
              None Inputs.loaded_store).2 = Ok (1, 1).
Proof.
  destruct (stats_after_set "2026-01-01 10:00" "Imola" None None (Some "Q1")
              None None None Inputs.loaded_store
              {[ "Spa" := PDict Inputs.spa_record ]} eq_refl)
    as (manual & auto & Hstats & _ & _ & _ & Hafter).
  - intros n v [_ <-]%lookup_singleton_Some. by eexists.
  - reflexivity.
  - assert (Hnow : stats Inputs.loaded_store = Ok (0, 1)) by by vm_compute.
    rewrite Hnow in Hstats. injection Hstats as <- <-. by split.
Defined.

(** X7: What [_load] falls back from: when the mapping file is missing,
    or reading it raises [OSError] or [json.JSONDecodeError], the
    constructor does not fail; the cache starts from the default store, in
    which [get] finds no name, and only when the file was missing is the
    store written at once.  Any other exception raised while the file is
    read, [UnicodeDecodeError] on a file that is not UTF-8 for instance, is
    not caught and leaves the constructor. *)
Theorem init_fallback (f : file_read) :
  (f = Missing \/ f = Unreadable \/ f = NotJson \/ f = Raised OSError ->
   exists cache,
     init f = Ok cache
     /\ _data cache = DEFAULT_CACHE
     /\ (forall name, get name cache = Ok None)
     /\ stats cache = Ok (0, 0)
     /\ saves cache = match f with Missing => [DEFAULT_CACHE] | _ => [] end)
  /\ (forall e, f = Raised e -> e ≠ OSError -> init f = Raise e).
Proof.
  assert (Hget : forall saved name,
             get name {| _data := DEFAULT_CACHE; saves := saved |} = Ok None).
  { intros saved name.
    erewrite get_circuits by (simpl; by unfold DEFAULT_CACHE; simplify_map_eq).
    by rewrite lookup_empty. }
  split.
  - intros [-> | [-> | [-> | ->]]]; simpl; eexists; (split; [done |]);
      (split; [done |]); (split; [by apply Hget |]); by split.
  - intros e -> He. simpl. by destruct e.
Qed.

Lemma init_fallback_witness :
  (exists cache,
      init NotJson = Ok cache
      /\ get "Monza" cache = Ok None /\ saves cache = [])
  /\ init (Raised ValueError) = Raise ValueError.
Proof.
  split.
  - destruct (init_fallback NotJson) as [Hfallback _].
    destruct Hfallback as (cache & Hinit & _ & Hget & _ & Hsaves);
      [by right; right; left |].
    exists cache. by repeat split.
  - destruct (init_fallback (Raised ValueError)) as [_ Hraised].
    by apply Hraised.
Defined.

(** X8: A mapping file that decodes to an object is taken over key by key, the
    defaults filling in what it lacks, and nothing is written: every record
    of its [circuits] object comes back from [get], and a file without
    [circuits] gives an empty store.  A file that decodes to anything but an
    object makes the constructor raise [TypeError]. *)
Theorem init_loaded (data : pyval) :
  (forall d, data = PDict d ->
     exists cache,
       init (Parsed data) = Ok cache
       /\ saves cache = []
       /\ (forall k v, d !! k = Some v -> _data cache !! k = Some v)
       /\ (forall k, d !! k = None -> _data cache !! k = DEFAULT_CACHE !! k)
       /\ (forall circuits name record,
             d !! "circuits" = Some (PDict circuits) ->
             circuits !! name = Some (PDict record) ->
             get name cache = Ok (Some (from_dict record)))
       /\ (d !! "circuits" = None -> forall name, get name cache = Ok None))
  /\ ((forall d, data ≠ PDict d) -> init (Parsed data) = Raise TypeError).
Proof.
  split.
  - intros d ->. simpl.
    assert (Hc : is_Some ((d ∪ DEFAULT_CACHE) !! "circuits")).
    { apply lookup_union_is_Some. right. by eexists. }
    destruct Hc as [c Hc]. rewrite Hc. eexists. split; [done |].
    split; [done |]. simpl. split; [| split; [| split]].
    + intros k v Hk. by apply lookup_union_Some_l.
    + intros k Hk. by apply lookup_union_r.
    + intros circuits name record Hcs Hn.
      erewrite get_circuits by (simpl; by apply lookup_union_Some_l).
      by rewrite Hn.
    + intros Hnone name.
      erewrite get_circuits
        by (simpl; rewrite lookup_union_r by done; reflexivity).
      by rewrite lookup_empty.
  - intros Hnot. destruct data; try done. by destruct (Hnot d).
Qed.

Lemma init_loaded_witness :
  exists cache,
    init (Parsed Inputs.file_document) = Ok cache
    /\ get "Spa" cache = Ok (Some (from_dict Inputs.spa_record)).
Proof.
  destruct (init_loaded Inputs.file_document) as [Hdict _].
  destruct (Hdict _ eq_refl) as (cache & Hinit & _ & _ & _ & Hget & _).
  exists cache. split; [exact Hinit |].
  apply (Hget {[ "Spa" := PDict Inputs.spa_record ]}); reflexivity.
Defined.

End CacheMoreFacts.

Module QueryMoreFacts.
Import Overpass OverpassMore.

Section Facts.

Context {W : Type}.
Variable post : string -> string -> Z -> W -> post_outcome * W.
Variable config : Config.

(** Servers that fail are passed over, one request each. *)
Lemma try_servers_skip q to pre :
  (forall server, server ∈ pre ->
     forall w, failed (post server.2 q to w).1 = true) ->
  forall rest t r o (c : client),
    exists t' r' o' c',
      try_servers post q to (pre ++ rest) t r o c
      = try_servers post q to rest t' r' o' c'
      /\ trace c' = trace c ++ posts pre.
Proof.
  induction pre as [| [name url] pre IH]; intros Hfail rest t r o c.
  - exists t, r, o, c. by rewrite app_nil_r.
  - assert (Hrest : forall server, server ∈ pre ->
               forall w, failed (post server.2 q to w).1 = true).
    { intros server Hin. apply Hfail. by right. }
    pose proof (Hfail (name, url) (list_elem_of_here _ _) (world c)) as Hhere.
    simpl in Hhere |- *.
    destruct (post url q to (world c)) as [outcome w]. simpl in Hhere.
    assert (Hgo : forall t1 r1 o1 cur,
      exists t' r' o' c',
        try_servers post q to (pre ++ rest) t1 r1 o1
          {| world := w; _current_server := cur;
             trace := trace c ++ [EvPost name] |}
        = try_servers post q to rest t' r' o' c'
        /\ trace c' = trace c ++ posts ((name, url) :: pre)).
    { intros t1 r1 o1 cur.
      destruct (IH Hrest rest t1 r1 o1
                  {| world := w; _current_server := cur;
                     trace := trace c ++ [EvPost name] |})
        as (t' & r' & o' & c' & Hrun & Htrace).
      exists t', r', o', c'. split; [done |]. rewrite Htrace. simpl.
      by rewrite <- app_assoc. }
    destruct outcome as [code json | |]; [| apply Hgo | apply Hgo].
    unfold failed in Hhere. revert Hhere. destruct (code =? 200).
    + destruct json as [data | e]; intros Hf;
        [simpl in Hf; discriminate Hf |].
      destruct e; try (simpl in Hf; discriminate Hf). apply Hgo.
    + intros _. destruct (code =? 429); [apply Hgo |].
      destruct (code =? 504); apply Hgo.
Qed.

(** X9: Success short-circuits: when the servers in front of one all fail and
    that one answers 200 with a JSON body, the query returns its data and
    name in the first round, having asked each of those servers once and
    none of the later ones, without any backoff wait; the server is
    recorded as the current one. *)
Theorem first_healthy_server_answers (q : string)
    (timeout_override : option Z) (pre rest : list (string * string))
    (name url : string) (data : pyval) (c : client) :
  overpass_servers config = pre ++ (name, url) :: rest ->
  0 < max_retries config ->
  (forall server to, server ∈ pre ->
     forall w, failed (post server.2 q to w).1 = true) ->
  (forall to w, (post url q to w).1 = Responded 200 (Ok data)) ->
  exists c',
    query post config q timeout_override c = (Ok (Some data, Some name), c')
    /\ trace c' = trace c ++ EvRateLimit :: posts pre ++ [EvPost name]
    /\ _current_server c' = Some name.
Proof.
  intros Hservers Hretries Hfail Hok. unfold query.
  set (to := match timeout_override with
             | Some t0 => if t0 =? 0 then timeout config else t0
             | None => timeout config
             end).
  unfold range. destruct (Z.to_nat (max_retries config)) as [| n] eqn:Hn;
    [lia |].
  rewrite <- cons_seq, fmap_cons. simpl. rewrite Hservers.
  destruct (try_servers_skip q to pre (fun s Hs => Hfail s to Hs)
              ((name, url) :: rest) 0 0 0 (_rate_limit c))
    as (t' & r' & o' & c1 & -> & Htrace).
  simpl. specialize (Hok to (world c1)).
  destruct (post url q to (world c1)) as [outcome w]. simpl in Hok.
  subst outcome. simpl. eexists. split; [done |]. simpl.
  split; [| done]. rewrite Htrace. simpl. by rewrite <- !app_assoc.
Qed.

Lemma try_servers_all_429 q to :
  (forall url w, exists json w',
      post url q to w = (Responded 429 json, w')) ->
  forall servers t r o (c : client), exists c',
    try_servers post q to servers t r o c
      = (AllFailed t (r + Z.of_nat (length servers)) o, c')
    /\ _current_server c' = _current_server c.
Proof.
  intros H429. induction servers as [| [name url] rest IH]; intros t r o c.
  - exists c. simpl. split; [| done]. do 2 f_equal. lia.
  - simpl. destruct (H429 url (world c)) as (json & w' & ->). simpl.
    edestruct IH as (c' & -> & Hcur). exists c'. split; [| exact Hcur].
    do 2 f_equal. lia.
Qed.

Lemma query_rounds_all_429 q to :
  overpass_servers config ≠ [] ->
  (forall url w, exists json w',
      post url q to w = (Responded 429 json, w')) ->
  forall rounds attempt (c : client), exists c',
    query_rounds post config q to (Z.of_nat <$> seq attempt rounds) c
    = (Ok (None, None), c')
    /\ trace c'
       = trace c ++ rate_limited_trace config (Z.of_nat attempt) rounds
    /\ _current_server c' = _current_server c.
Proof.
  intros Hservers H429.
  induction rounds as [| rounds IH]; intros attempt c.
  - exists c. simpl. by rewrite app_nil_r.
  - rewrite <- cons_seq, fmap_cons. simpl.
    destruct (try_servers_all_429 q to H429 (overpass_servers config)
                0 0 0 c) as (c1 & Hrun & Hcur1).
    rewrite Hrun.
    apply OverpassFacts.try_servers_all_failed_trace in Hrun as Htrace1.
    assert (Z.of_nat (length (overpass_servers config)) ≠ 0) as Hlen.
    { destruct (overpass_servers config); [done | simpl; lia]. }
    rewrite (proj2 (Z.eqb_neq _ 0)) by lia.
    replace (Z.of_nat attempt + 1) with (Z.of_nat (S attempt)) by lia.
    destruct (Z.of_nat attempt <? max_retries config - 1).
    + destruct (IH (S attempt)
                  (emit (EvSleep (retry_delay config * (Z.of_nat attempt + 2)))
                     c1)) as (c' & -> & Htrace & Hcur).
      exists c'. split; [done |]. split; [| by rewrite Hcur].
      rewrite Htrace. simpl. rewrite Htrace1. by rewrite <- !app_assoc.
    + destruct (IH (S attempt) c1) as (c' & -> & Htrace & Hcur).
      exists c'. split; [done |]. split; [| by rewrite Hcur].
      rewrite Htrace, Htrace1. simpl. by rewrite <- !app_assoc.
Qed.

(** X10: When every server answers 429 the query runs all its rounds and then
    fails: one request per server in each of the [max_retries] rounds, and
    between two rounds a wait that grows with the attempt,
    [retry_delay * 2], then [retry_delay * 3] and so on; after the last
    round it does not wait.  The current server is left as it was. *)
Theorem query_all_rate_limited (q : string) (timeout_override : option Z)
    (c : client) :
  overpass_servers config ≠ [] ->
  (forall to url w, exists json w',
      post url q to w = (Responded 429 json, w')) ->
  exists c',
    query post config q timeout_override c = (Ok (None, None), c')
    /\ trace c'
       = trace c ++ EvRateLimit
           :: rate_limited_trace config 0 (Z.to_nat (max_retries config))
    /\ _current_server c' = _current_server c.
Proof.
  intros Hservers H429. unfold query, range.
  set (to := match timeout_override with
             | Some t0 => if t0 =? 0 then timeout config else t0
             | None => timeout config
             end).
  destruct (query_rounds_all_429 q to Hservers (H429 to)
              (Z.to_nat (max_retries config)) 0%nat (_rate_limit c))
    as (c' & Hrun & Htrace & Hcur).
  exists c'. split; [exact Hrun |]. split; [| exact Hcur].
  rewrite Htrace. simpl. by rewrite <- app_assoc.
Qed.

(** One pass asks the servers in order, up to the one that ends it. *)
Lemma try_servers_posts q to servers :
  forall t r o (c : client),
    exists k,
      (k <= length servers)%nat
      /\ trace (try_servers post q to servers t r o c).2
         = trace c ++ posts (take k servers)
      /\ forall data name,
          (try_servers post q to servers t r o c).1 = Served data name ->
          last (trace (try_servers post q to servers t r o c).2)
          = Some (EvPost name)
          /\ _current_server (try_servers post q to servers t r o c).2
             = Some name.
Proof.
  induction servers as [| [name url] rest IH]; intros t r o c.
  - exists 0%nat. simpl. split; [done |]. split; [by rewrite app_nil_r | done].
  - simpl. destruct (post url q to (world c)) as [outcome w].
    assert (Hgo : forall t1 r1 o1 cur,
      let c1 := {| world := w; _current_server := cur;
                   trace := trace c ++ [EvPost name] |} in
      exists k,
        (k <= S (length rest))%nat
        /\ trace (try_servers post q to rest t1 r1 o1 c1).2
           = trace c ++ posts (take k ((name, url) :: rest))
        /\ forall data name',
            (try_servers post q to rest t1 r1 o1 c1).1 = Served data name' ->
            last (trace (try_servers post q to rest t1 r1 o1 c1).2)
            = Some (EvPost name')
            /\ _current_server (try_servers post q to rest t1 r1 o1 c1).2
               = Some name').
    { intros t1 r1 o1 cur c1.
      destruct (IH t1 r1 o1 c1) as (k & Hk & Htrace & Hserved).
      exists (S k). split; [lia |]. split; [| done].
      rewrite Htrace. simpl. by rewrite <- app_assoc. }
    assert (Hstop : forall (result : round_result) cur,
      (forall data name', result = Served data name' ->
                          name' = name /\ cur = Some name) ->
      let c1 := {| world := w; _current_server := cur;
                   trace := trace c ++ [EvPost name] |} in
      exists k,
        (k <= S (length rest))%nat
        /\ trace (result, c1).2
           = trace c ++ posts (take k ((name, url) :: rest))
        /\ forall data name',
            (result, c1).1 = Served data name' ->
            last (trace (result, c1).2) = Some (EvPost name')
            /\ _current_server (result, c1).2 = Some name').
    { intros result cur Hres c1. exists 1%nat. split; [lia |].
      split; [done |]. simpl. intros data name' Hs.
      destruct (Hres _ _ Hs) as [-> ->]. by rewrite last_snoc. }
    destruct outcome as [code json | |]; [| apply Hgo | apply Hgo].
    destruct (code =? 200).
    + destruct json as [data | e].
      * apply Hstop. by intros ? ? [= _ <-].
      * destruct e; try (by apply Hstop); apply Hgo.
    + destruct (code =? 429); [apply Hgo |].
      destruct (code =? 504); apply Hgo.
Qed.

Lemma query_rounds_posts q to attempts :
  forall c : client,
    exists evs,
      trace (query_rounds post config q to attempts c).2 = trace c ++ evs
      /\ (length (List.filter is_post evs)
          <= length attempts * length (overpass_servers config))%nat.
Proof.
  assert (Hposts : forall l, length (List.filter is_post (posts l)) = length l).
  { induction l as [| x l IHl]; simpl; [done | by rewrite IHl]. }
  induction attempts as [| attempt rest IH]; intros c.
  - exists []. simpl. by rewrite app_nil_r.
  - simpl.
    destruct (try_servers_posts q to (overpass_servers config) 0 0 0 c)
      as (k & Hk & Htrace & _).
    destruct (try_servers post q to (overpass_servers config) 0 0 0 c)
      as [result c1]. simpl in Htrace.
    assert (Hround : (length (List.filter is_post
                                (posts (take k (overpass_servers config))))
                      <= length (overpass_servers config))%nat).
    { rewrite Hposts, length_take. lia. }
    assert (Hdone : forall r : res (option pyval * option string),
      exists evs,
        trace (r, c1).2 = trace c ++ evs
        /\ (length (List.filter is_post evs)
            <= S (length rest) * length (overpass_servers config))%nat).
    { intros r. eexists. split; [exact Htrace |]. lia. }
    destruct result as [data name | e | t r o]; [apply Hdone | apply Hdone |].
    destruct (r =? 0); [apply Hdone |].
    destruct (attempt <? max_retries config - 1).
    + destruct (IH (emit (EvSleep (retry_delay config * (attempt + 2))) c1))
        as (evs & -> & Hlen).
      eexists. simpl. rewrite Htrace, <- !app_assoc. split; [done |].
      rewrite !List.filter_app, !length_app. simpl. lia.
    + destruct (IH c1) as (evs & -> & Hlen).
      eexists. rewrite Htrace, <- !app_assoc. split; [done |].
      rewrite !List.filter_app, !length_app. lia.
Qed.

(** X11: A query never sends more than [max_retries] requests to each server:
    after the rate-limit wait its trace holds at most
    [max_retries * len(overpass_servers)] requests. *)
Theorem query_requests_bounded (q : string) (timeout_override : option Z)
    (c : client) :
  exists evs,
    trace (query post config q timeout_override c).2
    = trace c ++ EvRateLimit :: evs
    /\ (length (List.filter is_post evs)
        <= Z.to_nat (max_retries config)
           * length (overpass_servers config))%nat.
Proof.
  unfold query.
  set (to := match timeout_override with
             | Some t0 => if t0 =? 0 then timeout config else t0
             | None => timeout config
             end).
  destruct (query_rounds_posts q to (range (max_retries config))
              (_rate_limit c)) as (evs & Htrace & Hlen).
  exists evs. split.
  - rewrite Htrace. simpl. by rewrite <- app_assoc.
  - unfold range in Hlen. by rewrite length_fmap, length_seq in Hlen.
Qed.

End Facts.

Lemma query_all_rate_limited_witness :
  exists c',
    query Inputs.all_429 Inputs.three_servers "q" None Inputs.fresh_client
    = (Ok (None, None), c')
    /\ trace c'
       = [EvRateLimit; EvPost "a"; EvPost "b"; EvPost "c"; EvSleep 10;
          EvPost "a"; EvPost "b"; EvPost "c"; EvSleep 15;
          EvPost "a"; EvPost "b"; EvPost "c"].
Proof.
  destruct (query_all_rate_limited Inputs.all_429 Inputs.three_servers "q"
              None Inputs.fresh_client) as (c' & Hrun & Htrace & _).
  - done.
  - intros to url w. by eexists _, _.
  - exists c'. split; [exact Hrun |]. rewrite Htrace. reflexivity.
Defined.

Lemma first_healthy_server_answers_witness :
  exists c',
    query Inputs.third_answers Inputs.three_servers "q" None
      Inputs.fresh_client
    = (Ok (Some (PDict {[ "elements" := PList [] ]}), Some "c"), c')
    /\ trace c' = [EvRateLimit; EvPost "a"; EvPost "b"; EvPost "c"]
    /\ _current_server c' = Some "c".
Proof.
  apply (first_healthy_server_answers Inputs.third_answers
           Inputs.three_servers "q" None
           [("a", "https://a/"); ("b", "https://b/")] [] "c" "https://c/").
  - reflexivity.
  - reflexivity.
  - intros server to Hin w.
    apply elem_of_cons in Hin as [-> | Hin]; [reflexivity |].
    apply elem_of_cons in Hin as [-> | Hin]; [reflexivity |].
    by apply elem_of_nil in Hin.
  - reflexivity.
Defined.

End QueryMoreFacts.

Module ScoredFacts.
Import Scored.

Section Sorting.

Context {A : Type}.
Implicit Types (x y : Z * A) (l : list (Z * A)).

Lemma scored_insert_perm x l : insert x l ≡ₚ x :: l.
Proof.
  induction l as [| y rest IH]; simpl; [done |].
  destruct (x.1 <? y.1); [| done]. rewrite IH. apply Permutation_swap.
Qed.

Lemma scored_sort_reverse_perm l : sort_reverse l ≡ₚ l.
Proof.
  induction l as [| x rest IH]; simpl; [done |].
  by rewrite scored_insert_perm, IH.
Qed.

Lemma scored_insert_sorted x l :
  StronglySorted (fun a b => b.1 <= a.1) l ->
  StronglySorted (fun a b => b.1 <= a.1) (insert x l).
Proof.
  induction 1 as [| y rest Hrest IH Hy]; simpl.
  - repeat constructor.
  - destruct (Z.ltb_spec x.1 y.1) as [Hlt | Hge].
    + constructor; [done |]. rewrite scored_insert_perm.
      constructor; [lia | done].
    + constructor; [by constructor |]. constructor; [done |].
      eapply Forall_impl; [exact Hy |]. intros z Hz. simpl in Hz. lia.
Qed.

Lemma scored_sort_reverse_sorted l :
  StronglySorted (fun a b => b.1 <= a.1) (sort_reverse l).
Proof.
  induction l as [| x rest IH]; simpl; [constructor | by apply scored_insert_sorted].
Qed.

Lemma scored_insert_stable (k : Z) x l :
  filter (fun y => y.1 = k) (insert x l) = filter (fun y => y.1 = k) (x :: l).
Proof.
  induction l as [| y rest IH]; simpl; [done |].
  destruct (Z.ltb_spec x.1 y.1) as [Hlt | Hge]; [| done].
  rewrite filter_cons, IH, !filter_cons.
  repeat case_decide; try done; lia.
Qed.

Lemma scored_sort_reverse_stable (k : Z) l :
  filter (fun y => y.1 = k) (sort_reverse l) = filter (fun y => y.1 = k) l.
Proof.
  induction l as [| x rest IH]; simpl; [done |].
  by rewrite scored_insert_stable, !filter_cons, IH.
Qed.

(** The head after sorting: the first item of maximal score. *)
Lemma scored_sort_reverse_head l best others :
  sort_reverse l = best :: others ->
  exists pre post,
    l = pre ++ best :: post
    /\ Forall (fun y => y.1 < best.1) pre
    /\ Forall (fun y => y.1 <= best.1) post.
Proof.
  revert best others. induction l as [| x rest IH]; intros best others Hs;
    [done |].
  simpl in Hs.
  destruct (sort_reverse rest) as [| y sorted] eqn:Hrest; simpl in Hs.
  - injection Hs as <- <-.
    assert (rest = []) as ->.
    { apply Permutation_nil_r. by rewrite <- scored_sort_reverse_perm, Hrest. }
    by exists [], [].
  - destruct (Z.ltb_spec x.1 y.1) as [Hlt | Hge]; injection Hs as <- <-.
    + destruct (IH _ _ eq_refl) as (pre & post & -> & Hpre & Hpost).
      exists (x :: pre), post. split; [done |]. split; [| done].
      by constructor.
    + exists [], rest. split; [done |]. split; [constructor |].
      pose proof (scored_sort_reverse_sorted rest) as Hsorted.
      rewrite Hrest in Hsorted. apply StronglySorted_inv in Hsorted as [_ Hy].
      rewrite <- scored_sort_reverse_perm, Hrest.
      constructor; [done |].
      eapply Forall_impl; [exact Hy |]. intros z Hz. simpl in Hz. lia.
Qed.

(** There is one first item of maximal score. *)
Lemma scored_first_max_unique pre x post pre' x' post' :
  pre ++ x :: post = pre' ++ x' :: post' ->
  Forall (fun y => y.1 < x.1) pre -> Forall (fun y => y.1 <= x.1) post ->
  Forall (fun y => y.1 < x'.1) pre' -> Forall (fun y => y.1 <= x'.1) post' ->
  x = x'.
Proof.
  revert pre'. induction pre as [| p pre IH]; intros pre' Heq Hpre Hpost Hpre' Hpost'.
  - destruct pre' as [| p' pre']; simpl in Heq; [congruence |].
    injection Heq as <- ->. apply Forall_cons in Hpre' as [Hlt _].
    assert (Hin : x' ∈ pre' ++ x' :: post') by set_solver.
    pose proof (proj1 (Forall_forall _ _) Hpost x' Hin) as Hle.
    simpl in Hle. lia.
  - destruct pre' as [| p' pre']; simpl in Heq.
    + injection Heq as -> <-. apply Forall_cons in Hpre as [Hlt _].
      assert (Hin : x ∈ pre ++ x :: post) by set_solver.
      pose proof (proj1 (Forall_forall _ _) Hpost' x Hin) as Hle.
      simpl in Hle. lia.
    + injection Heq as <- Heq. apply Forall_cons in Hpre as [_ Hpre].
      apply Forall_cons in Hpre' as [_ Hpre']. by eapply IH.
Qed.

(** Sorting puts the first item of maximal score in front. *)
Lemma scored_sort_reverse_first_max pre x post :
  Forall (fun y => y.1 < x.1) pre -> Forall (fun y => y.1 <= x.1) post ->
  exists others, sort_reverse (pre ++ x :: post) = x :: others.
Proof.
  intros Hpre Hpost.
  destruct (sort_reverse (pre ++ x :: post)) as [| best others] eqn:Hs.
  - apply (f_equal length) in Hs.
    rewrite (Permutation_length (scored_sort_reverse_perm _)), length_app in Hs.
    simpl in Hs. lia.
  - destruct (scored_sort_reverse_head _ _ _ Hs) as (pre' & post' & Heq & Hpre' & Hpost').
    rewrite (scored_first_max_unique _ _ _ _ _ _ Heq Hpre Hpost Hpre' Hpost').
    by exists others.
Qed.

End Sorting.

End ScoredFacts.

Module FindIdsFacts.
Import WikidataSearch.

Lemma score_result_ok r :
  is_result r = true -> score_result r = Ok (result_bonus r, result_id r).
Proof.
  destruct r as [| | | | | | d]; try done. unfold is_result, score_result.
  intros [[qid Hid]%bool_decide_eq_true_1 Hdesc]%andb_prop. simpl.
  unfold dict_get_or, dict_item, dict_get. rewrite Hid.
  destruct (d !! "description") as [[] |]; try done.
Qed.

Lemma score_results_ok results :
  forallb is_result results = true ->
  comprehension score_result results
  = Ok ((fun r => (result_bonus r, result_id r)) <$> results).
Proof.
  induction results as [| r rest IH]; simpl; [done |].
  intros [Hr Hrest]%andb_prop. rewrite (score_result_ok r Hr). simpl.
  by rewrite (IH Hrest).
Qed.

(** A result that cannot be scored ends the loop with its exception,
    whatever follows it. *)
Lemma score_results_stop pre r post e :
  forallb is_result pre = true ->
  score_result r = Raise e ->
  comprehension score_result (pre ++ r :: post) = Raise e.
Proof.
  intros Hpre Hr. induction pre as [| p pre IH]; simpl.
  - by rewrite Hr.
  - simpl in Hpre. apply andb_prop in Hpre as [Hp Hpre].
    rewrite (score_result_ok p Hp). simpl. by rewrite (IH Hpre).
Qed.

Section Facts.

Context {W : Type}.
Variable search_get : string -> Z -> W -> res pyval * W.

(** X12: [find_ids] re-ranks and does not filter: on well-formed search results
    it returns the identifier of every result, those with a higher
    description bonus first, and among results of equal bonus in the order
    the backend gave them. *)
Theorem find_ids_reranks (name : string) (limit : Z) (w w' : W)
    (d : gmap string pyval) (results : list pyval) :
  search_get name limit w = (Ok (PDict d), w') ->
  d !! "search" = Some (PList results) ->
  forallb is_result results = true ->
  let scored := (fun r => (result_bonus r, result_id r)) <$> results in
  exists ranked,
    find_ids search_get name limit w = (Ok ranked.*2, w')
    /\ ranked ≡ₚ scored
    /\ ranked.*2 ≡ₚ result_id <$> results
    /\ StronglySorted (fun a b => b.1 <= a.1) ranked
    /\ forall score,
        filter (fun x => x.1 = score) ranked
        = filter (fun x => x.1 = score) scored.
Proof.
  intros Hget Hsearch Hresults scored.
  exists (Scored.sort_reverse scored). split; [| split; [| split; [| split]]].
  - unfold find_ids. rewrite Hget. simpl. unfold rank. simpl.
    unfold dict_get_or. rewrite Hsearch. simpl.
    destruct results as [| r rest]; [done |].
    cbn [truthy iter mbind res_bind].
    by rewrite (score_results_ok _ Hresults).
  - apply ScoredFacts.scored_sort_reverse_perm.
  - rewrite ScoredFacts.scored_sort_reverse_perm. unfold scored.
    by rewrite <- list_fmap_compose.
  - apply ScoredFacts.scored_sort_reverse_sorted.
  - intros score. apply ScoredFacts.scored_sort_reverse_stable.
Qed.

(** X13: What empties or breaks the answer of [find_ids]: a failed request or
    an undecodable body gives the empty list, and so does one result
    without an [id], although all other results are fine; a result whose
    description is not a string (JSON [null], say) makes the call raise
    [AttributeError]. *)
Theorem find_ids_failures (name : string) (limit : Z) (w w' : W) :
  (forall e, search_get name limit w = (Raise e, w') ->
     e = RequestException \/ e = ValueError ->
     find_ids search_get name limit w = (Ok [], w'))
  /\ (forall d pre r post,
        search_get name limit w = (Ok (PDict d), w') ->
        d !! "search" = Some (PList (pre ++ PDict r :: post)) ->
        forallb is_result pre = true ->
        (r !! "id" = None ->
         (exists s, r !! "description" = Some (PStr s))
         \/ r !! "description" = None ->
         find_ids search_get name limit w = (Ok [], w'))
        /\ (forall v, r !! "description" = Some v ->
              (forall s, v ≠ PStr s) ->
              find_ids search_get name limit w = (Raise AttributeError, w'))).
Proof.
  split.
  - intros e Hget He. unfold find_ids. rewrite Hget.
    by destruct He as [-> | ->].
  - intros d pre r post Hget Hsearch Hpre.
    assert (Hrun : forall e,
      score_result (PDict r) = Raise e ->
      (data ← Ok (PDict d); rank data) = Raise e).
    { intros e Hr. cbn [mbind res_bind]. unfold rank, get_or, dict_get_or.
      rewrite Hsearch. cbn [default from_option id mbind res_bind].
      assert (Htruthy : truthy (PList (pre ++ PDict r :: post)) = true)
        by by destruct pre.
      rewrite Htruthy. cbn [iter mbind res_bind].
      by rewrite (score_results_stop pre (PDict r) post e Hpre Hr). }
    split.
    + intros Hid Hdesc. unfold find_ids. rewrite Hget.
      rewrite (Hrun KeyError); [done |].
      unfold score_result. simpl. unfold dict_get_or, dict_item.
      rewrite Hid. by destruct Hdesc as [[s ->] | ->].
    + intros v Hdesc Hnot. unfold find_ids. rewrite Hget.
      rewrite (Hrun AttributeError); [done |].
      unfold score_result. simpl. unfold dict_get_or. rewrite Hdesc. simpl.
      destruct v; try done. by destruct (Hnot s).
Qed.

End Facts.

Lemma find_ids_reranks_witness :
  find_ids (Inputs.search_answers Inputs.monza_results) "Monza" 5 ()
  = (Ok [PStr "Q3"; PStr "Q2"; PStr "Q1"], ()).
Proof.
  destruct (find_ids_reranks (Inputs.search_answers Inputs.monza_results)
              "Monza" 5 () () _ Inputs.monza_results eq_refl eq_refl eq_refl)
    as (ranked & Hrun & _).
  rewrite Hrun. f_equal.
  assert (Heval : find_ids (Inputs.search_answers Inputs.monza_results)
                    "Monza" 5 ()
                  = (Ok [PStr "Q3"; PStr "Q2"; PStr "Q1"], ()))
    by by vm_compute.
  rewrite Hrun in Heval. by injection Heval as ->.
Defined.

Lemma find_ids_failures_witness :
  find_ids (Inputs.search_answers
              [ Inputs.search_result "Q1" "race track";
                PDict {[ "description" := PStr "circuit" ]};
                Inputs.search_result "Q3" "racing circuit" ]) "Monza" 5 ()
  = (Ok [], ()).
Proof.
  destruct (find_ids_failures
              (Inputs.search_answers
                 [ Inputs.search_result "Q1" "race track";
                   PDict {[ "description" := PStr "circuit" ]};
                   Inputs.search_result "Q3" "racing circuit" ])
              "Monza" 5 () ()) as [_ Hdrop].
  destruct (Hdrop _ [Inputs.search_result "Q1" "race track"]
              {[ "description" := PStr "circuit" ]}
              [Inputs.search_result "Q3" "racing circuit"]
              eq_refl eq_refl eq_refl) as [Hnoid _].
  apply Hnoid; [reflexivity |]. left. by exists "circuit".
Defined.

End FindIdsFacts.

Module GeometryFacts.
Import Overpass OverpassSearch.

Section Facts.

Context {W : Type}.
Variable post : string -> string -> Z -> W -> post_outcome * W.
Variable config : Config.

(** X16: [get_geometry] caches what it finds under [(osm_id, osm_type)]: after
    a call that returned an element, the same call returns that element
    with the server name ["cache"] and leaves the client as it is, so no
    request is sent.  A lookup that found nothing is not cached, the
    entries of other keys are never touched, and a cache hit does not reach
    the network. *)
Theorem get_geometry_caches (osm_id : Z) (osm_type : string)
    (use_cache : bool) (self : overpass (W:=W)) :
  let r := get_geometry post config osm_id osm_type use_cache self in
  (forall element server,
      r.1 = Ok (Some element, server) ->
      _geometry_cache r.2 !! (osm_id, osm_type) = Some element
      /\ get_geometry post config osm_id osm_type true r.2
         = (Ok (Some element, Some "cache"), r.2))
  /\ (forall server,
        r.1 = Ok (None, server) -> _geometry_cache r.2 = _geometry_cache self)
  /\ (forall key,
        key ≠ (osm_id, osm_type) ->
        _geometry_cache r.2 !! key = _geometry_cache self !! key)
  /\ (use_cache = true ->
      is_Some (_geometry_cache self !! (osm_id, osm_type)) ->
      r.2 = self).
Proof.
  unfold get_geometry.
  destruct (if use_cache then _geometry_cache self !! (osm_id, osm_type)
            else None) as [cached |] eqn:Hhit.
  - assert (Hc : _geometry_cache self !! (osm_id, osm_type) = Some cached)
      by by destruct use_cache.
    simpl. split; [| by repeat split].
    intros element server [= <- _]. split; [done |]. by rewrite Hc.
  - destruct (query post config (geometry_query osm_id osm_type) (Some 90)
                (net self)) as [[[data server] | e] net'].
    2: { simpl. split; [done |]. split; [done |]. split; [done |].
         intros -> [x Hx]. simpl in Hhit. congruence. }
    destruct (elements_of data ≫= _) as [[element |] | e]; simpl.
    + split; [| split; [done | split]].
      * intros el srv [= <- _]. rewrite lookup_insert_eq. done.
      * intros key Hkey. by rewrite lookup_insert_ne.
      * intros -> [x Hx]. simpl in Hhit. congruence.
    + split; [done |]. split; [done |]. split; [done |].
      intros -> [x Hx]. simpl in Hhit. congruence.
    + split; [done |]. split; [done |]. split; [done |].
      intros -> [x Hx]. simpl in Hhit. congruence.
Qed.

End Facts.

Lemma get_geometry_caches_witness :
  let r := get_geometry Inputs.relation_answer Inputs.one_server 555
             "relation" true Inputs.fresh_overpass in
  r.1 = Ok (Some (PDict Samples.track_relation), Some "a")
  /\ trace (net r.2) = [EvRateLimit; EvPost "a"]
  /\ get_geometry Inputs.relation_answer Inputs.one_server 555 "relation"
       true r.2
     = (Ok (Some (PDict Samples.track_relation), Some "cache"), r.2).
Proof.
  assert (Hrun : (get_geometry Inputs.relation_answer Inputs.one_server 555
                    "relation" true Inputs.fresh_overpass).1
                 = Ok (Some (PDict Samples.track_relation), Some "a"))
    by reflexivity.
  split; [exact Hrun |]. split; [reflexivity |].
  destruct (get_geometry_caches Inputs.relation_answer Inputs.one_server 555
              "relation" true Inputs.fresh_overpass) as [Hcached _].
  exact (proj2 (Hcached _ _ Hrun)).
Defined.

End GeometryFacts.

Module ComplexFacts.
Import Overpass OverpassSearch.

Section Facts.

Context {W : Type}.
Variable post : string -> string -> Z -> W -> post_outcome * W.
Variable config : Config.
Variable format : pyval -> string.

(** X17: Inside a complex only a positively scored element is accepted: when
    the query returns elements that can all be scored,
    [_find_circuit_in_complex] returns the id and type of the first element
    of highest score if that score is above zero, and [(None, None, None)]
    if no element scores above zero. *)
Theorem find_circuit_in_complex_best (parent_id parent_type : pyval)
    (c c' : client (W:=W)) (d : gmap string pyval) (server : option string)
    (elements : pyval) (scored : list (Z * pyval)) :
  query post config (complex_query format parent_id parent_type) (Some 90) c
    = (Ok (Some (PDict d), server), c') ->
  d !! "elements" = Some elements ->
  truthy elements = true ->
  scored_elements elements = Ok scored ->
  (Forall (fun x => x.1 <= 0) scored ->
   _find_circuit_in_complex post config format parent_id parent_type c
   = (Ok (PNone, PNone, None), c'))
  /\ (forall pre best_score best after,
        scored = pre ++ (best_score, best) :: after ->
        0 < best_score ->
        Forall (fun x => x.1 < best_score) pre ->
        Forall (fun x => x.1 <= best_score) after ->
        _find_circuit_in_complex post config format parent_id parent_type c
        = (id_and_type best server, c')).
Proof.
  intros Hquery Hd Helements Hscored.
  assert (Hdata : elements_of (Some (PDict d)) = Ok (Some elements)).
  { unfold elements_of.
    assert (truthy (PDict d) = true) as ->.
    { simpl. apply negb_true_iff, bool_decide_eq_false_2. intros ->.
      by rewrite lookup_empty in Hd. }
    unfold Py.get, get_or, dict_get_or. rewrite Hd. simpl.
    by rewrite Helements. }
  unfold _find_circuit_in_complex. rewrite Hquery, Hdata.
  cbn [mbind res_bind]. rewrite Hscored. cbn [mbind res_bind]. split.
  - intros Hlow.
    destruct (Scored.sort_reverse scored) as [| [best_score best] others] eqn:Hs;
      [done |].
    assert (Hin : (best_score, best) ∈ scored).
    { rewrite <- (ScoredFacts.scored_sort_reverse_perm scored), Hs. by left. }
    pose proof (proj1 (Forall_forall _ _) Hlow _ Hin) as Hle. simpl in Hle.
    by rewrite (proj2 (Z.ltb_ge 0 best_score)).
  - intros pre best_score best after -> Hpos Hpre Hafter.
    destruct (ScoredFacts.scored_sort_reverse_first_max pre (best_score, best) after
                Hpre Hafter) as [others ->].
    by rewrite (proj2 (Z.ltb_lt 0 best_score)).
Qed.

End Facts.

Lemma find_circuit_in_complex_best_witness :
  (_find_circuit_in_complex Inputs.complex_answer Inputs.one_server
     Samples.plain_format (PInt 99) (PStr "relation") Inputs.fresh_client).1
  = Ok (PInt 2, PStr "relation", Some "a").
Proof.
  set (run := query Inputs.complex_answer Inputs.one_server
                (complex_query Samples.plain_format (PInt 99) (PStr "relation"))
                (Some 90) Inputs.fresh_client).
  destruct (find_circuit_in_complex_best Inputs.complex_answer
              Inputs.one_server Samples.plain_format (PInt 99)
              (PStr "relation") Inputs.fresh_client run.2
              {[ "elements" := PList Inputs.inside_complex ]} (Some "a")
              (PList Inputs.inside_complex)
              [ (50, Inputs.tagged 1 "way" "highway" "raceway");
                (105, Inputs.tagged 2 "relation" "type" "circuit");
                (100, Inputs.tagged 3 "way" "type" "circuit") ])
    as [_ Hbest]; [reflexivity | reflexivity | reflexivity | by vm_compute |].
  rewrite (Hbest [(50, Inputs.tagged 1 "way" "highway" "raceway")] 105
             (Inputs.tagged 2 "relation" "type" "circuit")
             [(100, Inputs.tagged 3 "way" "type" "circuit")]).
  - reflexivity.
  - reflexivity.
  - lia.
  - constructor; [simpl; lia | constructor].
  - constructor; [simpl; lia | constructor].
Defined.

End ComplexFacts.

Module ServicesMoreFacts.
Import Models Cache Services ServicesMore.

Section Facts.

Context {W : Type}.
Variable clock : W -> string.
Variable format : pyval -> string.
Variable find_ids : string -> W -> list string * W.
Variable sparql_get : string -> W -> res pyval * W.
Variable get_geometry : Z -> string -> W -> option (gmap string pyval) * W.
Variable find_by_wikidata_tags_batch :
  list string -> W -> ODict.odict (option Z * option string * Z) * W.
Variable find_by_name :
  string -> W -> (option Z * option string * option string) * W.
Variable verify_exists : pyval -> pyval -> W -> bool * W.

Local Abbreviation search_osm_id :=
  (Services.search_osm_id clock format find_ids sparql_get get_geometry
     find_by_wikidata_tags_batch find_by_name verify_exists).
Local Abbreviation search :=
  (Services.search clock find_ids sparql_get get_geometry
     find_by_wikidata_tags_batch find_by_name).

(** What [search_osm_id] does with a record it finds in the cache. *)
Lemma cache_hit_found circuit cache w record :
  stored cache (name circuit) = Some record ->
  truthy (dict_get record "osm_id") = true ->
  (verify_exists (dict_get record "osm_id")
     (sr_osm_type (cached_result format record)) w).1 = true ->
  search_osm_id circuit cache w
  = (Ok (Some (cached_result format record)),
     (cache, (verify_exists (dict_get record "osm_id")
                (sr_osm_type (cached_result format record)) w).2)).
Proof.
  intros Hst Hid Hexists. unfold Services.search_osm_id.
  rewrite (ModelsFacts.get_stored _ _ _ Hst).
  unfold from_dict. cbn [Models.osm_id Models.osm_type Models.manual
                         Models.search_method Models.wikidata_id].
  assert (Hnn : is_not_none (dict_get record "osm_id") = true)
    by by destruct (dict_get record "osm_id").
  rewrite Hnn, Hid. simpl. simpl in Hexists.
  destruct (verify_exists _ _ w) as [ex w'].
  simpl in Hexists. by subst ex.
Qed.

Lemma cache_hit_frozen circuit cache w record :
  stored cache (name circuit) = Some record ->
  dict_get record "osm_id" = PNone ->
  truthy (dict_get_or record "manual" (PBool false)) = true ->
  search_osm_id circuit cache w = (Ok None, (cache, w)).
Proof.
  intros Hst Hid Hman. unfold Services.search_osm_id.
  rewrite (ModelsFacts.get_stored _ _ _ Hst).
  unfold from_dict. cbn [Models.osm_id Models.osm_type Models.manual
                         Models.search_method Models.wikidata_id].
  rewrite Hid. simpl. by rewrite Hman.
Qed.

(** X22: A cached record with an OSM id that still exists is the answer: the
    pipeline returns its id, type and Q-ID with the method marked as
    cached, the only call it makes is the existence check, and the cache is
    not written.  A manual record without an OSM id ends the search with
    no result and no call at all. *)
Theorem search_osm_id_cache_hit (circuit : Circuit) (cache : CircuitCache)
    (w : W) (record : gmap string pyval) :
  stored cache (name circuit) = Some record ->
  let osm_id := dict_get record "osm_id" in
  let osm_type := sr_osm_type (cached_result format record) in
  (truthy osm_id = true -> (verify_exists osm_id osm_type w).1 = true ->
   search_osm_id circuit cache w
   = (Ok (Some (cached_result format record)),
      (cache, (verify_exists osm_id osm_type w).2)))
  /\ (osm_id = PNone -> truthy (dict_get_or record "manual" (PBool false)) = true ->
      search_osm_id circuit cache w = (Ok None, (cache, w))).
Proof.
  intros Hst osm_id osm_type. split.
  - by apply cache_hit_found.
  - by apply cache_hit_frozen.
Qed.

Lemma nonzero_Some n z : nonzero n = Some z -> z ≠ 0.
Proof.
  destruct n as [m |]; [| done]. simpl.
  destruct (Z.eqb_spec m 0); [done |]. by intros [= <-].
Qed.

Lemma or_none_Some s t : or_none s = Some t -> t ≠ "".
Proof. destruct s; [done |]. by intros [= <-]. Qed.

(** A new candidate whose id was not checked yet keeps the ids apart. *)
Lemma distinct_add f c :
  distinct f ->
  osm_id c ∉ checked_osm_ids f -> osm_id c ≠ 0 -> osm_type c ≠ "" ->
  distinct {| candidates := candidates f ++ [c];
              checked_osm_ids := {[osm_id c]} ∪ checked_osm_ids f |}.
Proof.
  intros [Hnodup Hall] Hnew Hid Hty. split; simpl.
  - rewrite fmap_app. apply NoDup_app. split; [done |]. split.
    + intros x Hx [-> | []%elem_of_nil]%elem_of_cons.
      apply list_elem_of_fmap in Hx as (d & Heq & Hd).
      destruct (Hall d Hd) as [Hin _]. rewrite <- Heq in Hin. done.
    + apply NoDup_singleton.
  - intros d [Hd | ->%list_elem_of_singleton]%elem_of_app.
    + destruct (Hall d Hd) as (Hin & ? & ?). split; [set_solver | done].
    + split; [set_solver | done].
Qed.

Lemma add_p402_distinct all_qids cnq f entry w f' w' :
  distinct f ->
  add_p402 get_geometry all_qids cnq f entry w = (Ok f', w') ->
  distinct f'.
Proof.
  intros Hf. unfold add_p402. destruct entry as [qid p402_id].
  destruct (nonzero p402_id) as [id |] eqn:Hid; [| by intros [= <- _]].
  case_bool_decide as Hin; [by intros [= <- _] |].
  destruct (ODict.get all_qids qid) as [search_name |]; [| done].
  destruct (get_geometry id "relation" w) as [element_data w1].
  destruct (score_of element_data) as [score |]; [| done].
  intros [= <- _].
  apply (distinct_add f {| osm_id := id; osm_type := "relation"; qid := qid;
                           method := "P402"; search_name := search_name;
                           score := score + 20;
                           from_circuit_name := bool_decide (qid ∈ cnq) |});
    [done | done | by eapply nonzero_Some | done].
Qed.

Lemma add_tagged_distinct all_qids cnq f entry f' :
  distinct f -> add_tagged all_qids cnq f entry = Ok f' -> distinct f'.
Proof.
  intros Hf. unfold add_tagged. destruct entry as [qid [[oid oty] score]].
  destruct (nonzero oid) as [id |] eqn:Hid; [| by intros [= <-]].
  destruct (or_none (default "" oty)) as [ty |] eqn:Hty; [| by intros [= <-]].
  case_bool_decide as Hin; [by intros [= <-] |].
  destruct (ODict.get all_qids qid) as [search_name |]; [| done].
  simpl. intros [= <-].
  apply (distinct_add f {| osm_id := id; osm_type := ty; qid := qid;
                           method := "wikidata_tag";
                           search_name := search_name; score := score;
                           from_circuit_name := bool_decide (qid ∈ cnq) |});
    [done | done | by eapply nonzero_Some | by eapply or_none_Some].
Qed.

Lemma for_each_w_keeps {X} (P : found -> Prop)
    (body : found -> X -> W -> res found * W) (xs : list X) :
  (forall f x w f' w', P f -> body f x w = (Ok f', w') -> P f') ->
  forall f w f' w',
    P f -> for_each_w body xs f w = (Ok f', w') -> P f'.
Proof.
  intros Hbody. induction xs as [| x rest IH]; intros f w f' w' Hf Hrun.
  - simpl in Hrun. by injection Hrun as <- _.
  - simpl in Hrun. destruct (body f x w) as [[f1 | e] w1] eqn:Hx; [| done].
    eapply IH; [| exact Hrun]. by eapply Hbody.
Qed.

Lemma for_each_keeps {X} (P : found -> Prop)
    (body : found -> X -> res found) (xs : list X) :
  (forall f x f', P f -> body f x = Ok f' -> P f') ->
  forall f f', P f -> for_each body xs f = Ok f' -> P f'.
Proof.
  intros Hbody. induction xs as [| x rest IH]; intros f f' Hf Hrun.
  - simpl in Hrun. by injection Hrun as <-.
  - simpl in Hrun. destruct (body f x) as [f1 | e] eqn:Hx; [| done].
    eapply IH; [| exact Hrun]. by eapply Hbody.
Qed.

Lemma wikidata_candidates_distinct all_qids cnq w f w' :
  wikidata_candidates sparql_get get_geometry find_by_wikidata_tags_batch
    all_qids cnq w = (Ok f, w') ->
  distinct f.
Proof.
  assert (Hempty : distinct {| candidates := []; checked_osm_ids := ∅ |}).
  { split; simpl; [constructor |]. by intros c Hc%elem_of_nil. }
  unfold wikidata_candidates.
  destruct all_qids as [| entry rest]; [by intros [= <- _] |].
  destruct (Wikidata.get_p402_batch _ _ _) as [[p402_results | e] w1];
    [| done].
  destruct (for_each_w _ p402_results _ w1) as [[f1 | e] w2] eqn:Hp402;
    [| done].
  destruct (find_by_wikidata_tags_batch _ w2) as [osm_results w3].
  intros [= Htag <-].
  eapply for_each_keeps; [| | exact Htag].
  - intros f0 x f0' Hf0. by apply add_tagged_distinct.
  - eapply for_each_w_keeps; [| exact Hempty | exact Hp402].
    intros f0 x w0 f0' w0' Hf0. by apply add_p402_distinct.
Qed.

Lemma name_search_distinct circuit f w f' w' :
  distinct f ->
  name_search get_geometry find_by_name circuit f w = (Ok f', w') ->
  distinct f'.
Proof.
  intros Hf. unfold name_search.
  destruct (should_try_name_search (candidates f)); [| by intros [= <- _]].
  destruct (find_by_name _ w) as [[[oid oty] server] w1].
  destruct (nonzero oid) as [id |] eqn:Hid; [| by intros [= <- _]].
  destruct (or_none (default "" oty)) as [ty |] eqn:Hty;
    [| by intros [= <- _]].
  case_bool_decide as Hin; [by intros [= <- _] |].
  destruct (get_geometry id ty w1) as [element_data w2].
  destruct (score_of element_data) as [score |]; [| done].
  intros [= <- _].
  match goal with
  | |- distinct {| candidates := _ ++ [?c]; checked_osm_ids := _ |} =>
      apply (distinct_add f c)
  end; [done | done | by eapply nonzero_Some | by eapply or_none_Some].
Qed.

(** X23: The collection steps never produce two candidates for one OSM
    element: whatever the knowledge base and the map answer, the candidate
    list handed to the selection has pairwise different OSM ids, none of
    them zero, and no empty type. *)
Theorem candidates_are_distinct (circuit : Circuit)
    (all_qids : ODict.odict string) (cnq : gset string) (w w1 w2 : W)
    (f f' : found) :
  wikidata_candidates sparql_get get_geometry find_by_wikidata_tags_batch
    all_qids cnq w = (Ok f, w1) ->
  name_search get_geometry find_by_name circuit f w1 = (Ok f', w2) ->
  NoDup (osm_id <$> candidates f')
  /\ (forall c, c ∈ candidates f' -> osm_id c ≠ 0 /\ osm_type c ≠ "")
  /\ candidates f `prefix_of` candidates f'.
Proof.
  intros Hwd Hns.
  pose proof (wikidata_candidates_distinct _ _ _ _ _ Hwd) as Hf.
  destruct (name_search_distinct _ _ _ _ _ Hf Hns) as [Hnodup Hall].
  split; [done |]. split; [intros c Hc; by destruct (Hall c Hc) as (_ & ? & ?) |].
  revert Hns. unfold name_search.
  destruct (should_try_name_search (candidates f)); [| by intros [= <- _]].
  destruct (find_by_name _ w1) as [[[oid oty] server] w3].
  destruct (nonzero oid) as [id |]; [| by intros [= <- _]].
  destruct (or_none (default "" oty)) as [ty |]; [| by intros [= <- _]].
  case_bool_decide; [by intros [= <- _] |].
  destruct (get_geometry id ty w3) as [element_data w4].
  destruct (score_of element_data) as [score |]; [| done].
  intros [= <- _]. simpl. by apply prefix_app_r.
Qed.

(** What [get] reads from a record written by [to_dict]. *)
Lemma to_dict_get (e : CacheEntry) :
  dict_get (to_dict e) "osm_id" = Models.osm_id e
  /\ dict_get (to_dict e) "osm_type" = Models.osm_type e
  /\ dict_get (to_dict e) "wikidata_id" = Models.wikidata_id e
  /\ dict_get_or (to_dict e) "manual" (PBool false) = Models.manual e.
Proof.
  pose proof (ModelsFacts.from_dict_to_dict e) as Hrt.
  repeat split.
  - by apply (f_equal Models.osm_id) in Hrt.
  - by apply (f_equal Models.osm_type) in Hrt.
  - by apply (f_equal Models.wikidata_id) in Hrt.
  - by apply (f_equal Models.manual) in Hrt.
Qed.

(** What the end of a search leaves behind, by its result. *)
Lemma search_outcome circuit cache w result cache' w' :
  writable cache (name circuit) = true ->
  search circuit cache w = (Ok result, (cache', w')) ->
  exists entry,
    stored cache' (name circuit) = Some (to_dict entry)
    /\ match result with
       | Some found =>
           exists best,
             found = result_of best
             /\ Services.osm_id best ≠ 0 /\ Services.osm_type best ≠ ""
             /\ Models.osm_id entry = PInt (Services.osm_id best)
             /\ Models.osm_type entry = PStr (Services.osm_type best)
             /\ Models.wikidata_id entry
                = opt_str (or_none (Services.qid best))
       | None =>
           Models.osm_id entry = PNone /\ Models.manual entry = PBool true
       end.
Proof.
  intros Hw. unfold Services.search.
  destruct (collect_qids _ _ _ _ _) as [[all_qids cnq] w1].
  destruct (wikidata_candidates _ _ _ _ _ w1) as [[f | e] w2] eqn:Hwd;
    [| done].
  destruct (name_search _ _ _ f w2) as [[f' | e] w3] eqn:Hns; [| done].
  pose proof (wikidata_candidates_distinct _ _ _ _ _ Hwd) as Hf.
  destruct (name_search_distinct _ _ _ _ _ Hf Hns) as [_ Hall].
  unfold pick_and_cache.
  destruct (sort_reverse (candidates f')) as [| best others] eqn:Hs.
  - destruct (ODict.keys all_qids) as [| first_qid rest].
    + destruct (CacheFacts.set_writable (clock w3) (name circuit) None None
                  None None None None cache Hw) as (c1 & -> & Hst & _).
      intros [= <- <- _]. by eexists.
    + destruct (CacheFacts.set_writable (clock w3) (name circuit) None None
                  (Some first_qid) None None None cache Hw)
        as (c1 & -> & Hst & _).
      intros [= <- <- _]. by eexists.
  - match goal with
    | |- context [Cache.set ?now ?n ?a ?b ?c ?d ?e ?g cache] =>
        destruct (CacheFacts.set_writable now n a b c d e g cache Hw)
          as (c1 & -> & Hst & _)
    end.
    intros [= <- <- _]. eexists. split; [exact Hst |].
    exists best. split; [done |].
    assert (Hin : best ∈ candidates f').
    { rewrite <- (SelectionFacts.sort_reverse_perm (candidates f')), Hs.
      by left. }
    destruct (Hall best Hin) as (_ & Hid & Hty). by repeat split.
Qed.

(** On a writable name [search_osm_id] comes back empty-handed only from
    the search itself. *)
Lemma search_osm_id_none circuit cache w cache' w' :
  writable cache (name circuit) = true ->
  search_osm_id circuit cache w = (Ok None, (cache', w')) ->
  exists w0, search circuit cache w0 = (Ok None, (cache', w')).
Proof.
  intros Hw. unfold Services.search_osm_id.
  destruct (Cache.get (name circuit) cache) as [[cached |] | e] eqn:Hget;
    [| by exists w | done].
  assert (Hman : truthy (Models.manual cached) = false).
  { revert Hw Hget. unfold writable, Cache.get, dict_get_or.
    destruct (_data cache !! "circuits") as [circuits |]; simpl; [| done].
    destruct circuits as [| | | | | | cs]; try done. simpl.
    case_bool_decide as Hin; [| done]. unfold dict_item.
    destruct (cs !! name circuit) as [[| | | | | | record] |]; try done.
    simpl. intros Hw [= <-]. simpl. unfold dict_get in Hw.
    apply negb_true_iff in Hw. unfold dict_get_or.
    destruct (record !! "manual") as [v |]; simpl in *; done. }
  rewrite Hman, andb_false_r.
  destruct (truthy (Models.osm_id cached)); [| by exists w].
  destruct (verify_exists _ _ w) as [[|] w1]; [done | by exists w1].
Qed.

(** X24: A resolution that found the circuit is reused: after a search on a
    writable name has returned a result, the next call of [search_osm_id]
    answers from the cache with the same OSM id, type and Q-ID, asking only
    whether the element still exists, and writes nothing. *)
Theorem resolved_then_cached (circuit : Circuit) (cache cache' : CircuitCache)
    (w w' : W) (found : SearchResult) :
  writable cache (name circuit) = true ->
  search circuit cache w = (Ok (Some found), (cache', w')) ->
  forall w2,
    (verify_exists (sr_osm_id found) (sr_osm_type found) w2).1 = true ->
    exists again,
      search_osm_id circuit cache' w2
      = (Ok (Some again),
         (cache', (verify_exists (sr_osm_id found) (sr_osm_type found) w2).2))
      /\ sr_osm_id again = sr_osm_id found
      /\ sr_osm_type again = sr_osm_type found
      /\ sr_wikidata_id again = sr_wikidata_id found.
Proof.
  intros Hw Hsearch w2 Hexists.
  destruct (search_outcome _ _ _ _ _ _ Hw Hsearch)
    as (entry & Hst & best & -> & Hid & Hty & Heid & Hety & Hewd).
  destruct (to_dict_get entry) as (Hgid & Hgty & Hgwd & _).
  pose proof (cache_hit_found circuit cache' w2 _ Hst) as Hhit.
  simpl in Hhit, Hexists. rewrite Hgid, Hgty, Heid, Hety in Hhit.
  assert (Hty' : truthy (PStr (Services.osm_type best)) = true).
  { simpl. apply negb_true_iff, String.eqb_neq. done. }
  rewrite Hty' in Hhit.
  eexists. split.
  - apply Hhit; [| exact Hexists].
    simpl. apply negb_true_iff, Z.eqb_neq. done.
  - unfold cached_result. simpl. rewrite Hgid, Hgty, Hgwd, Heid, Hety, Hewd.
    by rewrite Hty'.
Qed.

(** X25: A resolution that found nothing is not tried again: after a search on
    a writable name has returned no result, the record is manual and every
    later call of [search_osm_id] returns no result at once, without any
    request and without writing. *)
Theorem unresolved_then_frozen (circuit : Circuit)
    (cache cache' : CircuitCache) (w w' : W) :
  writable cache (name circuit) = true ->
  search circuit cache w = (Ok None, (cache', w')) ->
  is_manual cache' (name circuit) = true
  /\ forall w2, search_osm_id circuit cache' w2 = (Ok None, (cache', w2)).
Proof.
  intros Hw Hsearch.
  destruct (search_outcome _ _ _ _ _ _ Hw Hsearch)
    as (entry & Hst & Heid & Heman).
  destruct (to_dict_get entry) as (Hgid & _ & _ & Hgman).
  split.
  - unfold is_manual. rewrite Hst.
    change (dict_get (to_dict entry) "manual")
      with (default PNone (to_dict entry !! "manual")).
    unfold dict_get_or in Hgman. rewrite Heman in Hgman.
    destruct (to_dict entry !! "manual") as [v |] eqn:Hv; simpl in *.
    + by subst v.
    + done.
  - intros w2.
    apply (cache_hit_frozen circuit cache' w2 _ Hst);
      [by rewrite Hgid | by rewrite Hgman, Heman].
Qed.

End Facts.

Lemma search_osm_id_cache_hit_witness :
  Services.search_osm_id Inputs.clock Samples.plain_format Inputs.two_ids
    Inputs.sparql_two Inputs.circuit_geometry Inputs.tagged_batch
    Inputs.no_hit Inputs.still_exists Inputs.monza Samples.manual_store 0%nat
  = (Ok (Some (cached_result Samples.plain_format Samples.monza_record)),
     (Samples.manual_store, 1%nat)).
Proof.
  destruct (search_osm_id_cache_hit Inputs.clock Samples.plain_format
              Inputs.two_ids Inputs.sparql_two Inputs.circuit_geometry
              Inputs.tagged_batch Inputs.no_hit Inputs.still_exists
              Inputs.monza Samples.manual_store 0%nat Samples.monza_record
              eq_refl) as [Hhit _].
  exact (Hhit eq_refl eq_refl).
Defined.

Lemma candidates_are_distinct_witness :
  NoDup (osm_id <$> candidates Inputs.imola_found)
  /\ (forall c, c ∈ candidates Inputs.imola_found ->
        osm_id c ≠ 0 /\ osm_type c ≠ "")
  /\ candidates Inputs.imola_found `prefix_of` candidates Inputs.imola_found.
Proof.
  apply (candidates_are_distinct Inputs.sparql_two Inputs.circuit_geometry
           Inputs.tagged_batch Inputs.no_hit Samples.imola
           Inputs.imola_qids.1 Inputs.imola_qids.2 0%nat 4%nat 4%nat
           Inputs.imola_found Inputs.imola_found).
  - vm_compute. reflexivity.
  - vm_compute. reflexivity.
Defined.

Lemma resolved_then_cached_witness :
  exists again,
    Services.search_osm_id Inputs.clock Samples.plain_format Inputs.two_ids
      Inputs.sparql_two Inputs.circuit_geometry Inputs.tagged_batch
      Inputs.no_hit Inputs.still_exists Samples.imola
      Inputs.imola_search.2.1 0%nat
    = (Ok (Some again), (Inputs.imola_search.2.1, 1%nat))
    /\ sr_osm_id again = PInt 555
    /\ sr_osm_type again = PStr "relation"
    /\ sr_wikidata_id again = PStr "Q1".
Proof.
  apply (resolved_then_cached Inputs.clock Samples.plain_format
           Inputs.two_ids Inputs.sparql_two Inputs.circuit_geometry
           Inputs.tagged_batch Inputs.no_hit Inputs.still_exists
           Samples.imola Samples.empty_store Inputs.imola_search.2.1
           0%nat Inputs.imola_search.2.2 Inputs.imola_result).
  - vm_compute. reflexivity.
  - vm_compute. reflexivity.
  - vm_compute. reflexivity.
Defined.

Lemma unresolved_then_frozen_witness :
  is_manual Inputs.imola_unknown.2.1 "Imola" = true
  /\ forall w2,
       Services.search_osm_id Inputs.clock Samples.plain_format Inputs.no_ids
         Inputs.sparql_two Inputs.circuit_geometry Inputs.tagged_batch
         Inputs.no_hit Inputs.still_exists Samples.imola
         Inputs.imola_unknown.2.1 w2
       = (Ok None, (Inputs.imola_unknown.2.1, w2)).
Proof.
  apply (unresolved_then_frozen Inputs.clock Samples.plain_format
           Inputs.no_ids Inputs.sparql_two Inputs.circuit_geometry
           Inputs.tagged_batch Inputs.no_hit Inputs.still_exists
           Samples.imola Samples.empty_store Inputs.imola_unknown.2.1
           0%nat Inputs.imola_unknown.2.2).
  - vm_compute. reflexivity.
  - vm_compute. reflexivity.
Defined.

End ServicesMoreFacts.

Module ProcessFacts.
Import Models Cache Services Process.

Lemma update_version_raise name version self e self' :
  update_version name version self = (Raise e, self') -> self' = self.
Proof.
  unfold update_version.
  destruct (_data self !! "circuits") as [circuits |]; [| done].
  destruct (str_in name circuits) as [[|] | e0]; [| done | by intros [= _ <-]].
  destruct circuits as [| | | | | | cs];
    destruct (item _ name) as [[| | | | | | record] | e1];
    by intros [= _ <-] || done.
Qed.

Section Facts.

Context {W : Type}.
Variable clock : W -> string.
Variable format : pyval -> string.
Variable safe_filename : Circuit -> string.
Variable joinpath : string -> string -> string.
Variable path_exists : string -> W -> bool.
Variable find_ids : string -> W -> list string * W.
Variable sparql_get : string -> W -> res pyval * W.
Variable overpass_get_geometry :
  pyval -> pyval -> W -> (option (gmap string pyval) * option string) * W.
Variable find_by_wikidata_tags_batch :
  list string -> W -> ODict.odict (option Z * option string * Z) * W.
Variable find_by_name :
  string -> W -> (option Z * option string * option string) * W.
Variable verify_exists : pyval -> pyval -> W -> bool * W.
Variable get_version : pyval -> pyval -> W -> option Z * W.
Variable atomic_write : gmap string pyval -> string -> W -> bool * W.

Local Abbreviation search_osm_id :=
  (Process.search_osm_id clock format find_ids sparql_get
     overpass_get_geometry find_by_wikidata_tags_batch find_by_name
     verify_exists).
Local Abbreviation fetch_and_save :=
  (Process.fetch_and_save format overpass_get_geometry get_version
     atomic_write).
Local Abbreviation process_circuit :=
  (Process.process_circuit clock format safe_filename joinpath path_exists
     find_ids sparql_get overpass_get_geometry find_by_wikidata_tags_batch
     find_by_name verify_exists get_version atomic_write).

(** A run that ends without a saved file. *)
Local Ltac not_saved_run :=
  intros [= <- <- _]; split; [by left | by intros r [= <-]].

(** What the last part of [process_circuit] does to the cache, and what
    has happened when it reports a saved file. *)
Lemma fetch_and_save_outcome circuit out_path result remote_ver cache w
    out cache' w' :
  fetch_and_save circuit out_path result remote_ver cache w
  = (out, (cache', w')) ->
  (cache' = cache
   \/ exists r version,
        out = Ok r /\ success r = true /\ is_skipped r = false
        /\ version ≠ 0
        /\ update_version (name circuit) version cache = (Ok (), cache'))
  /\ forall r, out = Ok r -> success r = true ->
       exists w2 element server geojson w3,
         overpass_get_geometry (sr_osm_id result) (sr_osm_type result) w2
         = ((Some element, server), w3)
         /\ GeoJson.element_to_geojson element = Ok geojson
         /\ truthy (dict_get geojson "features") = true
         /\ (atomic_write geojson out_path w3).1 = true.
Proof.
  unfold Process.fetch_and_save.
  destruct (overpass_get_geometry _ _ w) as [[element server] w1] eqn:Hgeo.
  destruct element as [element |];
    [| not_saved_run].
  destruct (truthy (PDict element)); simpl;
    [| not_saved_run].
  destruct (GeoJson.element_to_geojson element) as [geojson | e] eqn:Hconv;
    [| not_saved_run].
  destruct (dict_item geojson "features") as [features | e] eqn:Hfeat;
    [| not_saved_run].
  destruct (truthy features) eqn:Htruthy; simpl;
    [| not_saved_run].
  destruct (atomic_write geojson out_path w1) as [[|] w2] eqn:Hwrite;
    [| not_saved_run].
  assert (Hwritten :
    exists w2 element server geojson w3,
      overpass_get_geometry (sr_osm_id result) (sr_osm_type result) w2
      = ((Some element, server), w3)
      /\ GeoJson.element_to_geojson element = Ok geojson
      /\ truthy (dict_get geojson "features") = true
      /\ (atomic_write geojson out_path w3).1 = true).
  { exists w, element, server, geojson, w1. repeat split; try done.
    - unfold dict_item in Hfeat. unfold dict_get.
      destruct (geojson !! "features"); [| done]. simpl. congruence.
    - by rewrite Hwrite. }
  destruct (match remote_ver with
            | Some v => (Some v, w2)
            | None => get_version (sr_osm_id result) (sr_osm_type result) w2
            end) as [remote w3].
  destruct (nonzero remote) as [version |] eqn:Hver;
    [| not_saved_run].
  destruct (update_version (name circuit) version cache) as [[[] | e] c1]
    eqn:Hupd.
  - intros [= <- <- _]. split; [| done]. right.
    eexists _, version. repeat split; try done.
    by eapply ServicesMoreFacts.nonzero_Some.
  - intros [= <- <- _]. apply update_version_raise in Hupd as ->.
    split; [by left | done].
Qed.

(** X26: The cache is written by [process_circuit] itself only to record the
    version, and only after the file has been saved: whatever the run ends
    with, the cache is as it was, or as [search_osm_id] left it, or the
    run reports a saved file and the cache is what [update_version] made
    of the one [search_osm_id] left, with a version that is not zero. *)
Theorem version_recorded_only_after_save (circuit : Circuit)
    (output_dir : string) (cache : CircuitCache) (check_update : bool)
    (w : W) (out : res ProcessResult) (cache' : CircuitCache) (w' : W) :
  process_circuit circuit output_dir cache check_update w
  = (out, (cache', w')) ->
  let searched := (search_osm_id circuit cache w).2.1 in
  cache' = cache
  \/ cache' = searched
  \/ exists r version,
       out = Ok r /\ success r = true /\ is_skipped r = false
       /\ version ≠ 0
       /\ update_version (name circuit) version searched = (Ok (), cache').
Proof.
  unfold Process.process_circuit.
  destruct (path_exists _ w && negb check_update);
    [intros [= _ <- _]; by left |].
  destruct (search_osm_id circuit cache w) as [[[result |] | e] [c1 w1]];
    simpl; [| intros [= _ <- _]; by right; left
            | intros [= _ <- _]; by right; left].
  intros Hrun. right.
  assert (Hend : forall remote_ver w2,
    fetch_and_save circuit
      (joinpath output_dir (safe_filename circuit ++ ".geojson")%string)
      result remote_ver c1 w2 = (out, (cache', w')) ->
    cache' = c1
    \/ exists r version,
         out = Ok r /\ success r = true /\ is_skipped r = false
         /\ version ≠ 0
         /\ update_version (name circuit) version c1 = (Ok (), cache')).
  { intros remote_ver w2 Hfs.
    by destruct (fetch_and_save_outcome _ _ _ _ _ _ _ _ _ Hfs). }
  destruct (path_exists _ w1 && check_update); [| by eapply Hend].
  destruct (Cache.get (name circuit) c1) as [cached | e];
    [| injection Hrun as _ <- _; by left].
  destruct (get_version _ _ w1) as [remote_ver w2].
  match type of Hrun with
  | match ?guard with _ => _ end = _ =>
      destruct guard as [[|] | e]
  end; [injection Hrun as _ <- _; by left
       | by eapply Hend
       | injection Hrun as _ <- _; by left].
Qed.

(** X27: A saved file is reported only when one was written: if the run ends
    with a success that is not a skip, then [search_osm_id] had a result,
    Overpass returned an element for its id and type, the conversion of
    that element gave a collection with at least one feature, and
    [atomic_write] of that collection to the output path returned true. *)
Theorem success_means_written (circuit : Circuit) (output_dir : string)
    (cache : CircuitCache) (check_update : bool) (w : W)
    (r : ProcessResult) (cache' : CircuitCache) (w' : W) :
  process_circuit circuit output_dir cache check_update w
  = (Ok r, (cache', w')) ->
  success r = true -> is_skipped r = false ->
  exists found c1 w1 w2 element server geojson w3,
    search_osm_id circuit cache w = (Ok (Some found), (c1, w1))
    /\ overpass_get_geometry (sr_osm_id found) (sr_osm_type found) w2
       = ((Some element, server), w3)
    /\ GeoJson.element_to_geojson element = Ok geojson
    /\ truthy (dict_get geojson "features") = true
    /\ (atomic_write geojson
          (joinpath output_dir (safe_filename circuit ++ ".geojson")%string)
          w3).1 = true.
Proof.
  unfold Process.process_circuit.
  destruct (path_exists _ w && negb check_update);
    [by intros [= <- _ _] |].
  destruct (search_osm_id circuit cache w) as [[[result |] | e] [c1 w1]];
    simpl; [| | done].
  - intros Hrun Hsuccess Hskip.
    assert (Hend : forall remote_ver w2,
      fetch_and_save circuit
        (joinpath output_dir (safe_filename circuit ++ ".geojson")%string)
        result remote_ver c1 w2 = (Ok r, (cache', w')) ->
      exists found c1' w1' w2 element server geojson w3,
        (Ok (Some result), (c1, w1))
        = (Ok (Some found) : res (option SearchResult), (c1', w1'))
        /\ overpass_get_geometry (sr_osm_id found) (sr_osm_type found) w2
           = ((Some element, server), w3)
        /\ GeoJson.element_to_geojson element = Ok geojson
        /\ truthy (dict_get geojson "features") = true
        /\ (atomic_write geojson
              (joinpath output_dir
                 (safe_filename circuit ++ ".geojson")%string) w3).1 = true).
    { intros remote_ver w2 Hfs.
      destruct (fetch_and_save_outcome _ _ _ _ _ _ _ _ _ Hfs) as [_ Hok].
      destruct (Hok r eq_refl Hsuccess)
        as (w3 & element & server & geojson & w4 & ?).
      by exists result, c1, w1, w3, element, server, geojson, w4. }
    destruct (path_exists _ w1 && check_update); [| by eapply Hend].
    destruct (Cache.get (name circuit) c1) as [cached | e]; [| done].
    destruct (get_version _ _ w1) as [remote_ver w2].
    match type of Hrun with
    | match ?guard with _ => _ end = _ =>
        destruct guard as [[|] | e]
    end; [by injection Hrun as <- _ _ | by eapply Hend | done].
  - unfold not_found. intros Hrun Hsuccess.
    destruct (Cache.get (name circuit) c1) as [[entry |] | e]; simpl in Hrun;
      [| by injection Hrun as <- | done].
    destruct (truthy (manual entry) && _); [by injection Hrun as <- |].
    destruct (truthy (wikidata_id entry)); by injection Hrun as <-.
Qed.

(** X28: The guidance for a circuit that was not found is shadowed by the
    record the search has just written: on a name the cache may write,
    when the file is not skipped and [search_osm_id] finds nothing, the
    run always ends with the message for hand-made records without an OSM
    id, never with one of the two "Not found in ..." messages. *)
Theorem not_found_reports_manual_skip (circuit : Circuit)
    (output_dir : string) (cache : CircuitCache) (check_update : bool)
    (w : W) (cache' : CircuitCache) (w' : W) :
  writable cache (name circuit) = true ->
  path_exists (joinpath output_dir (safe_filename circuit ++ ".geojson")%string)
    w && negb check_update = false ->
  search_osm_id circuit cache w = (Ok None, (cache', w')) ->
  process_circuit circuit output_dir cache check_update w
  = (Ok manual_skip, (cache', w')).
Proof.
  intros Hw Hskip Hsearch. unfold Process.process_circuit.
  rewrite Hskip, Hsearch.
  destruct (ServicesMoreFacts.search_osm_id_none _ _ _ _ _ _ _ _ _ _ _ _ _
              Hw Hsearch) as [w0 Hs].
  destruct (ServicesMoreFacts.search_outcome _ _ _ _ _ _ _ _ _ _ _ _ Hw Hs)
    as (entry & Hst & Hid & Hman).
  destruct (ServicesMoreFacts.to_dict_get entry) as (Hgid & _ & _ & Hgman).
  unfold not_found. rewrite (ModelsFacts.get_stored _ _ _ Hst).
  unfold from_dict. cbn [mbind res_bind Models.manual Models.osm_id].
  by rewrite Hgid, Hgman, Hid, Hman.
Qed.

End Facts.

Lemma version_recorded_only_after_save_witness :
  Inputs.imola_process.2.1 = Samples.empty_store
  \/ Inputs.imola_process.2.1 = Inputs.imola_searched.2.1
  \/ exists r version,
       Inputs.imola_process.1 = Ok r
       /\ success r = true /\ is_skipped r = false /\ version ≠ 0
       /\ update_version "Imola" version Inputs.imola_searched.2.1
          = (Ok (), Inputs.imola_process.2.1).
Proof.
  apply (version_recorded_only_after_save Inputs.clock Inputs.show
           Inputs.ascii_name Inputs.slash Inputs.nothing_on_disk
           Inputs.two_ids Inputs.sparql_two Inputs.track_geometry
           Inputs.tagged_batch Inputs.no_hit Inputs.still_exists
           Inputs.version_7 Inputs.write_succeeds Samples.imola "tracks"
           Samples.empty_store false 0%nat Inputs.imola_process.1
           Inputs.imola_process.2.1 Inputs.imola_process.2.2).
  vm_compute. reflexivity.
Defined.

Lemma success_means_written_witness :
  exists found c1 w1 w2 element server geojson w3,
    Inputs.imola_searched = (Ok (Some found), (c1, w1))
    /\ Inputs.track_geometry (sr_osm_id found) (sr_osm_type found) w2
       = ((Some element, server), w3)
    /\ GeoJson.element_to_geojson element = Ok geojson
    /\ truthy (dict_get geojson "features") = true
    /\ (Inputs.write_succeeds geojson
          (Inputs.slash "tracks" (Inputs.ascii_name Samples.imola
                                  ++ ".geojson")%string) w3).1 = true.
Proof.
  apply (success_means_written Inputs.clock Inputs.show
           Inputs.ascii_name Inputs.slash Inputs.nothing_on_disk
           Inputs.two_ids Inputs.sparql_two Inputs.track_geometry
           Inputs.tagged_batch Inputs.no_hit Inputs.still_exists
           Inputs.version_7 Inputs.write_succeeds Samples.imola "tracks"
           Samples.empty_store false 0%nat Inputs.imola_saved
           Inputs.imola_process.2.1 Inputs.imola_process.2.2).
  - vm_compute. reflexivity.
  - vm_compute. reflexivity.
  - vm_compute. reflexivity.
Defined.

Lemma not_found_reports_manual_skip_witness :
  Process.process_circuit Inputs.clock Inputs.show Inputs.ascii_name
    Inputs.slash Inputs.nothing_on_disk Inputs.no_ids Inputs.sparql_two
    Inputs.track_geometry Inputs.tagged_batch Inputs.no_hit
    Inputs.still_exists Inputs.version_7 Inputs.write_succeeds Samples.imola
    "tracks" Samples.empty_store false 0%nat
  = (Ok manual_skip,
     (Inputs.unknown_searched.2.1, Inputs.unknown_searched.2.2)).
Proof.
  apply (not_found_reports_manual_skip Inputs.clock Inputs.show
           Inputs.ascii_name Inputs.slash Inputs.nothing_on_disk
           Inputs.no_ids Inputs.sparql_two Inputs.track_geometry
           Inputs.tagged_batch Inputs.no_hit Inputs.still_exists
           Inputs.version_7 Inputs.write_succeeds Samples.imola "tracks"
           Samples.empty_store false 0%nat).
  - vm_compute. reflexivity.
  - vm_compute. reflexivity.
  - vm_compute. reflexivity.
Defined.

End ProcessFacts.

Module CliFacts.
Import Models Cache Cli.

Section Facts.

Context {W : Type}.
Variable clock : W -> string.
Variable format : pyval -> string.
Variable safe_filename : Circuit -> string.
Variable joinpath : string -> string -> string.
Variable path_exists : string -> W -> bool.
Variable find_ids : string -> W -> list string * W.
Variable sparql_get : string -> W -> res pyval * W.
Variable overpass_get_geometry :
  pyval -> pyval -> W -> (option (gmap string pyval) * option string) * W.
Variable find_by_wikidata_tags_batch :
  list string -> W -> ODict.odict (option Z * option string * Z) * W.
Variable find_by_name :
  string -> W -> (option Z * option string * option string) * W.
Variable verify_exists : pyval -> pyval -> W -> bool * W.
Variable get_version : pyval -> pyval -> W -> option Z * W.
Variable atomic_write : gmap string pyval -> string -> W -> bool * W.
Variable sleep : W -> W.

Local Abbreviation process_all :=
  (Cli.process_all clock format safe_filename joinpath path_exists find_ids
     sparql_get overpass_get_geometry find_by_wikidata_tags_batch
     find_by_name verify_exists get_version atomic_write sleep).

Lemma count_tally t circuit result :
  let t' := count t circuit result in
  success t' + skipped t' + failed t' = success t + skipped t + failed t + 1
  /\ (exists more,
        failed_list t' = failed_list t ++ more
        /\ more.*1 `sublist_of` [name circuit]
        /\ failed t' = failed t + Z.of_nat (length more)).
Proof.
  unfold count.
  destruct (Process.success result); [destruct (Process.is_skipped result) |];
    simpl; (split; [lia |]).
  - exists []. rewrite app_nil_r. split; [done |]. split; [| simpl; lia].
    apply sublist_nil_l.
  - exists []. rewrite app_nil_r. split; [done |]. split; [| simpl; lia].
    apply sublist_nil_l.
  - exists [(name circuit, Process.message result)].
    split; [done |]. split; [done | simpl; lia].
Qed.

Lemma process_all_tally circuits output_dir check_update :
  forall t cache w t' state,
    process_all circuits output_dir check_update t cache w = (Ok t', state) ->
    success t' + skipped t' + failed t'
    = success t + skipped t + failed t + Z.of_nat (length circuits)
    /\ exists more,
         failed_list t' = failed_list t ++ more
         /\ more.*1 `sublist_of` (name <$> circuits)
         /\ failed t' = failed t + Z.of_nat (length more).
Proof.
  induction circuits as [| circuit rest IH]; intros t cache w t' state Hrun.
  - injection Hrun as <- _. split; [simpl; lia |].
    exists []. rewrite app_nil_r. split; [done |]. split; [done | simpl; lia].
  - simpl in Hrun.
    destruct (Process.process_circuit _ _ _ _ _ _ _ _ _ _ _ _ _ circuit _ _ _ w)
      as [[result | e] [c1 w1]]; [| done].
    destruct (IH _ _ _ _ _ Hrun) as (Hsum & more & Hlist & Hsub & Hfailed).
    destruct (count_tally t circuit result)
      as (Hsum1 & more1 & Hlist1 & Hsub1 & Hfailed1).
    split; [rewrite Hsum, Hsum1, length_cons; lia |].
    exists (more1 ++ more). rewrite Hlist, Hlist1, app_assoc.
    split; [done |]. split.
    + rewrite fmap_app, fmap_cons.
      change (name circuit :: (name <$> rest))
        with ([name circuit] ++ (name <$> rest)).
      by apply sublist_app.
    + rewrite Hfailed, Hfailed1, length_app. lia.
Qed.

(** X29: Every circuit is counted once: when the loop of [run] gets through the
    list, the numbers of saved, skipped and failed circuits add up to the
    length of the list, the failure list has as many entries as the
    failure counter says, and the names in it are names of the list, in
    the order of the list. *)
Theorem run_counts_every_circuit (circuits : list Circuit)
    (output_dir : string) (check_update : bool) (cache : CircuitCache)
    (w : W) (t : tally) (state : CircuitCache * W) :
  process_all circuits output_dir check_update start cache w = (Ok t, state) ->
  success t + skipped t + failed t = Z.of_nat (length circuits)
  /\ failed t = Z.of_nat (length (failed_list t))
  /\ (failed_list t).*1 `sublist_of` (name <$> circuits).
Proof.
  intros Hrun.
  destruct (process_all_tally _ _ _ _ _ _ _ _ Hrun)
    as (Hsum & more & Hlist & Hsub & Hfailed).
  simpl in *. subst. by repeat split.
Qed.

End Facts.

Lemma run_counts_every_circuit_witness :
  success Inputs.two_circuits_tally + skipped Inputs.two_circuits_tally
  + failed Inputs.two_circuits_tally = Z.of_nat (length Inputs.two_circuits)
  /\ failed Inputs.two_circuits_tally
     = Z.of_nat (length (failed_list Inputs.two_circuits_tally))
  /\ (failed_list Inputs.two_circuits_tally).*1
     `sublist_of` (name <$> Inputs.two_circuits).
Proof.
  apply (run_counts_every_circuit Inputs.clock Inputs.show Inputs.ascii_name
           Inputs.slash Inputs.monza_on_disk Inputs.two_ids
           Inputs.sparql_two Inputs.track_geometry Inputs.tagged_batch
           Inputs.no_hit Inputs.still_exists Inputs.version_7
           Inputs.write_fails Inputs.napping Inputs.two_circuits "tracks"
           false Samples.empty_store 0%nat Inputs.two_circuits_tally
           Inputs.two_circuits_run.2).
  vm_compute. reflexivity.
Defined.

End CliFacts.

Module OsmFacts.
Import Overpass OverpassSearch Osm.

Section Facts.

Context {W : Type}.
Variable format : pyval -> string.
Variable head : string -> Z -> W -> option Z * W.
Variable get_ : string -> Z -> W -> post_outcome * W.

(** X20: The version is the one of the first element: when the API answers 200
    with an object whose elements are a list that starts with an object,
    [get_version] returns what that object holds under [version], and
    [None] if it holds nothing there. *)
Theorem get_version_reads_first_element (osm_id osm_type : pyval) (w w' : W)
    (d element : gmap string pyval) (rest : list pyval) :
  get_ (element_url format osm_id osm_type ++ ".json")%string 10 w
  = (Responded 200 (Ok (PDict d)), w') ->
  d !! "elements" = Some (PList (PDict element :: rest)) ->
  get_version format get_ osm_id osm_type w
  = (Ok (dict_get element "version"), w').
Proof.
  intros Hget Hd. unfold get_version. rewrite Hget. simpl.
  unfold version_of, get_or, dict_get_or. rewrite Hd. reflexivity.
Qed.

(** X21: What [get_version] lets through: an exception leaves it only when the
    API answered 200, and it is none of the three the function catches;
    every other failure gives [None]. *)
Theorem get_version_raises_only_uncaught (osm_id osm_type : pyval) (w w' : W)
    (e : exn) :
  get_version format get_ osm_id osm_type w = (Raise e, w') ->
  caught e = false
  /\ exists json,
       get_ (element_url format osm_id osm_type ++ ".json")%string 10 w
       = (Responded 200 json, w').
Proof.
  unfold get_version.
  destruct (get_ _ 10 w) as [[code json | |] w1]; [| done | done].
  destruct (Z.eqb_spec code 200) as [-> |]; [| done].
  destruct (data ← json; version_of data) as [v | e0]; [done |].
  destruct (caught e0) eqn:Hcaught; [done |].
  intros [= <- <-]. split; [done | by exists json].
Qed.

End Facts.

Lemma get_version_reads_first_element_witness :
  get_version Inputs.show Inputs.element_answer (PInt 555) (PStr "relation")
    0%nat
  = (Ok (PInt 12), 1%nat).
Proof.
  exact (get_version_reads_first_element Inputs.show Inputs.element_answer
           (PInt 555) (PStr "relation") 0%nat 1%nat
           {[ "elements" :=
                PList [PDict {[ "id" := PInt 555; "version" := PInt 12 ]}] ]}
           {[ "id" := PInt 555; "version" := PInt 12 ]} [] eq_refl eq_refl).
Defined.

Lemma get_version_raises_only_uncaught_witness :
  caught AttributeError = false
  /\ exists json,
       Inputs.list_answer
         (element_url Inputs.show (PInt 555) (PStr "relation") ++ ".json")%string
         10 0%nat
       = (Responded 200 json, 1%nat).
Proof.
  apply (get_version_raises_only_uncaught Inputs.show Inputs.list_answer
           (PInt 555) (PStr "relation") 0%nat 1%nat AttributeError).
  vm_compute. reflexivity.
Defined.

End OsmFacts.

Module FindByNameFacts.
Import Overpass OverpassSearch OverpassName.

(** Elements that test true and can all be scored are a list with an
    item in it. *)
Lemma scored_nonempty elements scored :
  truthy elements = true -> scored_elements elements = Ok scored ->
  scored ≠ [].
Proof.
  unfold scored_elements.
  destruct elements as [| | | | s | l | d]; try done; simpl.
  - destruct s as [| c rest]; [done |]. done.
  - destruct l as [| el rest]; [done |]. intros _. simpl.
    destruct (score_el el) as [score |]; [| done]. simpl.
    destruct (comprehension _ rest); [| done]. by intros [= <-].
  - intros Hne. destruct (map_to_list d) as [| [k v] rest] eqn:Hl.
    + apply map_to_list_empty_iff in Hl. subst d.
      by rewrite bool_decide_eq_true_2 in Hne.
    + done.
Qed.

Section Facts.

Context {W : Type}.
Variable post : string -> string -> Z -> W -> post_outcome * W.
Variable config : Config.
Variable format : pyval -> string.

(** After its query [find_by_name] goes on with the first element of
    highest score. *)
Lemma find_by_name_first_max search_name (c c' : client (W:=W)) d server
    elements pre best_score best after :
  query post config (name_query search_name) None c
    = (Ok (Some (PDict d), server), c') ->
  d !! "elements" = Some elements ->
  truthy elements = true ->
  scored_elements elements = Ok (pre ++ (best_score, best) :: after) ->
  Forall (fun x => x.1 < best_score) pre ->
  Forall (fun x => x.1 <= best_score) after ->
  find_by_name post config format search_name c
  = descend post config format best_score best server c'.
Proof.
  intros Hquery Hd Helements Hscored Hpre Hafter.
  assert (Hdata : elements_of (Some (PDict d)) = Ok (Some elements)).
  { unfold elements_of.
    assert (truthy (PDict d) = true) as ->.
    { simpl. apply negb_true_iff, bool_decide_eq_false_2. intros ->.
      by rewrite lookup_empty in Hd. }
    unfold Py.get, get_or, dict_get_or. rewrite Hd. simpl.
    by rewrite Helements. }
  unfold find_by_name. rewrite Hquery, Hdata, Hscored.
  by destruct (ScoredFacts.scored_sort_reverse_first_max pre
                 (best_score, best) after Hpre Hafter) as [others ->].
Qed.

(** X18: The name search takes the best-scored element: when the query returns
    elements that can all be scored and the first element of highest
    score is not a complex, [find_by_name] returns its id and type with
    the server that answered, after that one query. *)
Theorem find_by_name_best (search_name : string) (c c' : client (W:=W))
    (d : gmap string pyval) (server : option string) (elements : pyval)
    (pre after : list (Z * pyval)) (best_score : Z) (best : pyval) :
  query post config (name_query search_name) None c
    = (Ok (Some (PDict d), server), c') ->
  d !! "elements" = Some elements ->
  truthy elements = true ->
  scored_elements elements = Ok (pre ++ (best_score, best) :: after) ->
  Forall (fun x => x.1 < best_score) pre ->
  Forall (fun x => x.1 <= best_score) after ->
  is_complex best_score best = Ok false ->
  find_by_name post config format search_name c
  = (id_and_type best server, c').
Proof.
  intros Hquery Hd Helements Hscored Hpre Hafter Hcomplex.
  rewrite (find_by_name_first_max _ _ _ _ _ _ _ _ _ _ Hquery Hd Helements
             Hscored Hpre Hafter).
  unfold descend. by rewrite Hcomplex.
Qed.

(** X19: A complex is searched inside, and returned itself when nothing is
    found there: when the first element of highest score is a complex
    with an id and a type, [find_by_name] returns what
    [_find_circuit_in_complex] finds inside it if that has an id that
    tests true, with the server of the inner query if it names one; if
    not it returns the id and type of the complex. *)
Theorem find_by_name_descends (search_name : string)
    (c c' c'' : client (W:=W)) (d : gmap string pyval)
    (server srv : option string) (elements : pyval)
    (pre after : list (Z * pyval)) (best_score : Z)
    (best parent_id parent_type inner_id inner_type : pyval) :
  query post config (name_query search_name) None c
    = (Ok (Some (PDict d), server), c') ->
  d !! "elements" = Some elements ->
  truthy elements = true ->
  scored_elements elements = Ok (pre ++ (best_score, best) :: after) ->
  Forall (fun x => x.1 < best_score) pre ->
  Forall (fun x => x.1 <= best_score) after ->
  is_complex best_score best = Ok true ->
  item best "id" = Ok parent_id ->
  item best "type" = Ok parent_type ->
  _find_circuit_in_complex post config format parent_id parent_type c'
  = (Ok (inner_id, inner_type, srv), c'') ->
  find_by_name post config format search_name c
  = (if truthy inner_id
     then Ok (inner_id, inner_type, or_server srv server)
     else Ok (parent_id, parent_type, server), c'').
Proof.
  intros Hquery Hd Helements Hscored Hpre Hafter Hcomplex Hid Hty Hinner.
  rewrite (find_by_name_first_max _ _ _ _ _ _ _ _ _ _ Hquery Hd Helements
             Hscored Hpre Hafter).
  unfold descend. rewrite Hcomplex, Hid, Hty. cbn [mbind res_bind].
  rewrite Hinner. destruct (truthy inner_id); [done |].
  unfold id_and_type. by rewrite Hid, Hty.
Qed.

End Facts.

Lemma find_by_name_best_witness :
  find_by_name Inputs.complex_answer Inputs.one_server Inputs.show "Monza"
    Inputs.fresh_client
  = (Ok (PInt 2, PStr "relation", Some "a"),
     (query Inputs.complex_answer Inputs.one_server (name_query "Monza") None
        Inputs.fresh_client).2).
Proof.
  apply (find_by_name_best Inputs.complex_answer Inputs.one_server
           Inputs.show "Monza" Inputs.fresh_client _
           {[ "elements" := PList Inputs.inside_complex ]} (Some "a")
           (PList Inputs.inside_complex)
           [(50, Inputs.tagged 1 "way" "highway" "raceway")]
           [(100, Inputs.tagged 3 "way" "type" "circuit")]
           105 (Inputs.tagged 2 "relation" "type" "circuit")).
  - reflexivity.
  - reflexivity.
  - reflexivity.
  - vm_compute. reflexivity.
  - constructor; [simpl; lia | constructor].
  - constructor; [simpl; lia | constructor].
  - vm_compute. reflexivity.
Defined.

Lemma find_by_name_descends_witness :
  (find_by_name Inputs.site_then_inside Inputs.one_server Inputs.show "Monza"
     Inputs.fresh_client).1
  = Ok (PInt 2, PStr "relation", Some "a").
Proof.
  set (first := query Inputs.site_then_inside Inputs.one_server
                  (name_query "Monza") None Inputs.fresh_client).
  set (second := _find_circuit_in_complex Inputs.site_then_inside
                   Inputs.one_server Inputs.show (PInt 9) (PStr "relation")
                   first.2).
  rewrite (find_by_name_descends Inputs.site_then_inside Inputs.one_server
             Inputs.show "Monza" Inputs.fresh_client first.2 second.2
             {[ "elements" := PList [Inputs.site] ]} (Some "a") (Some "a")
             (PList [Inputs.site]) [] []
             (-25) Inputs.site (PInt 9) (PStr "relation")
             (PInt 2) (PStr "relation")).
  - reflexivity.
  - reflexivity.
  - reflexivity.
  - reflexivity.
  - vm_compute. reflexivity.
  - constructor.
  - constructor.
  - vm_compute. reflexivity.
  - reflexivity.
  - reflexivity.
  - vm_compute. reflexivity.
Defined.

End FindByNameFacts.
